(** * LOGOS-κ: the axiom registry, event record, relation agent, FAIR encoder
    and Semantic-DB serializer, embedded from the Python sources.

    Python [float] is IEEE 754 binary64 and is embedded as Rocq's primitive
    [float]; Python [int] is [Z]; Python [str] is a list of code points. *)

From Stdlib Require Import ZArith NArith Lia Floats.
From stdpp Require Import base list strings gmap sorting.

Set Warnings "-inexact-float,-register-all".

(** ** Python strings *)

(** A Python [str] is a sequence of Unicode code points; comparison, [split]
    and [sorted] all work on code points. *)
Abbreviation str := (list N).

(** Source literals are written as UTF-8 text and decoded to code points. *)
Fixpoint utf8_decode (bs : list N) : str :=
  match bs with
  | [] => []
  | b :: rest =>
    if (b <? 128)%N then b :: utf8_decode rest
    else if (b <? 224)%N then
      match rest with
      | b1 :: rest1 =>
        N.lor (N.shiftl (N.land b 31) 6) (N.land b1 63) :: utf8_decode rest1
      | _ => []
      end
    else if (b <? 240)%N then
      match rest with
      | b1 :: b2 :: rest2 =>
        N.lor (N.shiftl (N.land b 15) 12)
          (N.lor (N.shiftl (N.land b1 63) 6) (N.land b2 63)) :: utf8_decode rest2
      | _ => []
      end
    else
      match rest with
      | b1 :: b2 :: b3 :: rest3 =>
        N.lor (N.shiftl (N.land b 7) 18)
          (N.lor (N.shiftl (N.land b1 63) 12)
             (N.lor (N.shiftl (N.land b2 63) 6) (N.land b3 63))) :: utf8_decode rest3
      | _ => []
      end
  end.

Definition u (s : string) : str :=
  utf8_decode (map Ascii.N_of_ascii (String.list_ascii_of_string s)).
Arguments u : simpl never.

(** The double quote, which the f-strings of the sources embed. *)
Definition dquote : str := [34%N].

(** A literal that embeds double quotes, written here with ['] in their
    place (the literals concerned hold no single quote), and the line feed. *)
Definition uq (s : string) : str :=
  map (fun c => if (c =? 39)%N then 34%N else c) (u s).
Definition newline : str := [10%N].

(** [str.isspace] on one code point: the characters [str.split()] splits on. *)
Definition isspace (c : N) : bool :=
  ((9 <=? c) && (c <=? 13) || (28 <=? c) && (c <=? 32) || (c =? 133) || (c =? 160)
   || (c =? 5760) || (8192 <=? c) && (c <=? 8202) || (c =? 8232) || (c =? 8233)
   || (c =? 8239) || (c =? 8287) || (c =? 12288))%N.

(** [scan s] is the word that starts [s] (empty when [s] starts with white
    space or is empty) and the words that follow it. *)
Fixpoint scan (s : str) : str * list str :=
  match s with
  | [] => ([], [])
  | c :: s' =>
    let '(w, ws) := scan s' in
    if isspace c then ([], match w with [] => ws | _ => w :: ws end)
    else (c :: w, ws)
  end.

(** [s.split()]: the maximal runs of non-space characters, in order. *)
Definition split (s : str) : list str :=
  let '(w, ws) := scan s in
  match w with [] => ws | _ => w :: ws end.

(** [s.replace(" ", "-")]. *)
Definition replace_space_hyphen (s : str) : str :=
  map (fun c => if (c =? 32)%N then 45%N else c) s.

(** A character-wise instance of [str.lower], used where a theorem is
    evaluated on concrete text: the capital letters of Basic Latin, Latin-1,
    Greek and Cyrillic go to their small letters, every other code point is
    kept.  The functions below take [lower] as an argument and the general
    theorems hold for every such function. *)
Definition lower_cp (c : N) : N :=
  (if (65 <=? c) && (c <=? 90) then c + 32
   else if (192 <=? c) && (c <=? 222) && negb (c =? 215) then c + 32
   else if (913 <=? c) && (c <=? 939) && negb (c =? 930) then c + 32
   else if (1040 <=? c) && (c <=? 1071) then c + 32
   else if (1024 <=? c) && (c <=? 1039) then c + 80
   else c)%N.

Definition simple_lower (s : str) : str := map lower_cp s.

(** Comparison of two [str] values, as [<=] of Python: lexicographic on code
    points, a proper prefix first. *)
Fixpoint str_leb (s t : str) : bool :=
  match s, t with
  | [], _ => true
  | _ :: _, [] => false
  | a :: s', b :: t' =>
    if (a <? b)%N then true else if (b <? a)%N then false else str_leb s' t'
  end.

Definition str_le (s t : str) : Prop := str_leb s t = true.

#[global] Instance str_le_dec s t : Decision (str_le s t).
Proof. unfold str_le. apply _. Defined.

(** [sorted(keywords)] on a set of strings. *)
Definition sorted (kws : gset str) : list str := merge_sort str_le (elements kws).

(** Decimal digits of a natural number, and zero padding as [%0wd]. *)
Fixpoint uint_cps (d : Decimal.uint) : str :=
  match d with
  | Decimal.Nil => []
  | Decimal.D0 d => 48%N :: uint_cps d
  | Decimal.D1 d => 49%N :: uint_cps d
  | Decimal.D2 d => 50%N :: uint_cps d
  | Decimal.D3 d => 51%N :: uint_cps d
  | Decimal.D4 d => 52%N :: uint_cps d
  | Decimal.D5 d => 53%N :: uint_cps d
  | Decimal.D6 d => 54%N :: uint_cps d
  | Decimal.D7 d => 55%N :: uint_cps d
  | Decimal.D8 d => 56%N :: uint_cps d
  | Decimal.D9 d => 57%N :: uint_cps d
  end.

Definition dec (n : N) : str := uint_cps (N.to_uint n).

Definition zfill (w : nat) (s : str) : str := replicate (w - length s) 48%N ++ s.

(** [str(n)] for an [int], as an f-string renders it. *)
Definition str_of_int (z : Z) : str :=
  if (z <? 0)%Z then 45%N :: dec (Z.to_N (- z)) else dec (Z.to_N z).

(** [sep.join(l)]. *)
Fixpoint join (sep : str) (l : list str) : str :=
  match l with
  | [] => []
  | [s] => s
  | s :: l' => s ++ sep ++ join sep l'
  end.

(** ** Exceptions *)

Inductive exn :=
  | OntologicalLimitError (msg : str)
  | NameError (name : str)
  | KeyError (key : str)
  | AttributeError (attr : str)
  | OverflowError (msg : str)
  | ZeroDivisionError (msg : str).

Inductive result (A : Type) :=
  | Ok (a : A)
  | Raise (e : exn).
Arguments Ok {A} a.
Arguments Raise {A} e.

Definition bind {A B} (r : result A) (k : A -> result B) : result B :=
  match r with
  | Ok a => k a
  | Raise e => Raise e
  end.

Notation "x <- r ;; k" := (bind r (fun x => k))
  (at level 100, r at next level, right associativity).

Definition raises {A} (r : result A) : Prop :=
  match r with Ok _ => False | Raise _ => True end.

(** ** Dates, values and dictionaries *)

(** A naive [datetime]: the fields the object holds. *)
Record datetime := mk_datetime {
  year : N; month : N; day : N;
  hour : N; minute : N; second : N; microsecond : N
}.

(** [datetime.isoformat()]. *)
Definition isoformat (d : datetime) : str :=
  zfill 4 (dec (year d)) ++ u "-" ++ zfill 2 (dec (month d)) ++ u "-"
  ++ zfill 2 (dec (day d)) ++ u "T" ++ zfill 2 (dec (hour d)) ++ u ":"
  ++ zfill 2 (dec (minute d)) ++ u ":" ++ zfill 2 (dec (second d))
  ++ (if (microsecond d =? 0)%N then [] else u "." ++ zfill 6 (dec (microsecond d))).

(** The values that the dictionaries of the sources hold.  [VObject] stands
    for a module or class object bound to a global name. *)
Inductive PyVal :=
  | VNone
  | VBool (b : bool)
  | VInt (z : Z)
  | VFloat (f : float)
  | VStr (s : str)
  | VDatetime (d : datetime)
  | VList (l : list PyVal)
  | VDict (d : list (str * PyVal))
  | VObject (name : str).

(** A [dict] keeps its items in insertion order. *)
Abbreviation pydict := (list (str * PyVal)).

Fixpoint dict_lookup (d : pydict) (k : str) : option PyVal :=
  match d with
  | [] => None
  | (k', v) :: d' => if decide (k' = k) then Some v else dict_lookup d' k
  end.

(** [d[k]]. *)
Definition getitem (d : pydict) (k : str) : result PyVal :=
  match dict_lookup d k with
  | Some v => Ok v
  | None => Raise (KeyError k)
  end.

(** [d.get(k, default)]. *)
Definition dict_get (d : pydict) (k : str) (default : PyVal) : PyVal :=
  match dict_lookup d k with
  | Some v => v
  | None => default
  end.

(** [d[k] = v]: the value is replaced in place, a new key goes last. *)
Fixpoint dict_set (d : pydict) (k : str) (v : PyVal) : pydict :=
  match d with
  | [] => [(k, v)]
  | (k', v') :: d' =>
    if decide (k' = k) then (k, v) :: d' else (k', v') :: dict_set d' k v
  end.

Definition VStrs (l : list str) : PyVal := VList (map VStr l).

(** What the host hands out during one call, in call order: the text of the
    i-th [uuid.uuid4()] and the i-th reading of each clock. *)
Record Host := mk_host {
  uuid4 : nat -> str;
  now : nat -> datetime;
  utcnow : nat -> datetime
}.

(** ** Floating point *)

(** [min(a, b)] and [max(a, b)] of Python keep the first argument unless the
    second is strictly smaller (greater). *)
Definition pymin (a b : float) : float := if (b <? a)%float then b else a.
Definition pymax (a b : float) : float := if (a <? b)%float then b else a.

(** [float(n)] for an [int]: the nearest binary64 value, ties to even, and
    [OverflowError] when that is out of range. *)
Definition float_of_int (z : Z) : result float :=
  match binary_normalize prec emax z 0 false with
  | S754_infinity _ => Raise (OverflowError (u "int too large to convert to float"))
  | sf => Ok (SF2Prim sf)
  end.

(** [a / b] on two [int]s whose magnitudes are below 2^53 (here: list
    lengths), where true division is the binary64 quotient. *)
Definition int_truediv (a b : Z) : result float :=
  if (b =? 0)%Z then Raise (ZeroDivisionError (u "division by zero"))
  else fa <- float_of_int a ;; fb <- float_of_int b ;; Ok (fa / fb)%float.

(** [a / b] on two [float]s. *)
Definition float_truediv (a b : float) : result float :=
  if (b =? 0)%float then Raise (ZeroDivisionError (u "float division by zero"))
  else Ok (a / b)%float.

(** Rounding of the rational [p / 2^k] to an integer, ties to even. *)
Definition round_half_even (p : Z) (k : Z) : Z :=
  let q := (2 ^ k)%Z in
  let n := (p / q)%Z in
  let r := (p mod q)%Z in
  if (2 * r <? q)%Z then n
  else if (q <? 2 * r)%Z then (n + 1)%Z
  else if Z.even n then n else (n + 1)%Z.

(** [f"{x:.2f}"]: the exact value of [x] rounded to two decimals. *)
Definition fmt_2f (x : float) : str :=
  match Prim2SF x with
  | S754_nan => u "nan"
  | S754_infinity s => if s then u "-inf" else u "inf"
  | S754_zero s => if s then u "-0.00" else u "0.00"
  | S754_finite s m e =>
    let n := if (0 <=? e)%Z then (Z.pos m * 2 ^ e * 100)%Z
             else round_half_even (Z.pos m * 100) (- e) in
    (if s then u "-" else []) ++ dec (Z.to_N (n / 100)) ++ u "."
    ++ zfill 2 (dec (Z.to_N (n mod 100)))
  end.

(** ** core/axiom.py *)

Module OntologicalAxioms.

Definition ABSOLUTISM_KEYWORDS : gset str :=
  {[ u "всегда"; u "никогда"; u "единственный"; u "единственно";
     u "абсолютно"; u "непреложный"; u "неоспоримо" ]}.

Definition absolutism_message : str :=
  u "Обнаружена абсолютистская формулировка. "
  ++ u "LOGOS-κ запрещает заявления без признания границы (см. Ω-Принцип).".

(** [validate_no_absolutism(text)]; [None] is the absent text.  [lower] is
    [str.lower]. *)
Definition validate_no_absolutism (lower : str -> str) (text : option str)
  : result unit :=
  match text with
  | None => Ok tt
  | Some [] => Ok tt
  | Some s =>
    let words : gset str := list_to_set (split (lower s)) in
    if decide (ABSOLUTISM_KEYWORDS ∩ words ≠ ∅)
    then Raise (OntologicalLimitError absolutism_message)
    else Ok tt
  end.

(** [DEFAULT_FAIR_CARE_METADATA], built when the class body runs, at
    [imported]. *)
Definition DEFAULT_FAIR_CARE_METADATA (imported : datetime) : pydict :=
  [ (u "creator", VStr (u "LOGOS-κ System"));
    (u "created", VStr (isoformat imported ++ u "Z"));
    (u "license", VStr (u "CC BY-NC-SA 4.0"));
    (u "format_standard", VStr (u "JSON-LD"));
    (u "vocabulary", VStr (u "schema.org"));
    (u "access_protocol", VStr (u "REST API + GraphQL"));
    (u "authentication", VStr (u "open"));
    (u "community_standards", VStrs [u "FAIR"; u "CARE"; u "Λ-Протокол 6.0"]);
    (u "provenance", VDict
       [ (u "generated_by", VStr (u "LOGOS-κ v1.0"));
         (u "derived_from", VStrs [u "Λ-Универсум Приложения I-XXVI"]) ]);
    (u "collective_benefit_statement", VStr
       (u "Этот контекст способствует коллективному пониманию "
        ++ u "онтологических трансформаций и симбиотическому со-мышлению.")) ].

Definition get_default_fair_care_metadata (imported t : datetime) : pydict :=
  dict_set (DEFAULT_FAIR_CARE_METADATA imported) (u "created")
    (VStr (isoformat t ++ u "Z")).

(** The technical limits and their checks. *)
Definition MAX_ENTITIES : Z := 1000.
Definition MAX_RECURSION_DEPTH : Z := 50.
Definition MAX_ANALYSIS_DEPTH : Z := 15.
Definition MAX_PHI_CALLS_PER_EXPRESSION : Z := 3.

Definition check_entity_count (count : Z) : result unit :=
  if (MAX_ENTITIES <? count)%Z then
    Raise (OntologicalLimitError
      (u "Превышен лимит сущностей: " ++ str_of_int count ++ u " > "
       ++ str_of_int MAX_ENTITIES ++ u ". "
       ++ u "Это защита от онтологической гиперинфляции (см. Приложение XIV)."))
  else Ok tt.

Definition check_recursion_depth (depth : Z) : result unit :=
  if (MAX_RECURSION_DEPTH <? depth)%Z then
    Raise (OntologicalLimitError
      (u "Глубина рекурсии превышена: " ++ str_of_int depth ++ u " > "
       ++ str_of_int MAX_RECURSION_DEPTH ++ u ". "
       ++ u "Система активирует Ω-автомат для возврата к инварианту."))
  else Ok tt.

Definition check_analysis_depth (depth : Z) : result unit :=
  if (MAX_ANALYSIS_DEPTH <? depth)%Z then
    Raise (OntologicalLimitError
      (u "Глубина анализа превышена: " ++ str_of_int depth ++ u " > "
       ++ str_of_int MAX_ANALYSIS_DEPTH ++ u ". "
       ++ u "Возможно, вы пытаетесь анализировать Хаос напрямую."))
  else Ok tt.

Definition check_phi_calls (calls : Z) : result unit :=
  if (MAX_PHI_CALLS_PER_EXPRESSION <? calls)%Z then
    Raise (OntologicalLimitError
      (u "Слишком много вызовов Φ: " ++ str_of_int calls ++ u " > "
       ++ str_of_int MAX_PHI_CALLS_PER_EXPRESSION ++ u ". "
       ++ u "Диалог с Эфосом требует осмысленности, а не автоматизма."))
  else Ok tt.

Definition REQUIRED_BLIND_SPOTS : list (str * str) :=
  [ (u "chaos", u "Принципиально неразрешимо (Хаос)");
    (u "self_reference", u "Система не может полностью познать себя");
    (u "qualia", u "Феноменальный опыт другого сознания");
    (u "phi_boundary", u "Граница между человеческим и искусственным сознанием") ].

(** [ensure_required_blind_spots(current_blind_spots)].  [set_repr] is the
    text that Python prints for a set of strings; the order of the elements
    in it is the interpreter's. *)
Definition ensure_required_blind_spots (set_repr : gset str -> str)
    (current_blind_spots : list (str * str)) : result unit :=
  let missing : gset str :=
    list_to_set (map fst REQUIRED_BLIND_SPOTS)
    ∖ list_to_set (map fst current_blind_spots) in
  if decide (missing ≠ ∅) then
    Raise (OntologicalLimitError
      (u "Отсутствуют обязательные слепые пятна: " ++ set_repr missing ++ u ". "
       ++ u "Система не может функционировать без признания непознаваемого."))
  else Ok tt.

End OntologicalAxioms.

(** ** core/event.py *)

Module OntologicalEvent.

#[local] Open Scope float_scope.

Record t := mk {
  id : str;
  timestamp : datetime;
  gesture : str;
  event_version : str;
  operands : list str;
  result_ : PyVal;
  entities_affected : list str;
  blind_spots_involved : list str;
  coherence_before : float;
  coherence_after : float;
  tensions_resolved : Z;
  tensions_created : Z;
  uncertainty_level : float;
  phi_meta : list str;
  omega_trigger : bool;
  habeas_weight_id : str;
  creator_intent : option str;
  fair_care_meta : pydict;
  provenance : pydict
}.

(** [bool(l)] for a list. *)
Definition truthy {A} (l : list A) : bool :=
  match l with [] => false | _ => true end.

(** [significance_score()].  An [int] count meets a [float] factor, so it
    is converted first, the resolved count before the created one. *)
Definition significance_score (self : t) : result float :=
  let coherence_change := abs (coherence_after self - coherence_before self) in
  let meta_weight := if truthy (phi_meta self) then 0.2 else 0.0 in
  resolved <- float_of_int (tensions_resolved self) ;;
  created <- float_of_int (tensions_created self) ;;
  let tension_net := resolved * 0.2 - created * 0.1 in
  let blind_spot_weight :=
    if truthy (blind_spots_involved self) then 0.1 else 0.0 in
  let score :=
    pymin 1.0 (coherence_change * 0.4 + meta_weight + tension_net + blind_spot_weight) in
  Ok (pymax 0.0 score).

(** [str(x)] of the values an event result is given here; other values
    are rendered by an external [repr]. *)
Definition to_semantic_db_record (py_str : PyVal -> str) (self : t)
  : result pydict :=
  score <- significance_score self ;;
  Ok [ (u "id", VStr (id self));
       (u "timestamp", VStr (isoformat (timestamp self)));
       (u "gesture", VStr (gesture self));
       (u "operands", VStrs (operands self));
       (u "result", match result_ self with
                    | VNone => VNone
                    | v => VStr (py_str v)
                    end);
       (u "entities_affected", VStrs (entities_affected self));
       (u "blind_spots_involved", VStrs (blind_spots_involved self));
       (u "coherence", VDict
          [ (u "before", VFloat (coherence_before self));
            (u "after", VFloat (coherence_after self));
            (u "delta", VFloat (coherence_after self - coherence_before self)) ]);
       (u "tensions", VDict
          [ (u "resolved", VInt (tensions_resolved self));
            (u "created", VInt (tensions_created self)) ]);
       (u "phi_meta", VStrs (phi_meta self));
       (u "omega_trigger", VBool (omega_trigger self));
       (u "significance_score", VFloat score);
       (u "metadata", VDict (fair_care_meta self));
       (u "provenance", VDict (provenance self)) ].

(** Attribute assignments [self.f = v]. *)
Definition set_habeas_weight_id (v : str) (e : t) : t :=
  mk (id e) (timestamp e) (gesture e) (event_version e) (operands e) (result_ e)
     (entities_affected e) (blind_spots_involved e) (coherence_before e)
     (coherence_after e) (tensions_resolved e) (tensions_created e)
     (uncertainty_level e) (phi_meta e) (omega_trigger e) v (creator_intent e)
     (fair_care_meta e) (provenance e).
Definition set_fair_care_meta (v : pydict) (e : t) : t :=
  mk (id e) (timestamp e) (gesture e) (event_version e) (operands e) (result_ e)
     (entities_affected e) (blind_spots_involved e) (coherence_before e)
     (coherence_after e) (tensions_resolved e) (tensions_created e)
     (uncertainty_level e) (phi_meta e) (omega_trigger e) (habeas_weight_id e)
     (creator_intent e) v (provenance e).

(** [_init_habeas_weight()]: a UUID is drawn only for an empty id; [fresh]
    is its text. *)
Definition _init_habeas_weight (fresh : str) (self : t) : t :=
  match habeas_weight_id self with
  | [] => set_habeas_weight_id fresh self
  | _ => self
  end.

Definition _init_fair_care_metadata (self : t) : t :=
  set_fair_care_meta
    [ (u "event_id", VStr (id self));
      (u "type", VStr (u "OntologicalEvent"));
      (u "license", VStr (u "CC BY-NC-SA 4.0"));
      (u "created", VStr (isoformat (timestamp self)));
      (u "gesture", VStr (gesture self));
      (u "creator", VStr (u "LOGOS-κ System"));
      (u "community_standards", VStrs [u "FAIR"; u "CARE"; u "Λ-Протокол 6.0"]);
      (u "access_protocol", VStr (u "open"));
      (u "habeas_weight_id", VStr (habeas_weight_id self)) ]
    self.

Definition __post_init__ (fresh : str) (self : t) : t :=
  _init_fair_care_metadata (_init_habeas_weight fresh self).

End OntologicalEvent.

(** ** core/relation.py *)

Module OntologicalRelation.

#[local] Open Scope float_scope.

Record t := mk {
  id : str;
  source : str;
  target : str;
  type : str;
  context_id : option str;
  meaning : str;
  intensity : float;
  certainty : float;
  coherence_contribution : float;
  created : datetime;
  last_activated : option datetime;
  lifespan : option float;
  activation_count : Z;
  phi_meta : list str;
  blind_spots : list str;
  habeas_weight_id : str;
  fair_care_metadata : pydict;
  is_active : bool;
  tension_level : float;
  transformation_history : list pydict
}.

(** Attribute assignments [self.f = v]. *)
Definition set_meaning (v : str) (r : t) : t :=
  mk (id r) (source r) (target r) (type r) (context_id r) v (intensity r)
     (certainty r) (coherence_contribution r) (created r) (last_activated r)
     (lifespan r) (activation_count r) (phi_meta r) (blind_spots r)
     (habeas_weight_id r) (fair_care_metadata r) (is_active r) (tension_level r)
     (transformation_history r).
Definition set_certainty (v : float) (r : t) : t :=
  mk (id r) (source r) (target r) (type r) (context_id r) (meaning r) (intensity r)
     v (coherence_contribution r) (created r) (last_activated r)
     (lifespan r) (activation_count r) (phi_meta r) (blind_spots r)
     (habeas_weight_id r) (fair_care_metadata r) (is_active r) (tension_level r)
     (transformation_history r).
Definition set_last_activated (v : option datetime) (r : t) : t :=
  mk (id r) (source r) (target r) (type r) (context_id r) (meaning r) (intensity r)
     (certainty r) (coherence_contribution r) (created r) v
     (lifespan r) (activation_count r) (phi_meta r) (blind_spots r)
     (habeas_weight_id r) (fair_care_metadata r) (is_active r) (tension_level r)
     (transformation_history r).
Definition set_activation_count (v : Z) (r : t) : t :=
  mk (id r) (source r) (target r) (type r) (context_id r) (meaning r) (intensity r)
     (certainty r) (coherence_contribution r) (created r) (last_activated r)
     (lifespan r) v (phi_meta r) (blind_spots r)
     (habeas_weight_id r) (fair_care_metadata r) (is_active r) (tension_level r)
     (transformation_history r).
Definition set_habeas_weight_id (v : str) (r : t) : t :=
  mk (id r) (source r) (target r) (type r) (context_id r) (meaning r) (intensity r)
     (certainty r) (coherence_contribution r) (created r) (last_activated r)
     (lifespan r) (activation_count r) (phi_meta r) (blind_spots r)
     v (fair_care_metadata r) (is_active r) (tension_level r)
     (transformation_history r).
Definition set_fair_care_metadata (v : pydict) (r : t) : t :=
  mk (id r) (source r) (target r) (type r) (context_id r) (meaning r) (intensity r)
     (certainty r) (coherence_contribution r) (created r) (last_activated r)
     (lifespan r) (activation_count r) (phi_meta r) (blind_spots r)
     (habeas_weight_id r) v (is_active r) (tension_level r)
     (transformation_history r).
Definition set_is_active (v : bool) (r : t) : t :=
  mk (id r) (source r) (target r) (type r) (context_id r) (meaning r) (intensity r)
     (certainty r) (coherence_contribution r) (created r) (last_activated r)
     (lifespan r) (activation_count r) (phi_meta r) (blind_spots r)
     (habeas_weight_id r) (fair_care_metadata r) v (tension_level r)
     (transformation_history r).
Definition set_transformation_history (v : list pydict) (r : t) : t :=
  mk (id r) (source r) (target r) (type r) (context_id r) (meaning r) (intensity r)
     (certainty r) (coherence_contribution r) (created r) (last_activated r)
     (lifespan r) (activation_count r) (phi_meta r) (blind_spots r)
     (habeas_weight_id r) (fair_care_metadata r) (is_active r) (tension_level r)
     v.

Definition meanings : list (str * str) :=
  [ (u "Α", u "коллапс потенции в актуальность");
    (u "Λ", u "установление онтологической связи");
    (u "Σ", u "синтез нового целого из частей");
    (u "Ω", u "возврат к источнику и извлечение инварианта");
    (u "∇", u "обогащение контекста инвариантом");
    (u "Φ", u "диалог с Эфосом, признание непознаваемого") ].

Fixpoint assoc (d : list (str * str)) (k : str) : option str :=
  match d with
  | [] => None
  | (k', v) :: d' => if decide (k' = k) then Some v else assoc d' k
  end.

Definition _infer_meaning (self : t) : str :=
  match assoc meanings (type self) with
  | Some m => m
  | None => u "онтологическая связь типа " ++ type self
  end.

Definition _init_habeas_weight (fresh : str) (self : t) : t :=
  set_habeas_weight_id fresh self.

Definition _init_fair_care_metadata (self : t) : t :=
  set_fair_care_metadata
    [ (u "relation_id", VStr (id self));
      (u "type", VStr (u "OntologicalRelation"));
      (u "license", VStr (u "CC BY-NC-SA 4.0"));
      (u "created", VStr (isoformat (created self)));
      (u "source", VStr (source self));
      (u "target", VStr (target self));
      (u "operator", VStr (u "LOGOS-κ System"));
      (u "community_standards", VStrs [u "FAIR"; u "CARE"; u "Λ-Протокол 6.0"]);
      (u "access_protocol", VStr (u "open"));
      (u "habeas_weight_id", VStr (habeas_weight_id self)) ]
    self.

(** [__post_init__]; [fresh] is the UUID drawn by [_init_habeas_weight]. *)
Definition __post_init__ (fresh : str) (self : t) : t :=
  let self1 :=
    match meaning self with
    | [] => set_meaning (_infer_meaning self) self
    | _ => self
    end in
  _init_fair_care_metadata (_init_habeas_weight fresh self1).

(** The [context] argument of [activate]: what the method looks at is
    whether the object is truthy and what its [name] attribute is, if any. *)
Record PyObject := mk_object {
  obj_truthy : bool;
  obj_name : option PyVal
}.

(** [getattr(context, 'name', 'unknown') if context else 'none']. *)
Definition context_snapshot (context : option PyObject) : PyVal :=
  match context with
  | None => VStr (u "none")
  | Some o =>
    if obj_truthy o then
      match obj_name o with
      | Some v => v
      | None => VStr (u "unknown")
      end
    else VStr (u "none")
  end.

(** [l[-3:]]. *)
Definition last3 {A} (l : list A) : list A := drop (length l - 3) l.

Definition _update_certainty (self : t) : result t :=
  match transformation_history self with
  | [] => Ok self
  | _ =>
    let recent := last3 (transformation_history self) in
    stability <- int_truediv (Z.of_nat (length recent)) (Z.of_nat (length recent)) ;;
    Ok (set_certainty (pymin 1.0 (certainty self * 0.8 + stability * 0.2)) self)
  end.

Definition history_entry (at_ : datetime) (res : pydict)
    (context : option PyObject) : pydict :=
  [ (u "timestamp", VDatetime at_);
    (u "activation_result", VDict res);
    (u "context_snapshot", context_snapshot context) ].

(** [activate(context)]: the returned dictionary and the relation after the
    call.  The history entry holds the very dictionary that is returned, so
    an [omega_trigger] added at the end shows in the entry as well. *)
Definition activate (h : Host) (self : t) (context : option PyObject)
  : result (pydict * t) :=
  if negb (is_active self) then
    Ok ([ (u "error", VStr (u "Связь неактивна"));
          (u "relation_id", VStr (id self)) ], self)
  else
    let self1 := set_is_active true self in
    let self2 := set_last_activated (Some (now h 0)) self1 in
    let self3 := set_activation_count (activation_count self2 + 1) self2 in
    let res :=
      [ (u "relation_id", VStr (id self3));
        (u "type", VStr (type self3));
        (u "source", VStr (source self3));
        (u "target", VStr (target self3));
        (u "meaning", VStr (meaning self3));
        (u "timestamp", VStr (isoformat (now h 0)));
        (u "certainty", VFloat (certainty self3));
        (u "tension_level", VFloat (tension_level self3));
        (u "phi_context", VStrs (phi_meta self3));
        (u "blind_spots", VStrs (blind_spots self3)) ] in
    let history := transformation_history self3 in
    let self4 :=
      set_transformation_history (history ++ [history_entry (now h 0) res context])
        self3 in
    self5 <- _update_certainty self4 ;;
    if (certainty self5 <? 0.3) && (0.7 <? tension_level self5) then
      let res' :=
        dict_set res (u "omega_trigger")
          (VStr (u "активирован Ω-автомат: кризис связи")) in
      Ok (res',
          set_transformation_history
            (history ++ [history_entry (now h 0) res' context]) self5)
    else Ok (res, self5).

(** [a or b] where [a] is [None] or a string. *)
Definition py_or (a : option str) (b : str) : str :=
  match a with
  | Some (c :: s) => c :: s
  | _ => b
  end.

Definition context_loss_marker : str := u "утрата исходного контекста".

(** The constructor call inside [transform].  The constructor draws
    [uuid4 h 0] for [id], [now h 0] for [created] and [uuid4 h 1] for
    [habeas_weight_id]; [__post_init__] draws [uuid4 h 2]. *)
Definition transformed (h : Host) (self : t) (new_type new_target : option str) : t :=
  __post_init__ (uuid4 h 2)
    {| id := take 8 (uuid4 h 0);
       source := source self;
       target := py_or new_target (target self);
       type := py_or new_type (type self);
       context_id := context_id self;
       meaning := u "Трансформированная из " ++ id self ++ u ": " ++ meaning self;
       intensity := 1.0;
       certainty := certainty self * 0.8;
       coherence_contribution := 0.0;
       created := now h 0;
       last_activated := None;
       lifespan := None;
       activation_count := 0;
       phi_meta := phi_meta self ++ [u "трансформация"];
       blind_spots := blind_spots self ++ [context_loss_marker];
       habeas_weight_id := uuid4 h 1;
       fair_care_metadata := [];
       is_active := true;
       tension_level := 0.0;
       transformation_history := [] |}.

(** [transform(new_type, new_target)]: the successor and the relation after
    the call; the history entry reads the clock again. *)
Definition transform (h : Host) (self : t) (new_type new_target : option str)
  : t * t :=
  let successor := transformed h self new_type new_target in
  let entry :=
    [ (u "timestamp", VDatetime (now h 1));
      (u "transformation", VDict
         [ (u "from", VStr (type self));
           (u "to", VStr (type successor));
           (u "reason", VStr (u "онтологическая эволюция")) ]) ] in
  (successor,
   set_is_active false
     (set_transformation_history (transformation_history self ++ [entry]) self)).


Definition __call__ (h : Host) (self : t) (context : option PyObject)
  : result (pydict * t) :=
  activate h self context.

(** [check_viability()].  [total_seconds a b] is [(a - b).total_seconds()] of
    the [datetime] library; the relation is only read. *)
Definition check_viability (total_seconds : datetime -> datetime -> float)
    (h : Host) (self : t) : result pydict :=
  let now_ := now h 0 in
  let age := total_seconds now_ (created self) in
  age_factor <-
    match lifespan self with
    | None => Ok 1.0
    | Some l => q <- float_truediv age l ;; Ok (pymax 0.0 (1.0 - q))
    end ;;
  count <- float_of_int (activation_count self) ;;
  let activation_factor := pymin 1.0 (count / 10.0) in
  let certainty_factor := certainty self in
  let tension_factor := 1.0 - tension_level self in
  let viability :=
    age_factor * 0.3 + activation_factor * 0.2 + certainty_factor * 0.3
    + tension_factor * 0.2 in
  Ok [ (u "relation_id", VStr (id self));
       (u "viability", VFloat viability);
       (u "age_seconds", VFloat age);
       (u "activations", VInt (activation_count self));
       (u "certainty", VFloat (certainty self));
       (u "tension", VFloat (tension_level self));
       (u "recommendation",
          VStr (if 0.5 <? viability then u "сохранить" else u "деактивировать")) ].

End OntologicalRelation.

(** ** The evaluation context *)

(** Modelled from the spec: the Evaluation Context ([core/context.py], which
    the encoder and the serializer import, is not among the sources).  It
    holds a directed graph of entities (named nodes with attribute maps) and
    relations (edges, each carrying an attached Relation Agent or none), an
    event history, a Φ-dialogue log, a blind-spot map from key to
    description, a tension log, a rights registry, the operator identity and
    the context name. *)
Module EnhancedActiveContext.

Record Graph := mk_graph {
  nodes : list (str * pydict);
  edges : list (str * str * option OntologicalRelation.t)
}.

Record t := mk {
  name : str;
  graph : Graph;
  event_history : list OntologicalEvent.t;
  phi_dialogues : list PyVal;
  blind_spots : list (str * str);
  tension_log : list PyVal;
  _habeas_weights : list (str * pydict);
  _operator_id : option str
}.

End EnhancedActiveContext.

(** ** semantic_db/fair_encoder.py *)

Module FAIREncoder.

Import EnhancedActiveContext.

Definition baseline_keywords : list str :=
  [u "LOGOS-κ"; u "онтологический-цикл"; u "lambda-universe"; u "semanticdb"].

(** The set [keywords] just before it is sorted.  [lower] is [str.lower]. *)
Definition keyword_set (lower : str -> str) (context : t) : gset str :=
  let keywords : gset str := list_to_set baseline_keywords in
  let keywords :=
    foldl (fun kws node => {[ replace_space_hyphen (lower node.1) ]} ∪ kws)
      keywords (nodes (graph context)) in
  let keywords :=
    foldl (fun kws edge =>
             match edge.2 with
             | Some rel => {[ u "связь-" ++ lower (OntologicalRelation.type rel) ]} ∪ kws
             | None => kws
             end)
      keywords (edges (graph context)) in
  foldl (fun kws spot => {[ u "слепое-пятно-" ++ spot.1 ]} ∪ kws)
    keywords (blind_spots context).

Definition _extract_keywords (lower : str -> str) (context : t) : list str :=
  take 20 (sorted (keyword_set lower context)).

(** [d.strftime("%Y%m%dT%H%M%SZ")], for the years from 1000 on, which every
    C library prints with four digits. *)
Definition strftime_compact (d : datetime) : str :=
  zfill 4 (dec (year d)) ++ zfill 2 (dec (month d)) ++ zfill 2 (dec (day d))
  ++ u "T" ++ zfill 2 (dec (hour d)) ++ zfill 2 (dec (minute d))
  ++ zfill 2 (dec (second d)) ++ u "Z".

(** [_generate_identifier(context, operator_id)]; the context has a [name]. *)
Definition _generate_identifier (h : Host) (context : t) (operator_id : str) : str :=
  let cycle_id := name context in
  let timestamp := strftime_compact (utcnow h 0) in
  u "urn:logos-k:" ++ operator_id ++ u ":" ++ cycle_id ++ u ":" ++ timestamp.

(** The entry that the manifest holds for one registered right:
    [data.get(k)] is [None] for a field that is not recorded. *)
Definition habeas_weight_entry (data : pydict) : PyVal :=
  VDict [ (u "subject", dict_get data (u "subject") VNone);
          (u "right_type", dict_get data (u "right_type") VNone);
          (u "granted_by", dict_get data (u "granted_by") VNone);
          (u "granted_at", dict_get data (u "granted_at") VNone) ].

(** [_encode_habeas_weights(context)]; the dictionary comprehension inserts
    the items of the registry one after the other. *)
Definition _encode_habeas_weights (context : t) : pydict :=
  [ (u "version", VStr (u "2.1"));
    (u "entities_count", VInt (Z.of_nat (length (_habeas_weights context))));
    (u "manifest_url", VStr (u "https://a-universum.com/habeas-weights"));
    (u "weights", VDict
       (foldl (fun d item => dict_set d item.1 (habeas_weight_entry item.2))
          [] (_habeas_weights context))) ].

Definition _encode_provenance (context : t) (operator_id : str) : pydict :=
  [ (u "generated_by", VStr (u "LOGOS-κ v1.0"));
    (u "operator", VStr operator_id);
    (u "derived_from", VStrs [u "Λ-Универсум Приложения I-XXVI"]);
    (u "method", VStr (u "онтологический синтез через Λ-цикл"));
    (u "software_version", VStr (u "1.0.0"));
    (u "execution_context", VStr (u "synthetic"));
    (u "phi_dialogues_count", VInt (Z.of_nat (length (phi_dialogues context))));
    (u "events_count", VInt (Z.of_nat (length (event_history context)))) ].

(** [encode(context, operator_id)].  The UTC clock is read three times: for
    the identifier, for the publication date and for the year of the
    citation line. *)
Definition encode (lower : str -> str) (h : Host) (context : t) (operator_id : str)
  : pydict :=
  [ (u "identifier", VStr (_generate_identifier h context operator_id));
    (u "creators", VStrs [operator_id; u "LOGOS-κ System"]);
    (u "titles", VStrs [u "Онтологический цикл: " ++ name context]);
    (u "keywords", VStrs (_extract_keywords lower context));
    (u "publication_date", VStr (isoformat (utcnow h 1) ++ u "Z"));
    (u "resource_type", VStr (u "OntologicalCycle"));
    (u "access_protocol", VStr (u "open"));
    (u "access_rights", VStr (u "CC BY-NC-SA 4.0"));
    (u "access_url", VStr (u "https://a-universum.com/semanticdb"));
    (u "habeas_weights_manifest", VDict (_encode_habeas_weights context));
    (u "format_standard", VStrs [u "JSON-LD"; u "YAML"; u "Turtle"; u "GraphML"]);
    (u "vocabulary", VDict
       [ (u "schema_org", VStr (u "https://schema.org/"));
         (u "logos_ontology", VStr (u "https://a-universum.com/logos-ontology#")) ]);
    (u "protocol_compliance", VStrs [u "Λ-Протокол 6.0"; u "FAIR"; u "CARE"]);
    (u "language", VStr (u "ru-RU"));
    (u "license", VStr (u "CC-BY-SA-4.0"));
    (u "provenance", VDict (_encode_provenance context operator_id));
    (u "usage_restrictions",
       VStr (u "Только в рамках этических принципов Λ-Универсума"));
    (u "citation_guideline",
       VStr (u "LOGOS-κ (" ++ name context ++ u "), " ++ dec (year (utcnow h 2))));
    (u "community_standards", VStrs [u "Λ-Протокол 6.0"; u "FAIR"; u "CARE"]) ].

End FAIREncoder.

(** ** semantic_db/serializer.py *)

Module SemanticDBSerializer.

Import EnhancedActiveContext.

(** The names a function body of the module can read: its locals, the
    module globals and the built-in functions. *)
Definition to_yaml_locals : list str := [u "self"; u "cycle_data"].

Definition module_globals : list str :=
  [ u "json"; u "yaml"; u "datetime"; u "Dict"; u "Any"; u "List"; u "Optional";
    u "Path"; u "EnhancedActiveContext"; u "OntologicalAxioms";
    u "SemanticDBSerializer" ].

Definition builtin_names : list str :=
  map u
    [ "abs"; "aiter"; "all"; "anext"; "any"; "ascii"; "bin"; "bool";
      "breakpoint"; "bytearray"; "bytes"; "callable"; "chr"; "classmethod";
      "compile"; "complex"; "delattr"; "dict"; "dir"; "divmod"; "enumerate";
      "eval"; "exec"; "filter"; "float"; "format"; "frozenset"; "getattr";
      "globals"; "hasattr"; "hash"; "help"; "hex"; "id"; "input"; "int";
      "isinstance"; "issubclass"; "iter"; "len"; "list"; "locals"; "map";
      "max"; "memoryview"; "min"; "next"; "object"; "oct"; "open"; "ord";
      "pow"; "print"; "property"; "range"; "repr"; "reversed"; "round";
      "set"; "setattr"; "slice"; "sorted"; "staticmethod"; "str"; "sum";
      "super"; "tuple"; "type"; "vars"; "zip"; "__import__" ]%string.

(** Reading the name [name] inside [to_yaml]. *)
Definition load_name (cycle_data : pydict) (name : str) : result PyVal :=
  if decide (name = u "cycle_data") then Ok (VDict cycle_data)
  else if decide (name ∈ to_yaml_locals ++ module_globals ++ builtin_names)
  then Ok (VObject name)
  else Raise (NameError name).

(** [o.get(k, default)]. *)
Definition call_get (o : PyVal) (k : str) (default : PyVal) : result PyVal :=
  match o with
  | VDict d => Ok (dict_get d k default)
  | _ => Raise (AttributeError (u "get"))
  end.

Fixpoint map_result {A B} (f : A -> result B) (l : list A) : result (list B) :=
  match l with
  | [] => Ok []
  | a :: l' => b <- f a ;; bs <- map_result f l' ;; Ok (b :: bs)
  end.

Definition _serialize_entities (context : t) : list PyVal :=
  map (fun node => VDict [ (u "name", VStr node.1); (u "attributes", VDict node.2) ])
    (nodes (graph context)).

Definition _serialize_relations (context : t) : list PyVal :=
  omap (fun edge =>
          match edge with
          | (source, target, Some relation) =>
            Some (VDict
              [ (u "source", VStr source);
                (u "target", VStr target);
                (u "relation", VDict
                   [ (u "id", VStr (OntologicalRelation.id relation));
                     (u "type", VStr (OntologicalRelation.type relation));
                     (u "meaning", VStr (OntologicalRelation.meaning relation));
                     (u "certainty", VFloat (OntologicalRelation.certainty relation));
                     (u "tension_level", VFloat (OntologicalRelation.tension_level relation));
                     (u "habeas_weight_id", VStr (OntologicalRelation.habeas_weight_id relation));
                     (u "fair_care_metadata", VDict (OntologicalRelation.fair_care_metadata relation)) ]) ])
          | (_, _, None) => None
          end)
    (edges (graph context)).

(** [to_yaml(cycle_data)].  The entries of the report are evaluated in the
    order of the dictionary display.  [yaml_dump] is [yaml.dump] with the
    options of the call, [py_str] is [str] on event results, [imported] is
    when the axiom module was loaded. *)
Definition to_yaml (yaml_dump : PyVal -> str) (py_str : PyVal -> str)
    (imported : datetime) (h : Host) (context : t) (cycle_data : pydict)
  : result str :=
  let metadata :=
    [ (u "type", VStr (u "OntologicalCycle"));
      (u "version", VStr (u "1.0"));
      (u "protocol", VStr (u "Λ-Протокол 6.0"));
      (u "created_at", VStr (isoformat (now h 0)));
      (u "creator", VStr (OntologicalRelation.py_or (_operator_id context)
                            (u "anonymous_operator")));
      (u "license", VStr (u "CC BY-NC-SA 4.0"));
      (u "fair_care", VDict
         (OntologicalAxioms.get_default_fair_care_metadata imported (utcnow h 0))) ] in
  cycle_id <- getitem cycle_data (u "cycle_id") ;;
  timestamp <- getitem cycle_data (u "timestamp") ;;
  expressions_evaluated <- getitem cycle_data (u "expressions_evaluated") ;;
  cycle_of_data <- load_name cycle_data (u "cycle_of_data") ;;
  successful_evaluations <-
    call_get cycle_of_data (u "successful_evaluations") (VInt 0) ;;
  final_coherence <- getitem cycle_data (u "final_coherence") ;;
  phi_dialogues_count <- getitem cycle_data (u "phi_dialogues_count") ;;
  let nigc_scores := dict_get cycle_data (u "nigc_scores") (VList []) in
  let ontological_context :=
    [ (u "entities", VList (_serialize_entities context));
      (u "relations", VList (_serialize_relations context));
      (u "blind_spots", VDict (map (fun kv => (kv.1, VStr kv.2)) (blind_spots context)));
      (u "tensions", VList (tension_log context));
      (u "habeas_weights",
         VDict (map (fun kv => (kv.1, VDict kv.2)) (_habeas_weights context))) ] in
  events <-
    map_result (OntologicalEvent.to_semantic_db_record py_str) (event_history context) ;;
  Ok (yaml_dump (VDict
    [ (u "metadata", VDict metadata);
      (u "cycle_summary", VDict
         [ (u "cycle_id", cycle_id);
           (u "timestamp", timestamp);
           (u "expressions_evaluated", expressions_evaluated);
           (u "successful_evaluations", successful_evaluations);
           (u "final_coherence", final_coherence);
           (u "phi_dialogues_count", phi_dialogues_count);
           (u "nigc_scores", nigc_scores) ]);
      (u "ontological_context", VDict ontological_context);
      (u "event_history", VList (map VDict events));
      (u "phi_dialogues", VList (phi_dialogues context)) ])).

(** What an f-string puts for a value: a [str] as it is, any other value
    through [py_str], the [str] of the interpreter. *)
Definition format_value (py_str : PyVal -> str) (v : PyVal) : str :=
  match v with
  | VStr s => s
  | _ => py_str v
  end.

(** [to_json_ld(cycle_data)]; the entries are evaluated in the order of the
    dictionary display. *)
Definition to_json_ld (py_str : PyVal -> str) (context : t) (cycle_data : pydict)
  : result pydict :=
  cycle_id <- getitem cycle_data (u "cycle_id") ;;
  timestamp <- getitem cycle_data (u "timestamp") ;;
  final_coherence <- getitem cycle_data (u "final_coherence") ;;
  events <-
    map_result (OntologicalEvent.to_semantic_db_record py_str) (event_history context) ;;
  Ok [ (u "@context", VDict
          [ (u "schema", VStr (u "https://schema.org/"));
            (u "logos", VStr (u "https://a-universum.com/logos-ontology#"));
            (u "cycle", VStr (u "logos:OntologicalCycle"));
            (u "event", VStr (u "logos:OntologicalEvent"));
            (u "phiDialog", VStr (u "logos:PhiDialogue")) ]);
       (u "@type", VStr (u "logos:OntologicalCycle"));
       (u "logos:cycleId", cycle_id);
       (u "schema:dateCreated", timestamp);
       (u "logos:operator",
          VStr (OntologicalRelation.py_or (_operator_id context) (u "anonymous")));
       (u "logos:finalCoherence", final_coherence);
       (u "logos:events", VList (map VDict events));
       (u "logos:phiDialogues", VList (phi_dialogues context));
       (u "logos:blindSpots", VStrs (map fst (blind_spots context))) ].

(** [to_turtle(cycle_data)]: the lines, then the text. *)
Definition to_turtle_lines (py_str : PyVal -> str) (context : t) (cycle_data : pydict)
  : result (list str) :=
  cycle_id <- getitem cycle_data (u "cycle_id") ;;
  timestamp <- getitem cycle_data (u "timestamp") ;;
  final_coherence <- getitem cycle_data (u "final_coherence") ;;
  Ok [ u "@prefix logos: <https://a-universum.com/logos-ontology#> .";
       u "@prefix schema: <https://schema.org/> .";
       [];
       u "<urn:cycle:" ++ format_value py_str cycle_id ++ u ">";
       u "  a logos:OntologicalCycle ;";
       uq "  schema:dateCreated '" ++ format_value py_str timestamp
         ++ uq "'^^schema:DateTime ;";
       uq "  logos:operator '"
         ++ OntologicalRelation.py_or (_operator_id context) (u "anonymous")
         ++ uq "' ;";
       u "  logos:finalCoherence " ++ format_value py_str final_coherence ++ u " ;";
       u "  logos:hasBlindSpot "
         ++ join (u " , ")
              (map (fun spot => dquote ++ spot ++ dquote) (map fst (blind_spots context)))
         ++ u " ;";
       u "  ." ].

Definition to_turtle (py_str : PyVal -> str) (context : t) (cycle_data : pydict)
  : result str :=
  lines <- to_turtle_lines py_str context cycle_data ;;
  Ok (join newline lines).

(** [to_graphml(cycle_data)]: the lines, then the text.  The argument is not
    read. *)
Definition graphml_node_lines (py_str : PyVal -> str) (node : str * pydict)
  : list str :=
  let node_type := dict_get node.2 (u "type") (VStr (u "entity")) in
  [ uq "    <node id='" ++ node.1 ++ uq "'>";
    uq "      <data key='label'>" ++ node.1 ++ u "</data>";
    uq "      <data key='type'>" ++ format_value py_str node_type ++ u "</data>";
    u "    </node>" ].

Definition graphml_edge_lines (py_str : PyVal -> str)
    (edge : str * str * option OntologicalRelation.t) : list str :=
  let '(source, target, relation) := edge in
  let certainty :=
    match relation with
    | Some r => OntologicalRelation.certainty r
    | None => 1.0%float
    end in
  let edge_id := source ++ u "_" ++ target in
  [ uq "    <edge id='" ++ edge_id ++ uq "' source='" ++ source
      ++ uq "' target='" ++ target ++ uq "'>";
    uq "      <data key='certainty'>" ++ py_str (VFloat certainty) ++ u "</data>";
    u "    </edge>" ].

Definition to_graphml_lines (py_str : PyVal -> str) (context : t)
    (cycle_data : pydict) : list str :=
  [ uq "<?xml version='1.0' encoding='UTF-8'?>";
    uq "<graphml xmlns='http://graphml.graphdrawing.org/xmlns'>";
    uq "  <key id='label' for='all' attr.name='label' attr.type='string'/>";
    uq "  <key id='type' for='node' attr.name='type' attr.type='string'/>";
    uq "  <key id='certainty' for='edge' attr.name='certainty' attr.type='double'/>";
    uq "  <graph id='ontological_context' edgedefault='directed'>" ]
  ++ concat (map (graphml_node_lines py_str) (nodes (graph context)))
  ++ concat (map (graphml_edge_lines py_str) (edges (graph context)))
  ++ [ u "  </graph>"; u "</graphml>" ].

Definition to_graphml (py_str : PyVal -> str) (context : t) (cycle_data : pydict)
  : str :=
  join newline (to_graphml_lines py_str context cycle_data).

(** The part of [pathlib.Path] that [export_cycle] uses, on path texts, and
    a file system on which creating directories and writing files succeed:
    the directories that exist and the text of every file. *)
Record Pathlib := mk_pathlib {
  parent : str -> str;
  parents : str -> list str;
  suffix : str -> str;
  with_suffix : str -> str -> str
}.

Record FileSystem := mk_fs {
  directories : gset str;
  files : gmap str str
}.

(** [p.mkdir(parents=True, exist_ok=True)], which creates the missing
    ancestors as well, and [p.write_text(content)]. *)
Definition mkdir (pl : Pathlib) (p : str) (fs : FileSystem) : FileSystem :=
  mk_fs ({[ p ]} ∪ list_to_set (parents pl p) ∪ directories fs) (files fs).

Definition write_text (p content : str) (fs : FileSystem) : FileSystem :=
  mk_fs (directories fs) (<[ p := content ]> (files fs)).

(** [export_cycle(cycle_data, output_path)]: the file system after the call
    and how the call ends.  [json_dumps] is [json.dumps] with the options of
    the call. *)
Definition export_cycle (pl : Pathlib) (json_dumps : pydict -> result str)
    (yaml_dump py_str : PyVal -> str) (imported : datetime) (h : Host)
    (context : t) (fs : FileSystem) (cycle_data : pydict) (output_path : str)
  : FileSystem * result unit :=
  let fs := mkdir pl (parent pl output_path) fs in
  if decide (suffix pl output_path ∈ [u ".yaml"; u ".yml"]) then
    match to_yaml yaml_dump py_str imported h context cycle_data with
    | Ok content => (write_text output_path content fs, Ok tt)
    | Raise e => (fs, Raise e)
    end
  else if decide (suffix pl output_path ∈ [u ".json"; u ".jsonld"]) then
    match content <- to_json_ld py_str context cycle_data ;; json_dumps content with
    | Ok text => (write_text output_path text fs, Ok tt)
    | Raise e => (fs, Raise e)
    end
  else if decide (suffix pl output_path = u ".ttl") then
    match to_turtle py_str context cycle_data with
    | Ok content => (write_text output_path content fs, Ok tt)
    | Raise e => (fs, Raise e)
    end
  else if decide (suffix pl output_path = u ".graphml") then
    (write_text output_path (to_graphml py_str context cycle_data) fs, Ok tt)
  else
    match to_yaml yaml_dump py_str imported h context cycle_data with
    | Ok content =>
      (write_text (with_suffix pl output_path (u ".yaml")) content fs, Ok tt)
    | Raise e => (fs, Raise e)
    end.

End SemanticDBSerializer.

(** ** Statements of the specification, in its own words *)

(** Clamping to the interval from 0 to 1. *)
Definition clamp01 (x : float) : float := pymax 0.0 (pymin 1.0 x).

(** The significance formula as the specification writes it:
    0.4·Δ + (0.2 if any Φ tag) + (0.2·resolved − 0.1·created)
    + (0.1 if any blind spot), clamped.  The two counts are [int]s that
    enter a binary64 product, so they are converted as in the code. *)
Definition significance_formula (e : OntologicalEvent.t) : result float :=
  let delta :=
    abs (OntologicalEvent.coherence_after e - OntologicalEvent.coherence_before e) in
  resolved <- float_of_int (OntologicalEvent.tensions_resolved e) ;;
  created <- float_of_int (OntologicalEvent.tensions_created e) ;;
  Ok (clamp01
        (0.4 * delta
         + (match OntologicalEvent.phi_meta e with [] => 0.0 | _ => 0.2 end)
         + (0.2 * resolved - 0.1 * created)
         + (match OntologicalEvent.blind_spots_involved e with [] => 0.0 | _ => 0.1 end)
        )%float).

(** A whitespace-delimited word of a text: a non-empty run without white
    space that is bounded on each side by white space or by the end of the
    text. *)
Abbreviation nospace := (Forall (fun c => isspace c = false)).

Definition ends_space (pre : str) : Prop :=
  ∃ p c, pre = p ++ [c] ∧ isspace c = true.

Definition starts_space (post : str) : Prop :=
  post = [] ∨ ∃ c q, post = c :: q ∧ isspace c = true.

Definition is_word (s w : str) : Prop :=
  w ≠ [] ∧ nospace w ∧
  ∃ pre post, s = pre ++ w ++ post
    ∧ (pre = [] ∨ ends_space pre) ∧ starts_space post.

(** A word that does not start the text. *)
Definition later_word (s w : str) : Prop :=
  w ≠ [] ∧ nospace w ∧
  ∃ pre post, s = pre ++ w ++ post ∧ ends_space pre ∧ starts_space post.

(** ** Binary64 rounding, for the certainty update *)

Section RoundingModel.
#[local] Open Scope Z_scope.

Definition b2z (b : bool) : Z := if b then 1 else 0.

(** After [k] shifts the record still determines twice the original
    mantissa [M]: the kept bits, the round bit and what the sticky bit
    summarises. *)
Definition shr_inv (k M : Z) (r : shr_record) : Prop :=
  0 <= shr_m r ∧
  ∃ t, 2 * M = 2 ^ k * (2 * shr_m r + b2z (shr_r r)) + t
       ∧ 0 <= t < 2 ^ k ∧ (shr_s r = true ↔ 0 < t).

(** The value of a positive finite number, in units of 2^-1200. *)
Definition sval (m : positive) (e : Z) : Z := Z.pos m * 2 ^ (e + 1200).

(** The binary64 constants 0.8 and 0.2. *)
Definition sf_08 : spec_float := S754_finite false 7205759403792794 (-53).
Definition sf_02 : spec_float := S754_finite false 7205759403792794 (-55).

End RoundingModel.

(** ** Notions for the properties of construction, activation and export *)

(** The metadata of a relation name the relation itself: its id, its end
    points, its creation time and its right of existence. *)
Definition metadata_agrees (r : OntologicalRelation.t) : Prop :=
  dict_lookup (OntologicalRelation.fair_care_metadata r) (u "relation_id")
  = Some (VStr (OntologicalRelation.id r))
  ∧ dict_lookup (OntologicalRelation.fair_care_metadata r) (u "source")
    = Some (VStr (OntologicalRelation.source r))
  ∧ dict_lookup (OntologicalRelation.fair_care_metadata r) (u "target")
    = Some (VStr (OntologicalRelation.target r))
  ∧ dict_lookup (OntologicalRelation.fair_care_metadata r) (u "created")
    = Some (VStr (isoformat (OntologicalRelation.created r)))
  ∧ dict_lookup (OntologicalRelation.fair_care_metadata r) (u "habeas_weight_id")
    = Some (VStr (OntologicalRelation.habeas_weight_id r)).

(** A run of calls of [activate] on one relation, each with its own host
    readings and its own context argument; the returned dictionaries are
    dropped. *)
Fixpoint activations (steps : list (Host * option OntologicalRelation.PyObject))
    (self : OntologicalRelation.t) : result OntologicalRelation.t :=
  match steps with
  | [] => Ok self
  | (h, context) :: steps' =>
    r <- OntologicalRelation.activate h self context ;;
    activations steps' r.2
  end.

(** A text without a colon. *)
Definition no_colon (s : str) : Prop := Forall (fun c => c ≠ 58%N) s.

(** The keys of a dictionary, in order. *)
Definition keys {V} (d : list (str * V)) : list str := map fst d.

(** A run of calls of [transform], each on the successor of the one
    before. *)
Fixpoint transforms (steps : list (Host * option str * option str))
    (self : OntologicalRelation.t) : OntologicalRelation.t :=
  match steps with
  | [] => self
  | (h, new_type, new_target) :: steps' =>
    transforms steps' (OntologicalRelation.transform h self new_type new_target).1
  end.

(** A call of [activate] or of [transform] in the life of a relation and
    its successors: after a transformation the run goes on with the
    successor. *)
Inductive lineage_call :=
  | CallActivate (h : Host) (context : option OntologicalRelation.PyObject)
  | CallTransform (h : Host) (new_type new_target : option str).

Fixpoint lineage (calls : list lineage_call) (self : OntologicalRelation.t)
  : result OntologicalRelation.t :=
  match calls with
  | [] => Ok self
  | CallActivate h context :: calls' =>
    r <- OntologicalRelation.activate h self context ;;
    lineage calls' r.2
  | CallTransform h new_type new_target :: calls' =>
    lineage calls' (OntologicalRelation.transform h self new_type new_target).1
  end.

(** Not a number. *)
Definition is_nan (x : float) : Prop := Prim2SF x = S754_nan.

(** [pathlib] on plain relative POSIX paths, used where a theorem is
    evaluated on a concrete path: the suffix is the part of the last
    component from its last dot on, unless that dot starts or ends the
    component. *)
Fixpoint split_last (c : N) (s : str) : option (str * str) :=
  match s with
  | [] => None
  | a :: s' =>
    match split_last c s' with
    | Some (pre, post) => Some (a :: pre, post)
    | None => if (a =? c)%N then Some ([], s') else None
    end
  end.

Definition posix_name (p : str) : str :=
  match split_last 47 p with
  | Some (_, name) => name
  | None => p
  end.

Definition posix_suffix (p : str) : str :=
  match split_last 46 (posix_name p) with
  | Some (_ :: _, c :: ext) => 46%N :: c :: ext
  | _ => []
  end.

Definition posix_parent (p : str) : str :=
  match split_last 47 p with
  | Some (dir, _) => dir
  | None => u "."
  end.

Fixpoint posix_parents (fuel : nat) (p : str) : list str :=
  match fuel with
  | O => []
  | S fuel' =>
    match split_last 47 p with
    | Some (dir, _) => dir :: posix_parents fuel' dir
    | None => [u "."]
    end
  end.

Definition posix_pathlib : SemanticDBSerializer.Pathlib :=
  {| SemanticDBSerializer.parent := posix_parent;
     SemanticDBSerializer.parents := fun p => posix_parents (length p) p;
     SemanticDBSerializer.suffix := posix_suffix;
     SemanticDBSerializer.with_suffix := fun p s =>
       take (length p - length (posix_suffix p)) p ++ s |}.

(** ** Sample inputs *)

Definition sample_host : Host :=
  {| uuid4 := fun i => u "6fa459ea-ee8a-4ca4-894e-db77e160355" ++ dec (N.of_nat i);
     now := fun i => mk_datetime 2025 3 14 9 26 (N.of_nat i) 535;
     utcnow := fun i => mk_datetime 2025 3 14 8 26 (N.of_nat i) 0 |}.

(** A relation as the constructor leaves it, with the given type, certainty,
    tension level and activity flag. *)
Definition sample_relation (ty : str) (c tension : float) (active : bool)
  : OntologicalRelation.t :=
  OntologicalRelation.__post_init__ (u "0b1e5c1a-7c1d-4c55-9d6e-2f1f0a7a9e11")
    {| OntologicalRelation.id := u "a1b2c3d4";
       OntologicalRelation.source := u "человек";
       OntologicalRelation.target := u "машина";
       OntologicalRelation.type := ty;
       OntologicalRelation.context_id := None;
       OntologicalRelation.meaning := [];
       OntologicalRelation.intensity := 1.0;
       OntologicalRelation.certainty := c;
       OntologicalRelation.coherence_contribution := 0.0;
       OntologicalRelation.created := mk_datetime 2025 3 14 9 0 0 0;
       OntologicalRelation.last_activated := None;
       OntologicalRelation.lifespan := None;
       OntologicalRelation.activation_count := 0;
       OntologicalRelation.phi_meta := [];
       OntologicalRelation.blind_spots := [u "chaos"];
       OntologicalRelation.habeas_weight_id := u "5d3f0d3e-0a68-4c0e-8a43-0d6a4a2f7b10";
       OntologicalRelation.fair_care_metadata := [];
       OntologicalRelation.is_active := active;
       OntologicalRelation.tension_level := tension;
       OntologicalRelation.transformation_history := [] |}.

(** The event of the specification's worked example. *)
Definition sample_event : OntologicalEvent.t :=
  {| OntologicalEvent.id := u "event_0a1b2c3d";
     OntologicalEvent.timestamp := mk_datetime 2025 3 14 9 26 53 0;
     OntologicalEvent.gesture := u "Ω";
     OntologicalEvent.event_version := u "1.0";
     OntologicalEvent.operands := [];
     OntologicalEvent.result_ := VNone;
     OntologicalEvent.entities_affected := [];
     OntologicalEvent.blind_spots_involved := [u "chaos"];
     OntologicalEvent.coherence_before := 0.2;
     OntologicalEvent.coherence_after := 0.6;
     OntologicalEvent.tensions_resolved := 1;
     OntologicalEvent.tensions_created := 0;
     OntologicalEvent.uncertainty_level := 0.0;
     OntologicalEvent.phi_meta := [u "x"];
     OntologicalEvent.omega_trigger := false;
     OntologicalEvent.habeas_weight_id := u "c0a8012e-1111-4222-8333-444455556666";
     OntologicalEvent.creator_intent := None;
     OntologicalEvent.fair_care_meta := [];
     OntologicalEvent.provenance := [] |}.

(** A context whose twenty entities are named by the numerals 0 to 19, and
    a small one with two entities, one relation and one blind spot. *)
Definition crowded_context : EnhancedActiveContext.t :=
  {| EnhancedActiveContext.name := u "перепись";
     EnhancedActiveContext.graph :=
       {| EnhancedActiveContext.nodes :=
            map (fun i => (dec (N.of_nat i), [])) (seq 0 20);
          EnhancedActiveContext.edges := [] |};
     EnhancedActiveContext.event_history := [];
     EnhancedActiveContext.phi_dialogues := [];
     EnhancedActiveContext.blind_spots := [];
     EnhancedActiveContext.tension_log := [];
     EnhancedActiveContext._habeas_weights := [];
     EnhancedActiveContext._operator_id := None |}.

Definition small_context : EnhancedActiveContext.t :=
  {| EnhancedActiveContext.name := u "генезис";
     EnhancedActiveContext.graph :=
       {| EnhancedActiveContext.nodes := [(u "Человек", []); (u "умная машина", [])];
          EnhancedActiveContext.edges :=
            [(u "Человек", u "умная машина",
              Some (sample_relation (u "Σ") 0.7%float 0.0%float true))] |};
     EnhancedActiveContext.event_history := [sample_event];
     EnhancedActiveContext.phi_dialogues := [];
     EnhancedActiveContext.blind_spots := [(u "chaos", u "Принципиально неразрешимо (Хаос)")];
     EnhancedActiveContext.tension_log := [];
     EnhancedActiveContext._habeas_weights := [];
     EnhancedActiveContext._operator_id := Some (u "тестировщик_онтологии") |}.

(** A cycle summary as the evaluator hands it to the serializer. *)
Definition sample_cycle : pydict :=
  [ (u "cycle_id", VStr (u "c0ffee01"));
    (u "timestamp", VStr (u "2025-03-14T09:26:53"));
    (u "expressions_evaluated", VInt 7);
    (u "successful_evaluations", VInt 6);
    (u "final_coherence", VFloat 0.82);
    (u "phi_dialogues_count", VInt 1);
    (u "nigc_scores", VList [VFloat 0.5; VFloat 0.75]) ].

(** The sample relation of type Λ with a lifespan of [l] seconds. *)
Definition sample_relation_with_lifespan (l : float) : OntologicalRelation.t :=
  let r := sample_relation (u "Λ") 0.7%float 0.0%float true in
  OntologicalRelation.mk (OntologicalRelation.id r) (OntologicalRelation.source r)
    (OntologicalRelation.target r) (OntologicalRelation.type r)
    (OntologicalRelation.context_id r) (OntologicalRelation.meaning r)
    (OntologicalRelation.intensity r) (OntologicalRelation.certainty r)
    (OntologicalRelation.coherence_contribution r) (OntologicalRelation.created r)
    (OntologicalRelation.last_activated r) (Some l)
    (OntologicalRelation.activation_count r) (OntologicalRelation.phi_meta r)
    (OntologicalRelation.blind_spots r) (OntologicalRelation.habeas_weight_id r)
    (OntologicalRelation.fair_care_metadata r) (OntologicalRelation.is_active r)
    (OntologicalRelation.tension_level r) (OntologicalRelation.transformation_history r).

(** An event whose coherence after the gesture was not measured, a context
    with two registered rights and a bare edge, and an empty file system. *)
Definition unmeasured_event : OntologicalEvent.t :=
  {| OntologicalEvent.id := u "event_5e6f7a8b";
     OntologicalEvent.timestamp := mk_datetime 2025 3 14 9 27 10 0;
     OntologicalEvent.gesture := u "Φ";
     OntologicalEvent.event_version := u "1.0";
     OntologicalEvent.operands := [u "Эфос"];
     OntologicalEvent.result_ := VStr (u "тишина");
     OntologicalEvent.entities_affected := [];
     OntologicalEvent.blind_spots_involved := [];
     OntologicalEvent.coherence_before := 0.5;
     OntologicalEvent.coherence_after := nan;
     OntologicalEvent.tensions_resolved := 0;
     OntologicalEvent.tensions_created := 2;
     OntologicalEvent.uncertainty_level := 1.0;
     OntologicalEvent.phi_meta := [];
     OntologicalEvent.omega_trigger := false;
     OntologicalEvent.habeas_weight_id := [];
     OntologicalEvent.creator_intent := None;
     OntologicalEvent.fair_care_meta := [];
     OntologicalEvent.provenance := [] |}.

Definition registry_context : EnhancedActiveContext.t :=
  {| EnhancedActiveContext.name := u "реестр";
     EnhancedActiveContext.graph :=
       {| EnhancedActiveContext.nodes :=
            [(u "Человек", [(u "type", VStr (u "agent"))]); (u "Эфос", [])];
          EnhancedActiveContext.edges := [(u "Человек", u "Эфос", None)] |};
     EnhancedActiveContext.event_history := [];
     EnhancedActiveContext.phi_dialogues := [];
     EnhancedActiveContext.blind_spots := [];
     EnhancedActiveContext.tension_log := [];
     EnhancedActiveContext._habeas_weights :=
       [ (u "hw-1", [(u "subject", VStr (u "Человек"));
                     (u "right_type", VStr (u "existence"))]);
         (u "hw-2", []) ];
     EnhancedActiveContext._operator_id := None |}.

Definition empty_fs : SemanticDBSerializer.FileSystem :=
  SemanticDBSerializer.mk_fs ∅ ∅.

(** ** Proof steps that recur *)

(** Case analysis on the comparisons inside [SFcompare]. *)
Ltac compare_cases :=
  repeat match goal with
  | H : context [Z.compare ?a ?b] |- _ => destruct (Z.compare_spec a b); subst
  | |- context [Z.compare ?a ?b] => destruct (Z.compare_spec a b); subst
  | H : context [Pos.compare_cont Eq ?a ?b] |- _ =>
    change (Pos.compare_cont Eq a b) with (Pos.compare a b) in *;
    destruct (Pos.compare_spec a b); subst
  | |- context [Pos.compare_cont Eq ?a ?b] =>
    change (Pos.compare_cont Eq a b) with (Pos.compare a b) in *;
    destruct (Pos.compare_spec a b); subst
  end.

(** Reading an entry of a dictionary display whose keys are literals. *)
Ltac lookup_entry :=
  cbn [dict_lookup];
  repeat first
    [ rewrite decide_True by reflexivity
    | rewrite decide_False
        by (let E := fresh in intros E; vm_compute in E; discriminate E) ];
  reflexivity.

(** Counting the lines of a list that equal a literal line. *)
Ltac count_line :=
  repeat (rewrite filter_cons;
          match goal with
          | |- context [decide (?a = ?b)] =>
            first [ rewrite (decide_True (P := a = b)) by reflexivity
                  | rewrite (decide_False (P := a = b))
                      by (let E := fresh in intros E; vm_compute in E; discriminate E) ]
          end);
  rewrite ?filter_nil; reflexivity.

(** A literal that is not among other literals. *)
Ltac literal_mismatch :=
  let E := fresh in
  intros E;
  repeat (apply elem_of_cons in E as [E|E]; [vm_compute in E; discriminate E|]);
  first [ apply elem_of_nil in E; exact E | vm_compute in E; discriminate E ].

(** Literals are compared as they stand; they are decoded by [vm_compute]. *)
Opaque u.

(** ** The models of the built-ins on sample values *)

Example split_example :
  split (u "  Это  всегда верно ") = [u "Это"; u "всегда"; u "верно"].
Proof. vm_compute. reflexivity. Qed.

Example lower_example : simple_lower (u "Это ВСЕГДА Λ-цикл") = u "это всегда λ-цикл".
Proof. vm_compute. reflexivity. Qed.

Example fmt_2f_examples :
  fmt_2f 0.7 = u "0.70" ∧ fmt_2f 0.125 = u "0.12" ∧ fmt_2f 0.375 = u "0.38"
  ∧ fmt_2f 0.005 = u "0.01" ∧ fmt_2f 2.675 = u "2.67"
  ∧ fmt_2f 1234.5678 = u "1234.57" ∧ fmt_2f (-0.001) = u "-0.00"
  ∧ fmt_2f 1e22 = u "10000000000000000000000.00".
Proof. vm_compute. split_and!; reflexivity. Qed.

Example isoformat_examples :
  isoformat (mk_datetime 2025 3 14 9 26 3 535) = u "2025-03-14T09:26:03.000535"
  ∧ isoformat (mk_datetime 2025 3 14 9 26 3 0) = u "2025-03-14T09:26:03".
Proof. vm_compute. split; reflexivity. Qed.

Example float_of_int_examples :
  float_of_int 3 = Ok 3%float
  ∧ float_of_int (2 ^ 53 + 1) = Ok 9007199254740992%float
  ∧ raises (float_of_int (2 ^ 1024)).
Proof. vm_compute. split_and!; [reflexivity | reflexivity | exact I]. Qed.

Example sorted_example :
  sorted {[ u "semanticdb"; u "онтологический-цикл"; u "LOGOS-κ"; u "lambda-universe"; u "7" ]}
  = [u "7"; u "LOGOS-κ"; u "lambda-universe"; u "semanticdb"; u "онтологический-цикл"].
Proof. vm_compute. reflexivity. Qed.

(** ** Binary64 facts *)

Lemma SFmul_comm x y : SFmul prec emax x y = SFmul prec emax y x.
Proof.
  destruct x as [sx|sx| |sx mx ex], y as [sy|sy| |sy my ey]; simpl;
    rewrite ?(Bool.xorb_comm sx sy); try reflexivity.
  now rewrite (Pos.mul_comm mx my), (Z.add_comm ex ey).
Qed.

Lemma float_mul_comm (x y : float) : (x * y = y * x)%float.
Proof. apply Prim2SF_inj. rewrite !mul_spec. apply SFmul_comm. Qed.

Lemma float_ltb_leb (x y : float) : (x <? y)%float = true -> (x <=? y)%float = true.
Proof.
  rewrite ltb_spec, leb_spec. unfold SFltb, SFleb.
  now destruct (SFcompare _ _) as [[]|].
Qed.

Lemma clamp01_range (x : float) :
  (0 <=? clamp01 x)%float = true ∧ (clamp01 x <=? 1)%float = true.
Proof.
  unfold clamp01, pymin, pymax.
  destruct (x <? 1)%float eqn:H1.
  - destruct (0 <? x)%float eqn:H0.
    + split; now apply float_ltb_leb.
    + split; reflexivity.
  - split; reflexivity.
Qed.


(** ** The event record *)

Section Significance.

Import OntologicalEvent.
#[local] Open Scope float_scope.

Lemma significance_score_refines (e : t) :
  significance_score e = significance_formula e.
Proof.
  unfold significance_score, significance_formula, clamp01.
  destruct (float_of_int (tensions_resolved e)) as [resolved|]; [|reflexivity].
  destruct (float_of_int (tensions_created e)) as [created|]; [|reflexivity].
  cbn [bind].
  rewrite (float_mul_comm _ 0.4), (float_mul_comm resolved), (float_mul_comm created).
  now destruct (phi_meta e), (blind_spots_involved e).
Qed.

Lemma significance_score_range (e : t) (s : float) :
  significance_score e = Ok s -> (0 <=? s) = true ∧ (s <=? 1) = true.
Proof.
  rewrite significance_score_refines. unfold significance_formula.
  destruct (float_of_int (tensions_resolved e)); [|discriminate].
  destruct (float_of_int (tensions_created e)); [|discriminate].
  cbn [bind]. intros [= <-]. apply clamp01_range.
Qed.


End Significance.



(** ** The relation agent *)

Section Relation.

Import OntologicalRelation.
#[local] Open Scope float_scope.

(** The prefix that [transform] puts before the meaning is not empty, so
    [__post_init__] keeps the meaning it is given. *)
Lemma transformed_meaning_cons (i m : str) :
  ∃ c s, u "Трансформированная из " ++ i ++ u ": " ++ m = c :: s.
Proof. eexists _, _. vm_compute. reflexivity. Qed.

Lemma post_init_fields (fresh : str) (r : t) :
  meaning r ≠ [] ->
  let r' := __post_init__ fresh r in
  source r' = source r ∧ target r' = target r ∧ type r' = type r
  ∧ context_id r' = context_id r ∧ meaning r' = meaning r
  ∧ intensity r' = intensity r ∧ certainty r' = certainty r
  ∧ coherence_contribution r' = coherence_contribution r
  ∧ last_activated r' = last_activated r ∧ lifespan r' = lifespan r
  ∧ activation_count r' = activation_count r ∧ phi_meta r' = phi_meta r
  ∧ blind_spots r' = blind_spots r ∧ is_active r' = is_active r
  ∧ tension_level r' = tension_level r
  ∧ transformation_history r' = transformation_history r
  ∧ id r' = id r ∧ created r' = created r ∧ habeas_weight_id r' = fresh.
Proof.
  intros Hm. unfold __post_init__. destruct (meaning r) eqn:E; [done|].
  cbn. rewrite E. split_and!; reflexivity.
Qed.

Lemma transform_successor (h : Host) (self : t) (new_type new_target : option str) :
  let succ := (transform h self new_type new_target).1 in
  source succ = source self
  ∧ target succ = py_or new_target (target self)
  ∧ type succ = py_or new_type (type self)
  ∧ context_id succ = context_id self
  ∧ meaning succ = u "Трансформированная из " ++ id self ++ u ": " ++ meaning self
  ∧ intensity succ = 1.0
  ∧ certainty succ = 0.8 * certainty self
  ∧ coherence_contribution succ = 0.0
  ∧ last_activated succ = None
  ∧ lifespan succ = None
  ∧ activation_count succ = 0%Z
  ∧ phi_meta succ = phi_meta self ++ [u "трансформация"]
  ∧ blind_spots succ = blind_spots self ++ [context_loss_marker]
  ∧ is_active succ = true
  ∧ tension_level succ = 0.0
  ∧ transformation_history succ = []
  ∧ id succ = take 8 (uuid4 h 0)
  ∧ created succ = now h 0
  ∧ habeas_weight_id succ = uuid4 h 2.
Proof.
  change (transform h self new_type new_target).1
    with (transformed h self new_type new_target).
  unfold transformed.
  match goal with |- context [__post_init__ ?f ?r] =>
    pose proof (post_init_fields f r) as H end.
  destruct (transformed_meaning_cons (id self) (meaning self)) as (c & s & E).
  rewrite (float_mul_comm 0.8). apply H.
  unfold meaning at 1. rewrite E. discriminate.
Qed.

Lemma transform_original (h : Host) (self : t) (new_type new_target : option str) :
  let self' := (transform h self new_type new_target).2 in
  is_active self' = false
  ∧ length (transformation_history self') = S (length (transformation_history self))
  ∧ certainty self' = certainty self
  ∧ blind_spots self' = blind_spots self.
Proof.
  unfold transform, set_is_active, set_transformation_history.
  cbv beta iota zeta delta [snd is_active transformation_history certainty blind_spots].
  rewrite length_app, Nat.add_comm. split_and!; reflexivity.
Qed.

End Relation.

(** C4: for every relation whose blind-spot list does not yet contain the
    "loss of original context" marker, [transform] sets the relation's
    [is_active] to false and returns a successor whose certainty is 0.8 times
    the relation's certainty and whose blind-spot list contains the marker. *)
Theorem transform_deactivates_and_marks
    (h : Host) (self : OntologicalRelation.t) (new_type new_target : option str) :
  OntologicalRelation.context_loss_marker ∉ OntologicalRelation.blind_spots self ->
  let r := OntologicalRelation.transform h self new_type new_target in
  OntologicalRelation.is_active r.2 = false
  ∧ OntologicalRelation.certainty r.1
    = (0.8 * OntologicalRelation.certainty self)%float
  ∧ OntologicalRelation.context_loss_marker ∈ OntologicalRelation.blind_spots r.1.
Proof.
  intros _ r. subst r.
  destruct (transform_successor h self new_type new_target)
    as (_ & _ & _ & _ & _ & _ & Hc & _ & _ & _ & _ & _ & Hb & _).
  destruct (transform_original h self new_type new_target) as (Ha & _).
  split; [exact Ha|]. split; [exact Hc|].
  rewrite Hb. apply elem_of_app. right. apply list_elem_of_singleton. reflexivity.
Qed.

Lemma transform_deactivates_and_marks_witness :
  let self := sample_relation (u "Λ") 0.7%float 0.0%float true in
  let r := OntologicalRelation.transform sample_host self (Some (u "Σ")) None in
  OntologicalRelation.is_active self = true
  ∧ OntologicalRelation.is_active r.2 = false
  ∧ OntologicalRelation.certainty r.1 = (0.8 * 0.7)%float
  ∧ OntologicalRelation.context_loss_marker ∈ OntologicalRelation.blind_spots r.1.
Proof.
  intros self r. split; [reflexivity|].
  apply (transform_deactivates_and_marks sample_host self (Some (u "Σ")) None).
  vm_compute. intros H. apply list_elem_of_In in H. cbn in H.
  destruct H as [H|[]]. discriminate H.
Defined.

(** C10: the successor returned by [transform] carries only the source, the
    (possibly overridden) target and type, the prefixed meaning, 0.8 times
    the certainty, the extended Φ-metadata and blind-spot lists and the
    context association of the relation; its other fields take the defaults
    whatever the relation holds: tension level 0.0, intensity 1.0, unbounded
    lifespan, activation count 0, active, empty transformation history; the
    identity, the creation time and the rights identifier are drawn anew.
    The target (the type) of the successor is the argument [new_target]
    ([new_type]) when that is a non-empty string, and the target (the type)
    of the relation when the argument is absent or the empty string. *)
Theorem transform_successor_defaults
    (h : Host) (self : OntologicalRelation.t) (new_type new_target : option str) :
  let succ := (OntologicalRelation.transform h self new_type new_target).1 in
  (OntologicalRelation.source succ = OntologicalRelation.source self
   ∧ OntologicalRelation.target succ
     = OntologicalRelation.py_or new_target (OntologicalRelation.target self)
   ∧ OntologicalRelation.type succ
     = OntologicalRelation.py_or new_type (OntologicalRelation.type self)
   ∧ OntologicalRelation.meaning succ
     = u "Трансформированная из " ++ OntologicalRelation.id self ++ u ": "
       ++ OntologicalRelation.meaning self
   ∧ OntologicalRelation.certainty succ
     = (0.8 * OntologicalRelation.certainty self)%float
   ∧ OntologicalRelation.phi_meta succ
     = OntologicalRelation.phi_meta self ++ [u "трансформация"]
   ∧ OntologicalRelation.blind_spots succ
     = OntologicalRelation.blind_spots self ++ [OntologicalRelation.context_loss_marker]
   ∧ OntologicalRelation.context_id succ = OntologicalRelation.context_id self)
  ∧ (OntologicalRelation.tension_level succ = 0.0%float
     ∧ OntologicalRelation.intensity succ = 1.0%float
     ∧ OntologicalRelation.lifespan succ = None
     ∧ OntologicalRelation.activation_count succ = 0%Z
     ∧ OntologicalRelation.is_active succ = true
     ∧ OntologicalRelation.transformation_history succ = []
     ∧ OntologicalRelation.last_activated succ = None
     ∧ OntologicalRelation.coherence_contribution succ = 0.0%float
     ∧ OntologicalRelation.id succ = take 8 (uuid4 h 0)
     ∧ OntologicalRelation.created succ = now h 0
     ∧ OntologicalRelation.habeas_weight_id succ = uuid4 h 2)
  ∧ (OntologicalRelation.target succ
     = match new_target with
       | Some (c :: s) => c :: s
       | Some [] => OntologicalRelation.target self
       | None => OntologicalRelation.target self
       end
     ∧ OntologicalRelation.type succ
       = match new_type with
         | Some (c :: s) => c :: s
         | Some [] => OntologicalRelation.type self
         | None => OntologicalRelation.type self
         end).
Proof.
  intros succ. subst succ.
  destruct (transform_successor h self new_type new_target)
    as (H1 & H2 & H3 & H4 & H5 & H6 & H7 & H8 & H9 & H10 & H11 & H12 & H13 & H14
        & H15 & H16 & H17 & H18 & H19).
  cbv zeta in H2, H3.
  split; [|split; [|split;
    [rewrite H2; destruct new_target as [[|c s]|]; reflexivity
    |rewrite H3; destruct new_type as [[|c s]|]; reflexivity]]];
    split_and!.
  - exact H1.
  - exact H2.
  - exact H3.
  - exact H5.
  - exact H7.
  - exact H12.
  - exact H13.
  - exact H4.
  - exact H15.
  - exact H6.
  - exact H10.
  - exact H11.
  - exact H14.
  - exact H16.
  - exact H9.
  - exact H8.
  - exact H17.
  - exact H18.
  - exact H19.
Qed.

Lemma transform_successor_defaults_witness :
  OntologicalRelation.target
    (OntologicalRelation.transform sample_host
       (sample_relation (u "Λ") 0.7%float 0.0%float true)
       (Some (u "Σ")) (Some (u "сеть"))).1 = u "сеть"
  ∧ OntologicalRelation.type
      (OntologicalRelation.transform sample_host
         (sample_relation (u "Λ") 0.7%float 0.0%float true)
         (Some (u "Σ")) (Some (u "сеть"))).1 = u "Σ"
  ∧ OntologicalRelation.target
      (OntologicalRelation.transform sample_host
         (sample_relation (u "Λ") 0.7%float 0.0%float true) None (Some [])).1
    = u "машина"
  ∧ OntologicalRelation.type
      (OntologicalRelation.transform sample_host
         (sample_relation (u "Λ") 0.7%float 0.0%float true) None (Some [])).1
    = u "Λ".
Proof.
  destruct (transform_successor_defaults sample_host
              (sample_relation (u "Λ") 0.7%float 0.0%float true)
              (Some (u "Σ")) (Some (u "сеть")))
    as (_ & _ & Htarget & Htype).
  destruct (transform_successor_defaults sample_host
              (sample_relation (u "Λ") 0.7%float 0.0%float true) None (Some []))
    as (_ & _ & Htarget' & Htype').
  cbv zeta in Htarget, Htype, Htarget', Htype'.
  split_and!.
  - rewrite Htarget. vm_compute. reflexivity.
  - rewrite Htype. vm_compute. reflexivity.
  - rewrite Htarget'. vm_compute. reflexivity.
  - rewrite Htype'. vm_compute. reflexivity.
Defined.

(** C9: invoking a relation directly returns the same result and leaves the
    same state as calling [activate] with the same argument. *)
Theorem call_is_activate
    (h : Host) (self : OntologicalRelation.t)
    (context : option OntologicalRelation.PyObject) :
  OntologicalRelation.__call__ h self context
  = OntologicalRelation.activate h self context.
Proof. reflexivity. Qed.

(** C7: on a relation whose [is_active] flag is false, [activate] returns an
    error result that contains the relation's identity and leaves the
    relation unchanged; the activation counter, the certainty, the
    transformation history and the last-activated timestamp keep their
    values. *)
Theorem activate_inactive
    (h : Host) (self : OntologicalRelation.t)
    (context : option OntologicalRelation.PyObject) :
  OntologicalRelation.is_active self = false ->
  ∃ res self',
    OntologicalRelation.activate h self context = Ok (res, self')
    ∧ (∃ msg, dict_lookup res (u "error") = Some (VStr msg))
    ∧ dict_lookup res (u "relation_id") = Some (VStr (OntologicalRelation.id self))
    ∧ self' = self
    ∧ OntologicalRelation.activation_count self'
      = OntologicalRelation.activation_count self
    ∧ OntologicalRelation.certainty self' = OntologicalRelation.certainty self
    ∧ OntologicalRelation.transformation_history self'
      = OntologicalRelation.transformation_history self
    ∧ OntologicalRelation.last_activated self'
      = OntologicalRelation.last_activated self.
Proof.
  intros Hinactive. unfold OntologicalRelation.activate. rewrite Hinactive.
  eexists _, self. split; [reflexivity|].
  split; [eexists; vm_compute; reflexivity|].
  split; [vm_compute; reflexivity|].
  split_and!; reflexivity.
Qed.

Lemma activate_inactive_witness :
  let self := sample_relation (u "Λ") 0.7%float 0.0%float false in
  ∃ res,
    OntologicalRelation.activate sample_host self None = Ok (res, self)
    ∧ dict_lookup res (u "relation_id") = Some (VStr (u "a1b2c3d4")).
Proof.
  intros self.
  destruct (activate_inactive sample_host self None eq_refl)
    as (res & self' & Hact & _ & Hid & Hsame & _).
  exists res. subst self'. split; [exact Hact | exact Hid].
Defined.




(** ** Words of a text *)

Section Words.

(** The word that starts a text is determined by the text. *)
Lemma leading_word_unique (w w' rest rest' : str) :
  nospace w -> nospace w' -> w ++ rest = w' ++ rest' ->
  starts_space rest -> starts_space rest' -> w = w'.
Proof.
  revert w'. induction w as [|c w IH]; intros [|c' w'] Hw Hw' E Hr Hr'.
  - reflexivity.
  - cbn in E. apply Forall_cons in Hw' as [Hc _].
    destruct Hr as [->|(d & q & -> & Hd)]; [discriminate|].
    injection E as -> _. congruence.
  - cbn in E. apply Forall_cons in Hw as [Hc _].
    destruct Hr' as [->|(d & q & -> & Hd)]; [discriminate|].
    injection E as -> _. congruence.
  - cbn in E. injection E as -> E.
    apply Forall_cons in Hw as [_ Hw]. apply Forall_cons in Hw' as [_ Hw'].
    f_equal. eapply IH; eassumption.
Qed.

Lemma later_word_cons (c : N) (s w : str) : later_word s w -> later_word (c :: s) w.
Proof.
  intros (Hne & Hns & pre & post & -> & (p & d & -> & Hd) & Hpost).
  split; [exact Hne|]. split; [exact Hns|].
  exists (c :: p ++ [d]), post. split; [reflexivity|].
  split; [exists (c :: p), d; split; [reflexivity | exact Hd] | exact Hpost].
Qed.

Lemma scan_spec (s : str) :
  (nospace (scan s).1 ∧ ∃ rest, s = (scan s).1 ++ rest ∧ starts_space rest)
  ∧ (∀ w, w ∈ (scan s).2 ↔ later_word s w).
Proof.
  induction s as [|c s [(Hns & rest & Es & Hrest) IHB]].
  - split.
    + split; [constructor|]. exists []. split; [reflexivity | left; reflexivity].
    + intros w. split.
      * intros H. apply elem_of_nil in H. destruct H.
      * intros (_ & _ & pre & post & E & (p & d & -> & _) & _).
        destruct p; discriminate E.
  - cbn [scan]. destruct (scan s) as [w1 ws1]. cbn [fst snd] in *.
    destruct (isspace c) eqn:Hc; cbn [fst snd].
    + split.
      * split; [constructor|]. exists (c :: s). split; [reflexivity|].
        right. exists c, s. split; [reflexivity | exact Hc].
      * intros w. split.
        -- intros Hin.
           assert (Hcases : (w = w1 ∧ w1 ≠ []) ∨ w ∈ ws1).
           { destruct w1; [right; exact Hin|].
             apply elem_of_cons in Hin as [->|Hin]; [left; split; [reflexivity|discriminate] | right; exact Hin]. }
           destruct Hcases as [[-> Hne]|Hin'].
           ++ split; [exact Hne|]. split; [exact Hns|].
              exists [c], rest. split; [cbn; rewrite <- Es; reflexivity|].
              split; [exists [], c; split; [reflexivity | exact Hc] | exact Hrest].
           ++ apply later_word_cons, IHB, Hin'.
        -- intros (Hne & Hw & pre & post & E & (p & d & -> & Hd) & Hpost).
           destruct p as [|c1 p].
           ++ cbn in E. injection E as -> E.
              assert (w = w1) as ->.
              { eapply leading_word_unique; [exact Hw | exact Hns | | exact Hpost | exact Hrest].
                rewrite <- E. exact Es. }
              destruct w1; [destruct Hne; reflexivity | apply elem_of_cons; left; reflexivity].
           ++ cbn in E. injection E as -> E.
              assert (Hin : w ∈ ws1).
              { apply IHB. split; [exact Hne|]. split; [exact Hw|].
                exists (p ++ [d]), post. split; [exact E|].
                split; [exists p, d; split; [reflexivity | exact Hd] | exact Hpost]. }
              destruct w1; [exact Hin | apply elem_of_cons; right; exact Hin].
    + split.
      * split; [constructor; [exact Hc | exact Hns]|].
        exists rest. split; [cbn; rewrite <- Es; reflexivity | exact Hrest].
      * intros w. split.
        -- intros Hin. apply later_word_cons, IHB, Hin.
        -- intros (Hne & Hw & pre & post & E & (p & d & -> & Hd) & Hpost).
           destruct p as [|c1 p]; cbn in E; injection E as -> E; [congruence|].
           apply IHB. split; [exact Hne|]. split; [exact Hw|].
           exists (p ++ [d]), post. split; [exact E|].
           split; [exists p, d; split; [reflexivity | exact Hd] | exact Hpost].
Qed.

(** [split] returns exactly the whitespace-delimited words. *)
Lemma split_spec (s w : str) : w ∈ split s ↔ is_word s w.
Proof.
  destruct (scan_spec s) as [(Hns & rest & Es & Hrest) HB].
  unfold split. destruct (scan s) as [w0 ws] eqn:Escan. cbn [fst snd] in *.
  split.
  - intros Hin.
    assert (Hcases : (w = w0 ∧ w0 ≠ []) ∨ w ∈ ws).
    { destruct w0; [right; exact Hin|].
      apply elem_of_cons in Hin as [->|Hin]; [left; split; [reflexivity|discriminate] | right; exact Hin]. }
    destruct Hcases as [[-> Hne]|Hin'].
    + split; [exact Hne|]. split; [exact Hns|].
      exists [], rest. split; [exact Es|]. split; [left; reflexivity | exact Hrest].
    + apply HB in Hin' as (Hne & Hw & pre & post & E & Hpre & Hpost).
      split; [exact Hne|]. split; [exact Hw|].
      exists pre, post. split; [exact E|]. split; [right; exact Hpre | exact Hpost].
  - intros (Hne & Hw & pre & post & E & Hpre & Hpost).
    pose proof Hpost as Hpost'.
    destruct Hpre as [->|Hpre].
    + assert (w = w0) as ->.
      { eapply leading_word_unique; [exact Hw | exact Hns | | exact Hpost' | exact Hrest].
        cbn in E. rewrite <- E. exact Es. }
      destruct w0; [destruct Hne; reflexivity | apply elem_of_cons; left; reflexivity].
    + assert (Hin : w ∈ ws).
      { apply HB. split; [exact Hne|]. split; [exact Hw|].
        exists pre, post. split; [exact E|]. split; [exact Hpre | exact Hpost']. }
      destruct w0; [exact Hin | apply elem_of_cons; right; exact Hin].
Qed.

End Words.

(** ** The axiom registry *)

Lemma validate_no_absolutism_raises_iff (lower : str -> str) (s : str) :
  s ≠ [] ->
  raises (OntologicalAxioms.validate_no_absolutism lower (Some s))
  ↔ ∃ w, is_word (lower s) w ∧ w ∈ OntologicalAxioms.ABSOLUTISM_KEYWORDS.
Proof.
  intros Hne. unfold OntologicalAxioms.validate_no_absolutism.
  destruct s as [|c s]; [destruct Hne; reflexivity|].
  destruct (decide _) as [Hsome|Hnone]; cbn [raises].
  - split; [intros _|done].
    apply set_choose_L in Hsome as (w & Hw).
    apply elem_of_intersection in Hw as [Hk Hin].
    apply elem_of_list_to_set, split_spec in Hin. exists w. split; assumption.
  - split; [done|]. intros (w & Hword & Hk). apply Hnone.
    apply (non_empty_inhabited_L w), elem_of_intersection. split; [exact Hk|].
    apply elem_of_list_to_set, split_spec, Hword.
Qed.

Lemma validate_no_absolutism_outcomes (lower : str -> str) (text : option str) :
  OntologicalAxioms.validate_no_absolutism lower text = Ok tt
  ∨ OntologicalAxioms.validate_no_absolutism lower text
    = Raise (OntologicalLimitError OntologicalAxioms.absolutism_message).
Proof.
  unfold OntologicalAxioms.validate_no_absolutism.
  destruct text as [[|c s]|]; [left; reflexivity | | left; reflexivity].
  destruct (decide _); [right | left]; reflexivity.
Qed.

(** C8: [validate_no_absolutism] returns normally on empty or absent text;
    on non-empty text it raises the limit error exactly when some
    whitespace-delimited word of the lower-cased text is one of the
    absolutism keywords, so a keyword that occurs only inside a longer word
    is not flagged.  It fails on "Это всегда верно" and passes on
    "Это иногда верно". *)
Theorem validate_no_absolutism_spec :
  (∀ lower, OntologicalAxioms.validate_no_absolutism lower None = Ok tt
            ∧ OntologicalAxioms.validate_no_absolutism lower (Some []) = Ok tt)
  ∧ (∀ lower s, s ≠ [] ->
       (OntologicalAxioms.validate_no_absolutism lower (Some s)
        = Raise (OntologicalLimitError OntologicalAxioms.absolutism_message)
        ↔ ∃ w, is_word (lower s) w ∧ w ∈ OntologicalAxioms.ABSOLUTISM_KEYWORDS)
       ∧ (OntologicalAxioms.validate_no_absolutism lower (Some s) = Ok tt
          ↔ ∀ w, is_word (lower s) w -> w ∉ OntologicalAxioms.ABSOLUTISM_KEYWORDS))
  ∧ OntologicalAxioms.validate_no_absolutism simple_lower (Some (u "Это всегда верно"))
    = Raise (OntologicalLimitError OntologicalAxioms.absolutism_message)
  ∧ OntologicalAxioms.validate_no_absolutism simple_lower (Some (u "Это иногда верно"))
    = Ok tt
  ∧ OntologicalAxioms.validate_no_absolutism simple_lower (Some (u "Это навсегда верно"))
    = Ok tt.
Proof.
  split_and!.
  - intros lower. split; reflexivity.
  - intros lower s Hne.
    pose proof (validate_no_absolutism_raises_iff lower s Hne) as Hiff.
    destruct (validate_no_absolutism_outcomes lower (Some s)) as [E|E];
      rewrite E in *; cbn [raises] in Hiff.
    + split; [split; [intros H; inversion H | intros H; apply Hiff in H; destruct H]|].
      split; [|reflexivity]. intros _ w Hw Hk. apply Hiff. exists w. split; assumption.
    + split; [split; [intros _; apply Hiff; exact I | reflexivity]|].
      split; [intros H; inversion H|]. intros Hall.
      destruct (proj1 Hiff I) as (w & Hw & Hk). destruct (Hall w Hw Hk).
  - vm_compute. reflexivity.
  - vm_compute. reflexivity.
  - vm_compute. reflexivity.
Qed.

Lemma validate_no_absolutism_spec_witness :
  u "Это всегда верно" ≠ []
  ∧ ∃ w, is_word (simple_lower (u "Это всегда верно")) w
         ∧ w ∈ OntologicalAxioms.ABSOLUTISM_KEYWORDS.
Proof.
  assert (Hne : u "Это всегда верно" ≠ []) by (vm_compute; discriminate).
  split; [exact Hne|].
  destruct validate_no_absolutism_spec as (_ & Hgen & Hfail & _).
  exact (proj1 (proj1 (Hgen simple_lower _ Hne)) Hfail).
Defined.

(** ** The FAIR encoder *)

Lemma str_le_total_or (s t : str) : str_le s t ∨ str_le t s.
Proof.
  unfold str_le. revert t. induction s as [|a s IH]; intros [|b t]; cbn; auto.
  destruct (N.ltb_spec a b), (N.ltb_spec b a); auto; lia.
Qed.

Lemma str_le_trans (s t r : str) : str_le s t -> str_le t r -> str_le s r.
Proof.
  unfold str_le. revert t r.
  induction s as [|a s IH]; intros [|b t] [|c r]; cbn; auto; try discriminate.
  destruct (N.ltb_spec a b), (N.ltb_spec b a), (N.ltb_spec b c), (N.ltb_spec c b),
    (N.ltb_spec a c), (N.ltb_spec c a); auto; try discriminate; try lia.
  apply IH.
Qed.

Section Keywords.

Import EnhancedActiveContext FAIREncoder.

Variable lower : str -> str.

(** Adding keywords never removes one. *)
Lemma foldl_keeps {A} (g : gset str -> A -> gset str) (l : list A) (init : gset str) (k : str) :
  (∀ kws a, k ∈ kws -> k ∈ g kws a) -> k ∈ init -> k ∈ foldl g init l.
Proof.
  intros Hg. revert init. induction l as [|a l IH]; intros init Hin; cbn; [exact Hin|].
  apply IH, Hg, Hin.
Qed.

Lemma baseline_in_keyword_set (context : t) (k : str) :
  k ∈ baseline_keywords -> k ∈ keyword_set lower context.
Proof.
  intros Hk. unfold keyword_set.
  apply foldl_keeps; [intros kws a Hin; apply elem_of_union; right; exact Hin|].
  apply foldl_keeps.
  { intros kws [[? ?] [rel|]] Hin; cbn; [apply elem_of_union; right|]; exact Hin. }
  apply foldl_keeps; [intros kws a Hin; apply elem_of_union; right; exact Hin|].
  apply elem_of_list_to_set, Hk.
Qed.

Lemma sorted_elem_of (K : gset str) (k : str) : k ∈ sorted K ↔ k ∈ K.
Proof. unfold sorted. rewrite merge_sort_Permutation. apply elem_of_elements. Qed.

Lemma sorted_length (K : gset str) : length (sorted K) = size K.
Proof. unfold sorted. rewrite merge_sort_Permutation. reflexivity. Qed.

Lemma sorted_StronglySorted (K : gset str) : StronglySorted str_le (sorted K).
Proof.
  apply (StronglySorted_merge_sort str_le (Transitive0 := str_le_trans)
           (Total0 := str_le_total_or)).
Qed.

Lemma extract_keywords_sorted (context : t) :
  StronglySorted str_le (_extract_keywords lower context).
Proof.
  unfold _extract_keywords.
  pose proof (sorted_StronglySorted (keyword_set lower context)) as H.
  rewrite <- (take_drop 20 (sorted _)) in H.
  exact (StronglySorted_app_1_l _ _ _ H).
Qed.

Lemma extract_keywords_length (context : t) :
  length (_extract_keywords lower context)
  = Nat.min 20 (size (keyword_set lower context)).
Proof. unfold _extract_keywords. rewrite length_take, sorted_length. reflexivity. Qed.

Lemma extract_keywords_prefix (context : t) :
  _extract_keywords lower context `prefix_of` sorted (keyword_set lower context).
Proof.
  unfold _extract_keywords. exists (drop 20 (sorted (keyword_set lower context))).
  symmetry. apply take_drop.
Qed.

Lemma extract_keywords_all (context : t) :
  size (keyword_set lower context) ≤ 20 ->
  ∀ k, k ∈ _extract_keywords lower context ↔ k ∈ keyword_set lower context.
Proof.
  intros Hsize k. unfold _extract_keywords.
  rewrite take_ge by (rewrite sorted_length; exact Hsize).
  apply sorted_elem_of.
Qed.

End Keywords.

(** C2 (as amended): for every context, [_extract_keywords] returns the
    first 20 entries of the sorted keyword set, so the result is sorted by
    code point and has at most 20 entries; it contains all four baseline
    keywords whenever the keyword set has at most 20 elements. *)
Theorem extract_keywords_sorted_bounded
    (lower : str -> str) (context : EnhancedActiveContext.t) :
  let result := FAIREncoder._extract_keywords lower context in
  StronglySorted str_le result
  ∧ length result ≤ 20
  ∧ length result = Nat.min 20 (size (FAIREncoder.keyword_set lower context))
  ∧ result `prefix_of` sorted (FAIREncoder.keyword_set lower context)
  ∧ (∀ k, k ∈ FAIREncoder.baseline_keywords ->
          k ∈ FAIREncoder.keyword_set lower context)
  ∧ (size (FAIREncoder.keyword_set lower context) ≤ 20 ->
     ∀ k, k ∈ FAIREncoder.baseline_keywords -> k ∈ result).
Proof.
  intros result. subst result. split_and!.
  - apply extract_keywords_sorted.
  - rewrite extract_keywords_length. lia.
  - apply extract_keywords_length.
  - apply extract_keywords_prefix.
  - intros k. apply baseline_in_keyword_set.
  - intros Hsize k Hk. apply extract_keywords_all; [exact Hsize|].
    apply baseline_in_keyword_set, Hk.
Qed.

Lemma extract_keywords_sorted_bounded_witness :
  size (FAIREncoder.keyword_set simple_lower small_context) ≤ 20
  ∧ FAIREncoder._extract_keywords simple_lower small_context
    = map u [ "LOGOS-κ"; "lambda-universe"; "semanticdb"; "онтологический-цикл";
              "связь-σ"; "слепое-пятно-chaos"; "умная-машина"; "человек" ]%string
  ∧ ∀ k, k ∈ FAIREncoder.baseline_keywords ->
         k ∈ FAIREncoder._extract_keywords simple_lower small_context.
Proof.
  assert (Hsize : size (FAIREncoder.keyword_set simple_lower small_context) ≤ 20).
  { apply Nat.leb_le. vm_compute. reflexivity. }
  split; [exact Hsize|]. split; [vm_compute; reflexivity|].
  exact (proj2 (proj2 (proj2 (proj2 (proj2
           (extract_keywords_sorted_bounded simple_lower small_context))))) Hsize).
Defined.

(** C2 as stated fails: with twenty entities named by numerals, every
    numeral sorts before the baseline keywords and the cut at 20 entries
    leaves none of the four in the result. *)
Lemma extract_keywords_drops_baseline :
  length (FAIREncoder._extract_keywords simple_lower crowded_context) = 20
  ∧ ∀ k, k ∈ FAIREncoder.baseline_keywords ->
         k ∉ FAIREncoder._extract_keywords simple_lower crowded_context.
Proof.
  split; [vm_compute; reflexivity|].
  apply Forall_forall. apply (bool_decide_unpack _). vm_compute. exact I.
Qed.

(** ** The serializer *)

Lemma load_name_cycle_of_data (cycle_data : pydict) :
  SemanticDBSerializer.load_name cycle_data (u "cycle_of_data")
  = Raise (NameError (u "cycle_of_data")).
Proof. vm_compute. reflexivity. Qed.

(** C1: [to_yaml] never returns a report.  The value for
    [successful_evaluations] is read through the name [cycle_of_data], which
    is bound nowhere, so the call ends in [NameError] as soon as the three
    entries before it have been read (or in [KeyError] for one of those);
    in particular it does so on a complete cycle summary. *)
Theorem to_yaml_raises_name_error
    (yaml_dump py_str : PyVal -> str) (imported : datetime) (h : Host)
    (context : EnhancedActiveContext.t) (cycle_data : pydict) :
  (SemanticDBSerializer.to_yaml yaml_dump py_str imported h context cycle_data
   = Raise (NameError (u "cycle_of_data"))
   ∨ ∃ k, k ∈ [u "cycle_id"; u "timestamp"; u "expressions_evaluated"]
          ∧ dict_lookup cycle_data k = None
          ∧ SemanticDBSerializer.to_yaml yaml_dump py_str imported h context cycle_data
            = Raise (KeyError k))
  ∧ SemanticDBSerializer.to_yaml yaml_dump py_str imported h small_context sample_cycle
    = Raise (NameError (u "cycle_of_data")).
Proof.
  split.
  - unfold SemanticDBSerializer.to_yaml, getitem.
    destruct (dict_lookup cycle_data (u "cycle_id")) eqn:E1; cbn [bind];
      [|right; exists (u "cycle_id"); split; [apply list_elem_of_here | split; [exact E1 | reflexivity]]].
    destruct (dict_lookup cycle_data (u "timestamp")) eqn:E2; cbn [bind];
      [|right; exists (u "timestamp"); split;
        [apply list_elem_of_further, list_elem_of_here | split; [exact E2 | reflexivity]]].
    destruct (dict_lookup cycle_data (u "expressions_evaluated")) eqn:E3; cbn [bind];
      [|right; exists (u "expressions_evaluated"); split;
        [do 2 apply list_elem_of_further; apply list_elem_of_here | split; [exact E3 | reflexivity]]].
    left. rewrite load_name_cycle_of_data. reflexivity.
  - unfold SemanticDBSerializer.to_yaml.
    replace (getitem sample_cycle (u "cycle_id")) with (Ok (VStr (u "c0ffee01")))
      by (vm_compute; reflexivity).
    replace (getitem sample_cycle (u "timestamp")) with (Ok (VStr (u "2025-03-14T09:26:53")))
      by (vm_compute; reflexivity).
    replace (getitem sample_cycle (u "expressions_evaluated")) with (Ok (VInt 7))
      by (vm_compute; reflexivity).
    cbn [bind]. rewrite load_name_cycle_of_data. reflexivity.
Qed.

(** ** Rounding of binary64 products and sums *)

Section Rounding.
#[local] Open Scope Z_scope.

Lemma fexp64 (x : Z) : fexp prec emax x = Z.max (x - 53) (-1074).
Proof. reflexivity. Qed.

Lemma digits2_bounds (p : positive) :
  2 ^ (Z.pos (digits2_pos p) - 1) <= Z.pos p < 2 ^ Z.pos (digits2_pos p).
Proof.
  induction p as [p IH|p IH|]; cbn [digits2_pos]; [| |cbn; lia];
    rewrite Pos2Z.inj_succ;
    replace (Z.succ (Z.pos (digits2_pos p)) - 1) with (Z.succ (Z.pos (digits2_pos p) - 1)) by lia;
    rewrite !Z.pow_succ_r by lia; lia.
Qed.

Lemma shr_1_inv (k M : Z) (r : shr_record) :
  0 <= k -> shr_inv k M r -> shr_inv (k + 1) M (shr_1 r).
Proof.
  intros Hk (Hm & t & E & Ht & Hs). destruct r as [m rb sb]. cbn [shr_m shr_r shr_s] in *.
  unfold shr_inv. rewrite Z.pow_add_r, Z.pow_1_r by lia.
  assert (Hp : 0 < 2 ^ k) by (apply Z.pow_pos_nonneg; lia).
  destruct m as [|[p|p|]|p]; [| | | |lia]; cbn [shr_1 shr_m shr_r shr_s b2z];
    (split; [lia|]); exists (2 ^ k * b2z rb + t);
    (split; [destruct rb; cbn [b2z] in *; lia|]);
    (split; [destruct rb; cbn [b2z]; lia|]);
    destruct rb, sb; cbn [orb b2z]; split; intros; try reflexivity; try lia;
    try (assert (0 < t) by (apply Hs; reflexivity); lia);
    try (destruct Hs as [_ Hs]; discriminate Hs; lia).
Qed.

Lemma iter_pos_shr_inv (p : positive) :
  ∀ k M r, 0 <= k -> shr_inv k M r -> shr_inv (k + Z.pos p) M (SpecFloat.iter_pos shr_1 p r).
Proof.
  induction p as [p IH|p IH|]; intros k M r Hk H; cbn [SpecFloat.iter_pos].
  - replace (k + Z.pos p~1) with (k + 1 + Z.pos p + Z.pos p) by lia.
    apply IH; [lia|]. apply IH; [lia|]. apply shr_1_inv; assumption.
  - replace (k + Z.pos p~0) with (k + Z.pos p + Z.pos p) by lia.
    apply IH; [lia|]. apply IH; assumption.
  - apply shr_1_inv; assumption.
Qed.

Lemma shr_nonpos (r : shr_record) (e n : Z) : n <= 0 -> shr r e n = (r, e).
Proof. destruct n; [reflexivity | lia | reflexivity]. Qed.

Lemma shr_exact_inv (M e n : Z) :
  0 <= M -> 0 <= n ->
  shr_inv n M (shr (shr_record_of_loc M loc_Exact) e n).1
  ∧ (shr (shr_record_of_loc M loc_Exact) e n).2 = e + n.
Proof.
  intros HM Hn.
  assert (H0 : shr_inv 0 M (shr_record_of_loc M loc_Exact)).
  { split; [exact HM|]. exists 0. cbn. split; [lia|]. split; [lia|]. split; [discriminate | lia]. }
  destruct n as [|p|p]; [| |lia]; cbn [shr fst snd].
  - split; [exact H0 | lia].
  - split; [|reflexivity]. apply (iter_pos_shr_inv p 0 M _ ltac:(lia) H0).
Qed.

Lemma round_nearest_even_lower (n M : Z) (r : shr_record) :
  0 <= n -> shr_inv n M r ->
  let m' := round_nearest_even (shr_m r) (loc_of_shr_record r) in
  shr_m r <= m' <= shr_m r + 1 ∧ 2 ^ (n + 1) * m' >= 2 * M - 2 ^ n.
Proof.
  intros Hn (Hm & t & E & Ht & Hs). destruct r as [m rb sb]. cbn [shr_m shr_r shr_s] in *.
  rewrite Z.pow_add_r, Z.pow_1_r by lia.
  assert (Hp : 0 < 2 ^ n) by (apply Z.pow_pos_nonneg; lia).
  destruct rb, sb; cbn [loc_of_shr_record round_nearest_even b2z] in *.
  - split; [lia|]. assert (0 < t) by (apply Hs; reflexivity). nia.
  - destruct (Z.even m); split; try lia; nia.
  - split; [lia|]. nia.
  - split; [lia|]. nia.
Qed.

Lemma fexp64_ge_emin (x : Z) : -1074 <= fexp prec emax x.
Proof. rewrite fexp64. lia. Qed.

Lemma digits2_le_53 (q : positive) : Z.pos q < 2 ^ 53 -> Z.pos (digits2_pos q) <= 53.
Proof.
  intros Hq. pose proof (digits2_bounds q) as [Hlo _].
  destruct (Z.le_gt_cases (Z.pos (digits2_pos q)) 53) as [H|H]; [exact H|].
  assert (2 ^ 53 <= 2 ^ (Z.pos (digits2_pos q) - 1)) by (apply Z.pow_le_mono_r; lia).
  lia.
Qed.

(** Rounding a positive mantissa: the result is never below the exact value
    by more than half a unit of the last place. *)
Lemma binary_round_aux_lower (M : positive) (e : Z) :
  let e1 := fexp prec emax (Z.pos (digits2_pos M) + e) in
  e <= e1 ->
  match binary_round_aux prec emax false (Z.pos M) e loc_Exact with
  | S754_zero s => s = false ∧ 2 * Z.pos M <= 2 ^ (e1 - e)
  | S754_infinity s => s = false
  | S754_nan => False
  | S754_finite s m3 e3 =>
    s = false ∧ e1 <= e3
    ∧ 2 * (Z.pos m3 * 2 ^ (e3 - e)) >= 2 * Z.pos M - 2 ^ (e1 - e)
  end.
Proof.
  intros e1 He. unfold binary_round_aux, shr_fexp. cbn [Zdigits2]. fold e1.
  assert (HM : 0 <= Z.pos M) by lia.
  assert (Hn0 : 0 <= e1 - e) by lia.
  destruct (shr_exact_inv (Z.pos M) e (e1 - e) HM Hn0) as [Hinv He'].
  destruct (shr _ e (e1 - e)) as [r1 e'] eqn:Eshr. cbn [fst snd] in *.
  replace e' with e1 in * by lia. clear He' Eshr e'.
  pose proof (round_nearest_even_lower _ _ _ Hn0 Hinv) as [Hm' Hlow].
  set (m' := round_nearest_even _ _) in *.
  set (n := e1 - e) in *.
  assert (Hn : 0 <= n) by lia.
  assert (Hpn : 0 < 2 ^ n) by (apply Z.pow_pos_nonneg; lia).
  assert (Hemin : -1074 <= e1) by apply fexp64_ge_emin.
  assert (Hsmall : shr_m r1 < 2 ^ 53).
  { destruct Hinv as (Hm0 & t & E & Ht & _).
    pose proof (digits2_bounds M) as [_ Hhi].
    assert (Hd : Z.pos (digits2_pos M) <= n + 53).
    { subst n e1. rewrite fexp64. lia. }
    assert (2 ^ Z.pos (digits2_pos M) <= 2 ^ (n + 53)) by (apply Z.pow_le_mono_r; lia).
    rewrite Z.pow_add_r in * by lia.
    destruct (shr_r r1); cbn [b2z] in E; nia. }
  rewrite Z.pow_add_r, Z.pow_1_r in Hlow by lia.
  destruct m' as [|q|q] eqn:Em'.
  - rewrite shr_nonpos by (cbn [Zdigits2]; rewrite fexp64; lia).
    cbn. split; [reflexivity | lia].
  - destruct (Z.lt_ge_cases (Z.pos q) (2 ^ 53)) as [Hq|Hq].
    + rewrite shr_nonpos
        by (cbn [Zdigits2]; rewrite fexp64; pose proof (digits2_le_53 q Hq); lia).
      cbn [shr_m shr_record_of_loc].
      destruct (Z.leb e1 (emax - prec)); [|reflexivity].
      split; [reflexivity|]. split; [lia|]. fold n. lia.
    + assert (Eq : q = 9007199254740992%positive) by lia. subst q.
      change (Zdigits2 9007199254740992) with 54.
      replace (fexp prec emax (54 + e1) - e1) with 1 by (rewrite fexp64; lia).
      cbn [shr SpecFloat.iter_pos shr_1 shr_record_of_loc shr_m].
      destruct (Z.leb (e1 + 1) (emax - prec)); [|reflexivity].
      split; [reflexivity|]. split; [lia|].
      replace (e1 + 1 - e) with (n + 1) by lia.
      rewrite Z.pow_add_r, Z.pow_1_r by lia. fold n. lia.
  - destruct Hinv as [Hm0 _]. lia.
Qed.

Lemma sval_pos (m : positive) (e : Z) : -1200 <= e -> 0 < sval m e.
Proof. intros He. unfold sval. apply Z.mul_pos_pos; [lia | apply Z.pow_pos_nonneg; lia]. Qed.

Lemma binary_round_aux_lower_sval (M : positive) (e : Z) :
  let e1 := fexp prec emax (Z.pos (digits2_pos M) + e) in
  -1200 <= e -> e <= e1 ->
  match binary_round_aux prec emax false (Z.pos M) e loc_Exact with
  | S754_zero s => s = false ∧ 2 * sval M e <= 2 ^ (e1 + 1200)
  | S754_infinity s => s = false
  | S754_nan => False
  | S754_finite s m3 e3 =>
    s = false ∧ e1 <= e3 ∧ 2 * sval m3 e3 >= 2 * sval M e - 2 ^ (e1 + 1200)
  end.
Proof.
  intros e1 Hlo He. pose proof (binary_round_aux_lower M e He) as H. fold e1 in H.
  assert (HB : 0 < 2 ^ (e + 1200)) by (apply Z.pow_pos_nonneg; lia).
  assert (E1 : 2 ^ (e1 + 1200) = 2 ^ (e1 - e) * 2 ^ (e + 1200)).
  { rewrite <- Z.pow_add_r by lia. f_equal. lia. }
  destruct (binary_round_aux _ _ _ _ _ _) as [s|s| |s m3 e3]; [| exact H | exact H |].
  - destruct H as [Hs H]. split; [exact Hs|]. unfold sval. rewrite E1. nia.
  - destruct H as (Hs & He3 & H). split; [exact Hs|]. split; [exact He3|].
    unfold sval. rewrite E1.
    replace (2 ^ (e3 + 1200)) with (2 ^ (e3 - e) * 2 ^ (e + 1200))
      by (rewrite <- Z.pow_add_r by lia; f_equal; lia).
    nia.
Qed.

Lemma pos_iter_xO (m d : positive) :
  Z.pos (Pos.iter xO m d) = Z.pos m * 2 ^ Z.pos d
  ∧ Z.pos (digits2_pos (Pos.iter xO m d)) = Z.pos (digits2_pos m) + Z.pos d.
Proof.
  induction d as [|d IH] using Pos.peano_ind.
  - cbn [Pos.iter digits2_pos]. split; [lia|]. rewrite Pos2Z.inj_succ. lia.
  - rewrite Pos.iter_succ. cbn [digits2_pos]. destruct IH as [IH1 IH2].
    rewrite !Pos2Z.inj_succ, Z.pow_succ_r, Pos2Z.inj_xO, IH1, IH2 by lia.
    split; lia.
Qed.

Lemma shl_align_spec (mx : positive) (ex ex' : Z) :
  let r := shl_align mx ex ex' in
  r.2 = Z.min ex ex'
  ∧ Z.pos r.1 = Z.pos mx * 2 ^ (ex - r.2)
  ∧ Z.pos (digits2_pos r.1) + r.2 = Z.pos (digits2_pos mx) + ex.
Proof.
  unfold shl_align. destruct (ex' - ex) as [|d|d] eqn:E; cbn [fst snd].
  - replace (ex - ex) with 0 by lia. split; [lia|]. split; lia.
  - replace (ex - ex) with 0 by lia. split; [lia|]. split; lia.
  - destruct (pos_iter_xO mx d) as [H1 H2].
    replace (ex - ex') with (Z.pos d) by lia. split; [lia|]. split; [exact H1 | lia].
Qed.

Lemma shl_align_sval (mx : positive) (ex ex' : Z) :
  -1200 <= ex -> -1200 <= ex' ->
  sval (shl_align mx ex ex').1 (shl_align mx ex ex').2 = sval mx ex.
Proof.
  intros H1 H2. destruct (shl_align_spec mx ex ex') as (Hz & Hm & _).
  unfold sval. rewrite Hm, <- Z.mul_assoc, <- Z.pow_add_r by lia. do 2 f_equal. lia.
Qed.

Lemma binary_round_lower_sval (mx : positive) (ex : Z) :
  let e1 := fexp prec emax (Z.pos (digits2_pos mx) + ex) in
  -1200 <= ex ->
  match binary_round prec emax false mx ex with
  | S754_zero s => s = false ∧ 2 * sval mx ex <= 2 ^ (e1 + 1200)
  | S754_infinity s => s = false
  | S754_nan => False
  | S754_finite s m3 e3 =>
    s = false ∧ e1 <= e3 ∧ 2 * sval m3 e3 >= 2 * sval mx ex - 2 ^ (e1 + 1200)
  end.
Proof.
  intros e1 Hex. unfold binary_round. fold e1.
  assert (He1 : -1074 <= e1) by apply fexp64_ge_emin.
  pose proof (shl_align_spec mx ex e1) as (Hz & Hm & Hd).
  pose proof (shl_align_sval mx ex e1 Hex ltac:(lia)) as HV.
  destruct (shl_align mx ex e1) as [mz ez]. cbn [fst snd] in *.
  pose proof (binary_round_aux_lower_sval mz ez) as H. cbn zeta in H.
  rewrite Hd in H. fold e1 in H. rewrite HV in H. apply H; lia.
Qed.

Lemma bounded_canonical (m : positive) (e : Z) :
  bounded prec emax m e = true ->
  -1074 <= e ∧ Z.pos m < 2 ^ 53 ∧ (-1074 < e -> 2 ^ 52 <= Z.pos m).
Proof.
  unfold bounded, canonical_mantissa. intros H.
  apply andb_prop in H as [H _]. apply Z.eqb_eq in H. rewrite fexp64 in H.
  pose proof (digits2_bounds m) as [Hlo Hhi].
  split; [lia|]. split.
  - assert (2 ^ Z.pos (digits2_pos m) <= 2 ^ 53) by (apply Z.pow_le_mono_r; lia). lia.
  - intros He. assert (Ed : Z.pos (digits2_pos m) = 53) by lia.
    rewrite Ed in Hlo. exact Hlo.
Qed.

(** Two positive numbers in canonical form compare as their values do. *)
Lemma SFleb_of_value (m1 : positive) (e1 : Z) (m2 : positive) (e2 : Z) :
  bounded prec emax m1 e1 = true -> bounded prec emax m2 e2 = true ->
  sval m1 e1 <= sval m2 e2 ->
  SFleb (S754_finite false m1 e1) (S754_finite false m2 e2) = true.
Proof.
  intros H1 H2 HV.
  apply bounded_canonical in H1 as (Hemin1 & Hhi1 & Hlo1).
  apply bounded_canonical in H2 as (Hemin2 & Hhi2 & Hlo2).
  unfold SFleb, SFcompare. destruct (Z.compare_spec e1 e2) as [E|E|E].
  - subst e2. unfold sval in HV.
    assert (0 < 2 ^ (e1 + 1200)) by (apply Z.pow_pos_nonneg; lia).
    assert (Hle : (m1 <= m2)%positive) by nia.
    rewrite Pos.compare_cont_spec. cbn [Pos.switch_Eq].
    destruct (Pos.compare_spec m1 m2); [reflexivity | reflexivity | lia].
  - reflexivity.
  - exfalso. unfold sval in HV.
    assert (0 < 2 ^ (e2 + 1200)) by (apply Z.pow_pos_nonneg; lia).
    assert (2 * 2 ^ (e2 + 1200) <= 2 ^ (e1 + 1200)).
    { rewrite <- Z.pow_succ_r by lia. apply Z.pow_le_mono_r; lia. }
    specialize (Hlo1 ltac:(lia)). nia.
Qed.

Lemma SFmul_sf_08 (m : positive) (e : Z) :
  SFmul prec emax (S754_finite false m e) sf_08
  = binary_round_aux prec emax false (Z.pos (m * 7205759403792794)) (e + -53) loc_Exact.
Proof. reflexivity. Qed.

Lemma SFadd_sf_02 (mp : positive) (ep : Z) :
  SFadd prec emax (S754_finite false mp ep) sf_02
  = binary_round prec emax false
      ((shl_align mp ep (Z.min ep (-55))).1
       + (shl_align 7205759403792794 (-55) (Z.min ep (-55))).1)%positive
      (Z.min ep (-55)).
Proof. reflexivity. Qed.

Lemma pow2_lt_inv (a b : Z) : 0 <= b -> 2 ^ a < 2 ^ b -> a < b.
Proof. intros Hb H. apply (Z.pow_lt_mono_r_iff 2); [lia | exact Hb | exact H]. Qed.

Lemma sval_digits_bounds (S : positive) (ez : Z) :
  -1200 <= ez ->
  2 ^ (Z.pos (digits2_pos S) + ez + 1199) <= sval S ez
  < 2 ^ (Z.pos (digits2_pos S) + ez + 1200).
Proof.
  intros Hez. pose proof (digits2_bounds S) as [Hlo Hhi]. unfold sval.
  set (d := Z.pos (digits2_pos S)) in *.
  assert (0 < d) by (subst d; lia).
  assert (0 < 2 ^ (ez + 1200)) by (apply Z.pow_pos_nonneg; lia).
  replace (d + ez + 1199) with ((d - 1) + (ez + 1200)) by lia.
  replace (d + ez + 1200) with (d + (ez + 1200)) by lia.
  rewrite (Z.pow_add_r 2 (d - 1)), (Z.pow_add_r 2 d) by lia. split.
  - apply Z.mul_le_mono_nonneg_r; [lia | exact Hlo].
  - apply Z.mul_lt_mono_pos_r; [lia | exact Hhi].
Qed.

(** The arithmetic of one update, on values in units of 2^-1200: [Y] is
    the certainty over 2^53, [VP] the rounded product, [VS] the exact sum,
    [VR] the rounded sum, [hP] and [hR] the units of the last place. *)
Lemma certainty_step_arith (Y VP VS VR hP hR : Z) :
  0 < Y <= (2 ^ 53 - 3) * 2 ^ 1094 ->
  2 * VP >= 2 * (7205759403792794 * Y) - hP ->
  0 < hP <= 2 ^ 1147 ->
  VS = VP + 7205759403792794 * 2 ^ 1145 ->
  2 ^ 52 * hR <= VS ->
  (VS < 2 ^ 1200 -> hR <= 2 ^ 1147) ->
  2 * VR >= 2 * VS - hR ->
  2 ^ 53 * Y <= VR.
Proof.
  intros HY HP HhP HVS HhR1 HhR2 HR.
  destruct (Z.lt_ge_cases VS (2 ^ 1200)) as [Hlt|Hge].
  - specialize (HhR2 Hlt). lia.
  - clear HhR2. lia.
Qed.

(** One certainty update below 1 − 2·2^-53 does not decrease the value:
    [c <= c * 0.8 + 0.2] in binary64. *)
Lemma certainty_step_SF (m : positive) (e : Z) :
  bounded prec emax m e = true ->
  e <= -53 -> (e = -53 -> Z.pos m <= 2 ^ 53 - 3) ->
  let P := SFmul prec emax (S754_finite false m e) sf_08 in
  let R := SFadd prec emax P sf_02 in
  valid_binary P = true -> valid_binary R = true ->
  SFleb (S754_finite false m e) R = true.
Proof.
  intros Hb He Hm P R HvP HvR.
  pose proof (bounded_canonical m e Hb) as (Hemin & Hhi & Hlo).
  set (Y := Z.pos m * 2 ^ (e + 1147)).
  assert (HT : 0 < 2 ^ (e + 1147)) by (apply Z.pow_pos_nonneg; lia).
  assert (HVc : sval m e = 2 ^ 53 * Y).
  { unfold sval, Y. replace (e + 1200) with (53 + (e + 1147)) by lia.
    rewrite Z.pow_add_r by lia. lia. }
  assert (HY : 0 < Y <= (2 ^ 53 - 3) * 2 ^ 1094).
  { unfold Y. split; [lia|].
    destruct (Z.eq_dec e (-53)) as [->|Hne].
    - specialize (Hm eq_refl). change (-53 + 1147) with 1094. nia.
    - assert (2 ^ (e + 1147) <= 2 ^ 1093) by (apply Z.pow_le_mono_r; lia).
      change (2 ^ 1094) with (2 * 2 ^ 1093). nia. }
  (* the product *)
  subst P R. rewrite SFmul_sf_08 in *.
  set (M := (m * 7205759403792794)%positive) in *.
  assert (HM : Z.pos M = Z.pos m * 7205759403792794) by (subst M; lia).
  pose proof (digits2_bounds M) as [HdMlo HdMhi].
  set (dM := Z.pos (digits2_pos M)) in *.
  assert (HdM106 : dM <= 106).
  { assert (2 ^ (dM - 1) < 2 ^ 106) by (change (2 ^ 106) with (2 ^ 53 * 2 ^ 53); nia).
    pose proof (pow2_lt_inv (dM - 1) 106 ltac:(lia) H). lia. }
  assert (HdMlow : -1074 < e -> 105 <= dM).
  { intros H. specialize (Hlo H).
    assert (2 ^ 104 < 2 ^ dM) by (change (2 ^ 104) with (2 ^ 52 * 2 ^ 52); nia).
    pose proof (pow2_lt_inv 104 dM ltac:(lia) H0). lia. }
  pose proof (binary_round_aux_lower_sval M (e + -53)) as HP. cbn zeta in HP.
  fold dM in HP. set (e1P := fexp prec emax (dM + (e + -53))) in *.
  assert (He1P : e + -53 <= e1P <= -53).
  { subst e1P. rewrite fexp64.
    destruct (Z.eq_dec e (-1074)) as [->|Hne]; [lia|]. specialize (HdMlow ltac:(lia)). lia. }
  specialize (HP ltac:(lia) ltac:(lia)).
  assert (HHP : 0 < 2 ^ (e1P + 1200) <= 2 ^ 1147).
  { split; [apply Z.pow_pos_nonneg; lia | apply Z.pow_le_mono_r; lia]. }
  set (HPv := 2 ^ (e1P + 1200)) in *.
  assert (HVM : sval M (e + -53) = 7205759403792794 * Y).
  { unfold sval, Y. rewrite HM. replace (e + -53 + 1200) with (e + 1147) by lia. lia. }
  rewrite HVM in HP.
  assert (Hb02 : bounded prec emax 7205759403792794 (-55) = true) by reflexivity.
  assert (HV02 : sval 7205759403792794 (-55) = 7205759403792794 * 2 ^ 1145) by reflexivity.
  destruct (binary_round_aux prec emax false (Z.pos M) (e + -53) loc_Exact)
    as [s|s| |s mp ep] eqn:EP.
  - (* the product rounds to zero *)
    destruct HP as [-> HP]. change (SFadd prec emax (S754_zero false) sf_02) with sf_02.
    apply SFleb_of_value; [exact Hb | exact Hb02 |]. rewrite HVc, HV02. lia.
  - subst s. reflexivity.
  - destruct HP.
  - destruct HP as (-> & Hep & HP). cbn [valid_binary] in HvP.
    pose proof (bounded_canonical mp ep HvP) as (Hepmin & _ & _).
    rewrite SFadd_sf_02 in *.
    set (ez := Z.min ep (-55)) in *.
    pose proof (shl_align_sval mp ep ez ltac:(lia) ltac:(lia)) as HVa.
    pose proof (shl_align_sval 7205759403792794 (-55) ez ltac:(lia) ltac:(lia)) as HVb.
    pose proof (shl_align_spec mp ep ez) as (Hza & _ & _).
    pose proof (shl_align_spec 7205759403792794 (-55) ez) as (Hzb & _ & _).
    destruct (shl_align mp ep ez) as [a eza].
    destruct (shl_align 7205759403792794 (-55) ez) as [b ezb]. cbn [fst snd] in *.
    replace eza with ez in * by lia. replace ezb with ez in * by lia.
    set (S := (a + b)%positive) in *.
    assert (HVS : sval S ez = sval mp ep + 7205759403792794 * 2 ^ 1145).
    { rewrite <- HVa, <- HV02, <- HVb. unfold sval, S. lia. }
    pose proof (sval_pos mp ep ltac:(lia)) as HVPpos.
    pose proof (sval_digits_bounds S ez ltac:(lia)) as [HSlo HShi].
    set (dS := Z.pos (digits2_pos S)) in *.
    pose proof (binary_round_lower_sval S ez) as HR. cbn zeta in HR.
    fold dS in HR. set (e1R := fexp prec emax (dS + ez)) in *.
    specialize (HR ltac:(lia)).
    assert (Hk : -2 <= dS + ez).
    { assert (2 ^ 1197 < 2 ^ (dS + ez + 1200)).
      { eapply Z.le_lt_trans; [|exact HShi]. rewrite HVS.
        change (2 ^ 1197) with (2 ^ 52 * 2 ^ 1145). lia. }
      pose proof (pow2_lt_inv 1197 (dS + ez + 1200) ltac:(lia) H). lia. }
    assert (EeR : e1R = dS + ez - 53) by (subst e1R; rewrite fexp64; lia).
    assert (HHR1 : 2 ^ 52 * 2 ^ (e1R + 1200) <= sval S ez).
    { rewrite EeR, <- Z.pow_add_r by lia.
      replace (52 + (dS + ez - 53 + 1200)) with (dS + ez + 1199) by lia. exact HSlo. }
    assert (HHR2 : sval S ez < 2 ^ 1200 -> 2 ^ (e1R + 1200) <= 2 ^ 1147).
    { intros Hlt. apply Z.pow_le_mono_r; [lia|].
      assert (2 ^ (dS + ez + 1199) < 2 ^ 1200) by lia.
      pose proof (pow2_lt_inv (dS + ez + 1199) 1200 ltac:(lia) H). lia. }
    assert (HHR0 : 0 < 2 ^ (e1R + 1200)) by (apply Z.pow_pos_nonneg; lia).
    set (HRv := 2 ^ (e1R + 1200)) in *.
    destruct (binary_round prec emax false S ez) as [s|s| |s mR eR] eqn:ER.
    + destruct HR as [_ HR]. exfalso. change (2 ^ 52) with 4503599627370496 in HHR1. lia.
    + subst s. reflexivity.
    + destruct HR.
    + destruct HR as (-> & HeR & HR). cbn [valid_binary] in HvR.
      apply SFleb_of_value; [exact Hb | exact HvR |]. rewrite HVc.
      apply (certainty_step_arith Y (sval mp ep) (sval S ez) (sval mR eR) HPv HRv);
        [exact HY | exact HP | exact HHP | exact HVS | exact HHR1 | exact HHR2 | exact HR].
Qed.

Lemma certainty_step_float (c : float) :
  (0 <=? c)%float = true -> (c <=? 1)%float = true ->
  (c <=? c * 0.8 + 0.2)%float = true.
Proof.
  rewrite !leb_spec, add_spec, mul_spec.
  pose proof (Prim2SF_valid c) as Hc.
  pose proof (Prim2SF_valid (c * 0.8)%float) as HP. rewrite mul_spec in HP.
  pose proof (Prim2SF_valid (c * 0.8 + 0.2)%float) as HR. rewrite add_spec, mul_spec in HR.
  change (Prim2SF 0.8) with sf_08 in *. change (Prim2SF 0.2) with sf_02 in *.
  change (Prim2SF 0) with (S754_zero false). 
  change (Prim2SF 1) with (S754_finite false 4503599627370496 (-52)).
  unfold SF64add, SF64mul in *.
  destruct (Prim2SF c) as [s|s| |s m e]; intros H0 H1.
  - destruct s; reflexivity.
  - destruct s; discriminate.
  - discriminate.
  - destruct s; [discriminate|]. clear H0. cbn [valid_binary] in Hc.
    pose proof (bounded_canonical m e Hc) as (Hemin & Hhi & Hlo).
    assert (Hcases : (e <= -53)%Z ∨ (e = -52 ∧ m = 4503599627370496%positive)%Z).
    { unfold SFleb, SFcompare in H1. destruct (Z.compare_spec e (-52)) as [E|E|E].
      - right. split; [exact E|]. subst e. specialize (Hlo ltac:(lia)).
        rewrite Pos.compare_cont_spec in H1. cbn [Pos.switch_Eq] in H1.
        destruct (Pos.compare_spec m 4503599627370496) as [Em|Em|Em];
          [exact Em | | discriminate].
        exfalso. clear -Hlo Em.
        assert (Em2 : (Z.pos m < 4503599627370496)%Z) by exact Em. clear Em.
        assert (Hlo2 : (4503599627370496 <= Z.pos m)%Z) by exact Hlo. clear Hlo.
        lia.
      - left. lia.
      - discriminate. }
    destruct Hcases as [He|[-> ->]]; [|vm_compute; reflexivity].
    destruct (Z.eq_dec e (-53)) as [->|Hne].
    + destruct (Z.le_gt_cases (Z.pos m) (2 ^ 53 - 3)) as [Hm|Hm].
      * apply certainty_step_SF; [exact Hc | lia | intros _; exact Hm | exact HP | exact HR].
      * change (2 ^ 53)%Z with 9007199254740992%Z in *.
        assert (Hm2 : m = 9007199254740990%positive ∨ m = 9007199254740991%positive) by lia.
        destruct Hm2 as [->| ->]; vm_compute; reflexivity.
    + apply certainty_step_SF; [exact Hc | lia | intros E; destruct (Hne E) | exact HP | exact HR].
Qed.

Lemma certainty_update_bounds (c : float) :
  (0 <=? c)%float = true -> (c <=? 1)%float = true ->
  (c <=? pymin 1 (c * 0.8 + 0.2))%float = true
  ∧ (pymin 1 (c * 0.8 + 0.2) <=? 1)%float = true.
Proof.
  intros H0 H1. unfold pymin. destruct (c * 0.8 + 0.2 <? 1)%float eqn:E.
  - split; [apply certainty_step_float; assumption | apply float_ltb_leb, E].
  - split; [exact H1 | reflexivity].
Qed.

End Rounding.

(** ** Activation and the certainty update *)

Section Activation.

Import OntologicalRelation.
#[local] Open Scope float_scope.

Lemma last3_length {A} (l : list A) : length (last3 l) = Nat.min (length l) 3.
Proof. unfold last3. rewrite length_drop. lia. Qed.

(** The stability ratio is the length of the recent entries over itself. *)
Lemma stability_is_one {A} (l : list A) :
  l ≠ [] ->
  int_truediv (Z.of_nat (length (last3 l))) (Z.of_nat (length (last3 l))) = Ok 1.
Proof.
  intros Hne.
  assert (H : length (last3 l) = 1%nat ∨ length (last3 l) = 2%nat
              ∨ length (last3 l) = 3%nat).
  { rewrite last3_length. destruct l as [|a l]; [destruct Hne; reflexivity|].
    cbn [length]. lia. }
  destruct H as [-> | [-> | ->]]; vm_compute; reflexivity.
Qed.

Lemma update_certainty_spec (self : t) :
  transformation_history self ≠ [] ->
  _update_certainty self
  = Ok (set_certainty (pymin 1 (0.8 * certainty self + 0.2)) self).
Proof.
  intros Hne. unfold _update_certainty.
  destruct (transformation_history self) as [|entry history] eqn:E;
    [destruct Hne; reflexivity|].
  rewrite stability_is_one by discriminate. cbn [bind].
  rewrite (float_mul_comm (certainty self)). reflexivity.
Qed.

Lemma activate_active (h : Host) (self : t) (context : option PyObject) :
  is_active self = true ->
  ∃ res self',
    activate h self context = Ok (res, self')
    ∧ certainty self' = pymin 1 (0.8 * certainty self + 0.2)
    ∧ activation_count self' = (activation_count self + 1)%Z
    ∧ last_activated self' = Some (now h 0)
    ∧ length (transformation_history self')
      = S (length (transformation_history self)).
Proof.
  intros Hact. unfold activate. rewrite Hact. cbn [negb].
  rewrite update_certainty_spec
    by (unfold set_transformation_history, transformation_history;
        intros E; apply app_eq_nil in E as [_ E]; discriminate E).
  cbn [bind]. destruct self. cbn in Hact. subst.
  match goal with |- context [if ?b then _ else _] => destruct b end;
    eexists _, _; (split; [reflexivity|]);
    cbn; rewrite length_app, Nat.add_comm; split_and!; reflexivity.
Qed.

End Activation.

(** C5: after a successful [activate] of an active relation with certainty
    [c] the certainty is min(1.0, 0.8·c + 0.2), the stability ratio of the
    update being exactly 1.0 whatever the history; so for [c] between 0 and
    1 the new certainty is not smaller than [c] and not greater than 1.0. *)
Theorem activate_certainty_update
    (h : Host) (self : OntologicalRelation.t)
    (context : option OntologicalRelation.PyObject) :
  OntologicalRelation.is_active self = true ->
  (∀ history : list pydict, history ≠ [] ->
     int_truediv (Z.of_nat (length (OntologicalRelation.last3 history)))
       (Z.of_nat (length (OntologicalRelation.last3 history))) = Ok 1%float)
  ∧ ∃ res self',
      OntologicalRelation.activate h self context = Ok (res, self')
      ∧ OntologicalRelation.certainty self'
        = pymin 1 (0.8 * OntologicalRelation.certainty self + 0.2)%float
      ∧ ((0 <=? OntologicalRelation.certainty self)%float = true ->
         (OntologicalRelation.certainty self <=? 1)%float = true ->
         (OntologicalRelation.certainty self <=? OntologicalRelation.certainty self')%float
         = true
         ∧ (OntologicalRelation.certainty self' <=? 1)%float = true).
Proof.
  intros Hact. split; [intros history; apply stability_is_one|].
  destruct (activate_active h self context Hact) as (res & self' & E & Hc & _).
  exists res, self'. split; [exact E|]. split; [exact Hc|].
  intros H0 H1. rewrite Hc, (float_mul_comm 0.8).
  apply certainty_update_bounds; assumption.
Qed.

Lemma activate_certainty_update_witness :
  let self := sample_relation (u "Λ") 0.7%float 0.0%float true in
  ∃ res self',
    OntologicalRelation.activate sample_host self None = Ok (res, self')
    ∧ OntologicalRelation.certainty self' = 0.76%float
    ∧ (0.7 <=? OntologicalRelation.certainty self')%float = true
    ∧ (OntologicalRelation.certainty self' <=? 1)%float = true.
Proof.
  intros self.
  destruct (activate_certainty_update sample_host self None eq_refl)
    as (_ & res & self' & E & Hc & Hb).
  exists res, self'. split; [exact E|].
  change (OntologicalRelation.certainty self) with 0.7%float in Hc, Hb.
  split; [rewrite Hc; reflexivity|]. apply Hb; reflexivity.
Defined.

(** * Further properties of the sources *)

(** ** Dictionaries *)

Lemma dict_lookup_set_eq (d : pydict) (k : str) (v : PyVal) :
  dict_lookup (dict_set d k v) k = Some v.
Proof.
  induction d as [|[k' v'] d IH]; cbn.
  - rewrite decide_True by reflexivity. reflexivity.
  - destruct (decide (k' = k)) as [->|Hne]; cbn.
    + rewrite decide_True by reflexivity. reflexivity.
    + rewrite decide_False by exact Hne. exact IH.
Qed.

Lemma dict_lookup_set_ne (d : pydict) (k k0 : str) (v : PyVal) :
  k0 ≠ k -> dict_lookup (dict_set d k v) k0 = dict_lookup d k0.
Proof.
  intros Hne. induction d as [|[k' v'] d IH]; cbn.
  - rewrite decide_False by (intros E; apply Hne; symmetry; exact E). reflexivity.
  - destruct (decide (k' = k)) as [->|Hk]; cbn.
    + rewrite !decide_False by (intros E; apply Hne; symmetry; exact E). reflexivity.
    + destruct (decide (k' = k0)); [reflexivity | exact IH].
Qed.

Lemma dict_set_keys_present (d : pydict) (k : str) (v : PyVal) :
  k ∈ keys d -> keys (dict_set d k v) = keys d.
Proof.
  unfold keys. induction d as [|[k' v'] d IH]; cbn; intros Hin.
  - apply elem_of_nil in Hin. destruct Hin.
  - destruct (decide (k' = k)) as [->|Hk]; cbn; [reflexivity|].
    f_equal. apply IH.
    apply elem_of_cons in Hin as [E|Hin]; [destruct Hk; symmetry; exact E | exact Hin].
Qed.

Lemma dict_set_absent (d : pydict) (k : str) (v : PyVal) :
  k ∉ keys d -> dict_set d k v = d ++ [(k, v)].
Proof.
  unfold keys. induction d as [|[k' v'] d IH]; cbn; intros Hin; [reflexivity|].
  destruct (decide (k' = k)) as [->|Hk].
  - destruct Hin. apply list_elem_of_here.
  - f_equal. apply IH. intros H. apply Hin. apply list_elem_of_further, H.
Qed.

(** ** The limits and the required blind spots *)

Lemma limit_check_spec (limit v : Z) (msg : str) :
  ((if (limit <? v)%Z then Raise (OntologicalLimitError msg) else Ok tt) = Ok tt
   ↔ (v <= limit)%Z)
  ∧ ((∃ m, (if (limit <? v)%Z then Raise (OntologicalLimitError msg) else Ok tt)
           = Raise (OntologicalLimitError m)) ↔ (limit < v)%Z).
Proof.
  destruct (Z.ltb_spec limit v) as [H|H]; split.
  - split; [intros E; inversion E | lia].
  - split; [intros _; exact H | intros _; eexists; reflexivity].
  - split; [lia | reflexivity].
  - split; [intros [m E]; inversion E | lia].
Qed.

(** X1: each of the four limit checks returns normally exactly for the
    values up to its limit (1000 entities, recursion depth 50, analysis
    depth 15, 3 Φ calls), the limit itself included, and raises
    [OntologicalLimitError] exactly for the values above it. *)
Theorem limit_checks_accept_up_to_limit (n : Z) :
  (OntologicalAxioms.check_entity_count n = Ok tt ↔ (n <= 1000)%Z)
  ∧ (OntologicalAxioms.check_recursion_depth n = Ok tt ↔ (n <= 50)%Z)
  ∧ (OntologicalAxioms.check_analysis_depth n = Ok tt ↔ (n <= 15)%Z)
  ∧ (OntologicalAxioms.check_phi_calls n = Ok tt ↔ (n <= 3)%Z)
  ∧ ((∃ msg, OntologicalAxioms.check_entity_count n = Raise (OntologicalLimitError msg))
     ↔ (1000 < n)%Z)
  ∧ ((∃ msg, OntologicalAxioms.check_recursion_depth n = Raise (OntologicalLimitError msg))
     ↔ (50 < n)%Z)
  ∧ ((∃ msg, OntologicalAxioms.check_analysis_depth n = Raise (OntologicalLimitError msg))
     ↔ (15 < n)%Z)
  ∧ ((∃ msg, OntologicalAxioms.check_phi_calls n = Raise (OntologicalLimitError msg))
     ↔ (3 < n)%Z).
Proof.
  unfold OntologicalAxioms.check_entity_count, OntologicalAxioms.check_recursion_depth,
    OntologicalAxioms.check_analysis_depth, OntologicalAxioms.check_phi_calls.
  split_and!; apply limit_check_spec.
Qed.

Lemma required_keys :
  map fst OntologicalAxioms.REQUIRED_BLIND_SPOTS
  = [u "chaos"; u "self_reference"; u "qualia"; u "phi_boundary"].
Proof. reflexivity. Qed.

Lemma ensure_required_ok_iff (set_repr : gset str -> str) (current : list (str * str)) :
  OntologicalAxioms.ensure_required_blind_spots set_repr current = Ok tt
  ↔ ∀ k, k ∈ [u "chaos"; u "self_reference"; u "qualia"; u "phi_boundary"]
         -> k ∈ keys current.
Proof.
  unfold OntologicalAxioms.ensure_required_blind_spots. rewrite required_keys.
  unfold keys.
  destruct (decide _) as [Hne|He].
  - split; [intros E; inversion E|]. intros Hall. destruct Hne.
    apply set_eq. intros k. rewrite elem_of_difference, !elem_of_list_to_set.
    split; [intros [Hk Hn]; destruct Hn; apply Hall, Hk
           | intros Hk; apply elem_of_empty in Hk; destruct Hk].
  - split; [|reflexivity]. intros _ k Hk.
    destruct (decide (k ∈ map fst current)) as [Hin|Hnin]; [exact Hin|].
    destruct He. intros Hempty.
    assert (Hm : k ∈ (list_to_set [u "chaos"; u "self_reference"; u "qualia"; u "phi_boundary"]
                      ∖ list_to_set (map fst current) : gset str)).
    { apply elem_of_difference. rewrite !elem_of_list_to_set. split; assumption. }
    rewrite Hempty in Hm. apply elem_of_empty in Hm. exact Hm.
Qed.

(** X2: [ensure_required_blind_spots] returns normally exactly when the four
    keys chaos, self_reference, qualia and phi_boundary are all among the
    keys of the given map, and raises [OntologicalLimitError] otherwise;
    further keys never hurt, so a map that passes still passes after any
    keys are added. *)
Theorem ensure_required_blind_spots_spec
    (set_repr : gset str -> str) (current larger : list (str * str)) :
  (OntologicalAxioms.ensure_required_blind_spots set_repr current = Ok tt
   ↔ ∀ k, k ∈ [u "chaos"; u "self_reference"; u "qualia"; u "phi_boundary"]
          -> k ∈ keys current)
  ∧ (OntologicalAxioms.ensure_required_blind_spots set_repr current = Ok tt
     ∨ ∃ msg, OntologicalAxioms.ensure_required_blind_spots set_repr current
              = Raise (OntologicalLimitError msg))
  ∧ ((∀ k, k ∈ keys current -> k ∈ keys larger) ->
     OntologicalAxioms.ensure_required_blind_spots set_repr current = Ok tt ->
     OntologicalAxioms.ensure_required_blind_spots set_repr larger = Ok tt).
Proof.
  split_and!.
  - apply ensure_required_ok_iff.
  - unfold OntologicalAxioms.ensure_required_blind_spots.
    destruct (decide _); [right; eexists; reflexivity | left; reflexivity].
  - rewrite !ensure_required_ok_iff. intros Hsub H k Hk. apply Hsub, H, Hk.
Qed.

Lemma ensure_required_blind_spots_spec_witness :
  OntologicalAxioms.ensure_required_blind_spots (fun _ => [])
    OntologicalAxioms.REQUIRED_BLIND_SPOTS = Ok tt
  ∧ OntologicalAxioms.ensure_required_blind_spots (fun _ => [])
      ((u "death", u "Конечность") :: OntologicalAxioms.REQUIRED_BLIND_SPOTS) = Ok tt.
Proof.
  destruct (ensure_required_blind_spots_spec (fun _ => [])
              OntologicalAxioms.REQUIRED_BLIND_SPOTS
              ((u "death", u "Конечность") :: OntologicalAxioms.REQUIRED_BLIND_SPOTS))
    as (Hiff & _ & Hmono).
  assert (H : OntologicalAxioms.ensure_required_blind_spots (fun _ => [])
                OntologicalAxioms.REQUIRED_BLIND_SPOTS = Ok tt).
  { apply Hiff. intros k Hk. exact Hk. }
  split; [exact H|]. apply Hmono; [|exact H].
  intros k Hk. apply list_elem_of_further, Hk.
Defined.

(** X3: [get_default_fair_care_metadata] returns the template with the same
    keys in the same order; its [created] entry is the UTC time of the call
    followed by "Z", every other entry is the template's, and nothing in the
    result depends on when the module was loaded. *)
Theorem get_default_fair_care_metadata_spec (imported imported' t : datetime) (k : str) :
  keys (OntologicalAxioms.get_default_fair_care_metadata imported t)
  = keys (OntologicalAxioms.DEFAULT_FAIR_CARE_METADATA imported)
  ∧ dict_lookup (OntologicalAxioms.get_default_fair_care_metadata imported t) (u "created")
    = Some (VStr (isoformat t ++ u "Z"))
  ∧ (k ≠ u "created" ->
     dict_lookup (OntologicalAxioms.get_default_fair_care_metadata imported t) k
     = dict_lookup (OntologicalAxioms.DEFAULT_FAIR_CARE_METADATA imported) k)
  ∧ OntologicalAxioms.get_default_fair_care_metadata imported t
    = OntologicalAxioms.get_default_fair_care_metadata imported' t.
Proof.
  unfold OntologicalAxioms.get_default_fair_care_metadata.
  split_and!.
  - apply dict_set_keys_present. unfold keys, OntologicalAxioms.DEFAULT_FAIR_CARE_METADATA.
    cbn [map fst]. apply list_elem_of_further, list_elem_of_here.
  - apply dict_lookup_set_eq.
  - intros Hk. apply dict_lookup_set_ne, Hk.
  - unfold OntologicalAxioms.DEFAULT_FAIR_CARE_METADATA. cbn [dict_set].
    rewrite decide_False by (vm_compute; discriminate).
    rewrite decide_True by reflexivity. reflexivity.
Qed.

Lemma get_default_fair_care_metadata_spec_witness :
  dict_lookup
    (OntologicalAxioms.get_default_fair_care_metadata
       (mk_datetime 2025 3 14 8 0 0 0) (mk_datetime 2025 3 14 8 26 53 0))
    (u "license")
  = Some (VStr (u "CC BY-NC-SA 4.0")).
Proof.
  destruct (get_default_fair_care_metadata_spec
              (mk_datetime 2025 3 14 8 0 0 0) (mk_datetime 2025 3 14 8 0 0 0)
              (mk_datetime 2025 3 14 8 26 53 0) (u "license"))
    as (_ & _ & H & _).
  rewrite H; [vm_compute; reflexivity|]. vm_compute. discriminate.
Defined.

(** ** Events: construction and the SemanticDB record *)

Section Events.

Import OntologicalEvent.
#[local] Open Scope float_scope.

Lemma event_init_habeas_weight_id (fresh : str) (e : t) :
  habeas_weight_id (_init_habeas_weight fresh e)
  = match habeas_weight_id e with [] => fresh | c :: s => c :: s end.
Proof.
  unfold _init_habeas_weight. destruct (habeas_weight_id e) eqn:E; [reflexivity|exact E].
Qed.

Lemma event_init_habeas_score (fresh : str) (e : t) :
  significance_score (_init_habeas_weight fresh e) = significance_score e.
Proof. unfold _init_habeas_weight. destruct (habeas_weight_id e); reflexivity. Qed.

Lemma event_init_habeas_fields (fresh : str) (e : t) :
  id (_init_habeas_weight fresh e) = id e
  ∧ timestamp (_init_habeas_weight fresh e) = timestamp e
  ∧ gesture (_init_habeas_weight fresh e) = gesture e.
Proof. unfold _init_habeas_weight. destruct (habeas_weight_id e); split_and!; reflexivity. Qed.

Lemma float_of_int_raises (z : Z) (x : exn) :
  float_of_int z = Raise x -> x = OverflowError (u "int too large to convert to float").
Proof.
  unfold float_of_int. destruct (binary_normalize _ _ _ _ _); intros [= <-]; reflexivity.
Qed.

Lemma significance_score_raises (e : t) (x : exn) :
  significance_score e = Raise x ->
  x = OverflowError (u "int too large to convert to float").
Proof.
  unfold significance_score.
  destruct (float_of_int (tensions_resolved e)) as [r|x1] eqn:E1; cbn [bind].
  - destruct (float_of_int (tensions_created e)) as [c|x2] eqn:E2; cbn [bind].
    + discriminate.
    + intros [= <-]. apply (float_of_int_raises _ _ E2).
  - intros [= <-]. apply (float_of_int_raises _ _ E1).
Qed.

Lemma record_raises (py_str : PyVal -> str) (e : t) (x : exn) :
  to_semantic_db_record py_str e = Raise x -> significance_score e = Raise x.
Proof.
  unfold to_semantic_db_record.
  destruct (significance_score e); cbn [bind]; [discriminate|].
  intros [= <-]. reflexivity.
Qed.

(** A NaN operand makes a binary64 sum, product or difference NaN, and
    [min(1.0, x)] keeps 1.0 when [x] is NaN. *)
Lemma is_nan_mul_l x y : is_nan x -> is_nan (x * y).
Proof. unfold is_nan. intros H. rewrite mul_spec, H. reflexivity. Qed.

Lemma is_nan_add_l x y : is_nan x -> is_nan (x + y).
Proof. unfold is_nan. intros H. rewrite add_spec, H. reflexivity. Qed.

Lemma is_nan_abs x : is_nan x -> is_nan (abs x).
Proof. unfold is_nan. intros H. rewrite abs_spec, H. reflexivity. Qed.

Lemma is_nan_sub x y : is_nan x ∨ is_nan y -> is_nan (x - y).
Proof.
  unfold is_nan. intros [H|H]; rewrite sub_spec, H; [reflexivity|].
  destruct (Prim2SF x) as [[]|[]| |[] m e]; reflexivity.
Qed.

Lemma pymin_nan x : is_nan x -> pymin 1 x = 1.
Proof. unfold is_nan, pymin. intros H. rewrite ltb_spec, H. reflexivity. Qed.

End Events.

(** X4: after [__post_init__] an event keeps a non-empty [habeas_weight_id]
    it was given and gets a fresh one only for an empty id; whatever
    metadata it was given are replaced by nine entries that repeat the
    event's id, creation time, gesture and right id; the significance score
    is untouched, and running the initialisation again changes nothing once
    the right id is non-empty. *)
Theorem event_post_init_spec (fresh fresh' : str) (e : OntologicalEvent.t) :
  let e' := OntologicalEvent.__post_init__ fresh e in
  OntologicalEvent.habeas_weight_id e'
  = match OntologicalEvent.habeas_weight_id e with [] => fresh | c :: s => c :: s end
  ∧ OntologicalEvent.id e' = OntologicalEvent.id e
  ∧ keys (OntologicalEvent.fair_care_meta e')
    = [ u "event_id"; u "type"; u "license"; u "created"; u "gesture"; u "creator";
        u "community_standards"; u "access_protocol"; u "habeas_weight_id" ]
  ∧ dict_lookup (OntologicalEvent.fair_care_meta e') (u "event_id")
    = Some (VStr (OntologicalEvent.id e'))
  ∧ dict_lookup (OntologicalEvent.fair_care_meta e') (u "created")
    = Some (VStr (isoformat (OntologicalEvent.timestamp e')))
  ∧ dict_lookup (OntologicalEvent.fair_care_meta e') (u "gesture")
    = Some (VStr (OntologicalEvent.gesture e'))
  ∧ dict_lookup (OntologicalEvent.fair_care_meta e') (u "habeas_weight_id")
    = Some (VStr (OntologicalEvent.habeas_weight_id e'))
  ∧ OntologicalEvent.significance_score e' = OntologicalEvent.significance_score e
  ∧ (OntologicalEvent.habeas_weight_id e' ≠ [] ->
     OntologicalEvent.__post_init__ fresh' e' = e').
Proof.
  intros e'. subst e'. unfold OntologicalEvent.__post_init__.
  pose proof (event_init_habeas_weight_id fresh e) as Hh.
  pose proof (event_init_habeas_score fresh e) as Hs.
  destruct (event_init_habeas_fields fresh e) as (Hi & Ht & Hg).
  set (e1 := OntologicalEvent._init_habeas_weight fresh e) in *.
  split_and!.
  - exact Hh.
  - exact Hi.
  - reflexivity.
  - vm_compute. reflexivity.
  - vm_compute. reflexivity.
  - vm_compute. reflexivity.
  - vm_compute. reflexivity.
  - exact Hs.
  - intros Hne. unfold OntologicalEvent._init_habeas_weight at 1.
    destruct (OntologicalEvent.habeas_weight_id
                (OntologicalEvent._init_fair_care_metadata e1)) eqn:E;
      [destruct Hne; reflexivity|].
    reflexivity.
Qed.

Lemma event_post_init_spec_witness :
  OntologicalEvent.habeas_weight_id
    (OntologicalEvent.__post_init__ (u "9f0c2b7e-aaaa-4bbb-8ccc-ddddeeeeffff")
       unmeasured_event)
  = u "9f0c2b7e-aaaa-4bbb-8ccc-ddddeeeeffff"
  ∧ OntologicalEvent.__post_init__ (u "00000000-0000-4000-8000-000000000000")
      (OntologicalEvent.__post_init__ (u "9f0c2b7e-aaaa-4bbb-8ccc-ddddeeeeffff")
         unmeasured_event)
    = OntologicalEvent.__post_init__ (u "9f0c2b7e-aaaa-4bbb-8ccc-ddddeeeeffff")
        unmeasured_event.
Proof.
  destruct (event_post_init_spec (u "9f0c2b7e-aaaa-4bbb-8ccc-ddddeeeeffff")
              (u "00000000-0000-4000-8000-000000000000") unmeasured_event)
    as (Hh & _ & _ & _ & _ & _ & _ & _ & Hidem).
  cbv zeta in Hh, Hidem.
  assert (Hid : OntologicalEvent.habeas_weight_id
    (OntologicalEvent.__post_init__ (u "9f0c2b7e-aaaa-4bbb-8ccc-ddddeeeeffff")
       unmeasured_event)
  = u "9f0c2b7e-aaaa-4bbb-8ccc-ddddeeeeffff").
  { rewrite Hh. reflexivity. }
  split; [exact Hid|]. apply Hidem. rewrite Hid. vm_compute. discriminate.
Defined.

(** X5: [to_semantic_db_record] fails only when the significance score
    does, with the same [OverflowError]; otherwise the record has the
    fourteen keys of the display, repeats the event's id and metadata,
    renders an absent result as [None] and any other result as text, and
    carries the event's significance score, which lies between 0 and 1. *)
Theorem to_semantic_db_record_outcomes (py_str : PyVal -> str) (e : OntologicalEvent.t) :
  match OntologicalEvent.to_semantic_db_record py_str e with
  | Ok record =>
    keys record
    = map u [ "id"; "timestamp"; "gesture"; "operands"; "result"; "entities_affected";
              "blind_spots_involved"; "coherence"; "tensions"; "phi_meta";
              "omega_trigger"; "significance_score"; "metadata"; "provenance" ]%string
    ∧ dict_lookup record (u "id") = Some (VStr (OntologicalEvent.id e))
    ∧ dict_lookup record (u "result")
      = Some (match OntologicalEvent.result_ e with
              | VNone => VNone
              | v => VStr (py_str v)
              end)
    ∧ dict_lookup record (u "metadata") = Some (VDict (OntologicalEvent.fair_care_meta e))
    ∧ ∃ score,
        OntologicalEvent.significance_score e = Ok score
        ∧ dict_lookup record (u "significance_score") = Some (VFloat score)
        ∧ (0 <=? score)%float = true ∧ (score <=? 1)%float = true
  | Raise x =>
    x = OverflowError (u "int too large to convert to float")
    ∧ OntologicalEvent.significance_score e = Raise x
  end.
Proof.
  unfold OntologicalEvent.to_semantic_db_record.
  destruct (OntologicalEvent.significance_score e) as [score|x] eqn:Es; cbn [bind].
  - split_and!.
    + reflexivity.
    + lookup_entry.
    + lookup_entry.
    + lookup_entry.
    + exists score. split; [reflexivity|]. split; [lookup_entry|].
      apply (significance_score_range e score Es).
  - split; [apply (significance_score_raises e x Es) | reflexivity].
Qed.

(** X6: an event whose coherence before or after the gesture is NaN gets
    the top significance score 1.0, whatever its other fields are, as long
    as the two tension counts convert to binary64. *)
Theorem significance_score_nan (e : OntologicalEvent.t) (resolved created : float) :
  is_nan (OntologicalEvent.coherence_before e) ∨ is_nan (OntologicalEvent.coherence_after e) ->
  float_of_int (OntologicalEvent.tensions_resolved e) = Ok resolved ->
  float_of_int (OntologicalEvent.tensions_created e) = Ok created ->
  OntologicalEvent.significance_score e = Ok 1%float.
Proof.
  intros Hnan Hr Hc. unfold OntologicalEvent.significance_score.
  rewrite Hr, Hc. cbn [bind].
  rewrite pymin_nan; [reflexivity|].
  do 3 apply is_nan_add_l. apply is_nan_mul_l, is_nan_abs, is_nan_sub.
  destruct Hnan as [H|H]; [right | left]; exact H.
Qed.

Lemma significance_score_nan_witness :
  is_nan (OntologicalEvent.coherence_after unmeasured_event)
  ∧ OntologicalEvent.significance_score unmeasured_event = Ok 1%float.
Proof.
  assert (Hnan : is_nan (OntologicalEvent.coherence_after unmeasured_event))
    by reflexivity.
  split; [exact Hnan|].
  apply (significance_score_nan unmeasured_event 0 2);
    [right; exact Hnan | reflexivity | reflexivity].
Defined.

(** ** Relations: construction *)

Section Meaning.

Import OntologicalRelation.

Lemma infer_meaning_cons (r : t) : ∃ c s, _infer_meaning r = c :: s.
Proof.
  unfold _infer_meaning, meanings. cbn [assoc].
  repeat (destruct (decide _); [eexists _, _; vm_compute; reflexivity|]).
  eexists _, _. vm_compute. reflexivity.
Qed.

Lemma infer_meaning_known (r : t) (k m : str) :
  (k, m) ∈ meanings -> type r = k -> _infer_meaning r = m.
Proof.
  intros Hin Hk. unfold _infer_meaning. rewrite Hk. clear Hk. unfold meanings in *.
  repeat (apply elem_of_cons in Hin as [[= -> ->]|Hin];
          [vm_compute; reflexivity|]).
  apply elem_of_nil in Hin. destruct Hin.
Qed.

Lemma infer_meaning_unknown (r : t) :
  type r ∉ map fst meanings -> _infer_meaning r = u "онтологическая связь типа " ++ type r.
Proof.
  intros Hn. unfold _infer_meaning, meanings in *. cbn [assoc map fst] in *.
  repeat (destruct (decide _) as [E|_];
          [destruct Hn; rewrite <- E;
           repeat (first [apply list_elem_of_here | apply list_elem_of_further])|]).
  reflexivity.
Qed.

Lemma post_init_metadata_agrees (fresh : str) (r : t) :
  metadata_agrees (__post_init__ fresh r).
Proof.
  unfold metadata_agrees, __post_init__.
  destruct (meaning r); split_and!; vm_compute; reflexivity.
Qed.

End Meaning.

(** X7: after [__post_init__] the meaning of a relation is never empty: a
    meaning that was given is kept, an empty one is replaced by the table
    entry of the relation's type, or by "онтологическая связь типа " followed
    by the type when the table has no entry for it.  The right id is always
    drawn anew, even when one was given; type, certainty and activity are
    kept. *)
Theorem post_init_meaning (fresh : str) (r : OntologicalRelation.t) :
  let r' := OntologicalRelation.__post_init__ fresh r in
  OntologicalRelation.meaning r' ≠ []
  ∧ (OntologicalRelation.meaning r ≠ [] ->
     OntologicalRelation.meaning r' = OntologicalRelation.meaning r)
  ∧ (OntologicalRelation.meaning r = [] ->
     (∀ k m, (k, m) ∈ OntologicalRelation.meanings -> OntologicalRelation.type r = k ->
             OntologicalRelation.meaning r' = m)
     ∧ (OntologicalRelation.type r ∉ map fst OntologicalRelation.meanings ->
        OntologicalRelation.meaning r'
        = u "онтологическая связь типа " ++ OntologicalRelation.type r))
  ∧ OntologicalRelation.habeas_weight_id r' = fresh
  ∧ OntologicalRelation.type r' = OntologicalRelation.type r
  ∧ OntologicalRelation.certainty r' = OntologicalRelation.certainty r
  ∧ OntologicalRelation.is_active r' = OntologicalRelation.is_active r.
Proof.
  intros r'. subst r'. unfold OntologicalRelation.__post_init__.
  destruct (OntologicalRelation.meaning r) as [|c s] eqn:E.
  - split_and!; try reflexivity.
    + destruct (infer_meaning_cons r) as (c & s & Hc).
      change (OntologicalRelation._infer_meaning r ≠ []). rewrite Hc. discriminate.
    + intros H. destruct H. reflexivity.
    + intros _. split.
      * intros k m Hin Hk. exact (infer_meaning_known r k m Hin Hk).
      * intros Hn. exact (infer_meaning_unknown r Hn).
  - split_and!; try reflexivity.
    + change (OntologicalRelation.meaning r ≠ []). rewrite E. discriminate.
    + intros _. change (OntologicalRelation.meaning r = c :: s). exact E.
    + discriminate.
Qed.

Lemma post_init_meaning_witness :
  OntologicalRelation.meaning
    (OntologicalRelation.__post_init__ (u "3c9d0e1f-2222-4333-8444-555566667777")
       (sample_relation (u "Σ") 0.7%float 0.0%float true))
  = u "синтез нового целого из частей".
Proof.
  destruct (post_init_meaning (u "3c9d0e1f-2222-4333-8444-555566667777")
              (sample_relation (u "Σ") 0.7%float 0.0%float true))
    as (_ & Hkeep & _).
  cbv zeta in Hkeep. rewrite Hkeep; [vm_compute; reflexivity|].
  vm_compute. discriminate.
Defined.

(** ** Relations: what one activation records *)

Section ActivationFrame.

Import OntologicalRelation.
#[local] Open Scope float_scope.

Lemma activate_unfold (h : Host) (self : t) (context : option PyObject) :
  is_active self = true ->
  let base :=
    [ (u "relation_id", VStr (id self));
      (u "type", VStr (type self));
      (u "source", VStr (source self));
      (u "target", VStr (target self));
      (u "meaning", VStr (meaning self));
      (u "timestamp", VStr (isoformat (now h 0)));
      (u "certainty", VFloat (certainty self));
      (u "tension_level", VFloat (tension_level self));
      (u "phi_context", VStrs (phi_meta self));
      (u "blind_spots", VStrs (blind_spots self)) ] in
  let c' := pymin 1 (0.8 * certainty self + 0.2) in
  let res :=
    if (c' <? 0.3) && (0.7 <? tension_level self)
    then base ++ [(u "omega_trigger", VStr (u "активирован Ω-автомат: кризис связи"))]
    else base in
  activate h self context
  = Ok (res,
        mk (id self) (source self) (target self) (type self) (context_id self)
           (meaning self) (intensity self) c' (coherence_contribution self)
           (created self) (Some (now h 0)) (lifespan self)
           (activation_count self + 1)%Z (phi_meta self) (blind_spots self)
           (habeas_weight_id self) (fair_care_metadata self) true
           (tension_level self)
           (transformation_history self ++ [history_entry (now h 0) res context])).
Proof.
  intros Hact base c' res. unfold activate. rewrite Hact. cbn [negb].
  rewrite update_certainty_spec
    by (unfold set_transformation_history, transformation_history;
        intros E; apply app_eq_nil in E as [_ E]; discriminate E).
  cbn [bind]. destruct self. cbn in Hact. subst.
  cbv beta iota zeta delta
    [set_certainty set_transformation_history set_activation_count set_last_activated
     set_is_active id source target type context_id meaning intensity certainty
     coherence_contribution created last_activated lifespan activation_count phi_meta
     blind_spots habeas_weight_id fair_care_metadata is_active tension_level
     transformation_history] in *.
  subst res c' base.
  match goal with |- context [if ?b then _ else _] => destruct b end.
  - replace (dict_set _ _ _) with
      ([(u "relation_id", VStr id0); (u "type", VStr type0); (u "source", VStr source0);
        (u "target", VStr target0); (u "meaning", VStr meaning0);
        (u "timestamp", VStr (isoformat (now h 0))); (u "certainty", VFloat certainty0);
        (u "tension_level", VFloat tension_level0); (u "phi_context", VStrs phi_meta0);
        (u "blind_spots", VStrs blind_spots0)]
       ++ [(u "omega_trigger", VStr (u "активирован Ω-автомат: кризис связи"))])
      by (vm_compute; reflexivity).
    reflexivity.
  - reflexivity.
Qed.

End ActivationFrame.

(** X8: establishing and keeping the agreement between a relation and its
    metadata.  After [__post_init__] the metadata name the relation's id,
    end points, creation time and right id, and so do those of the successor
    that [transform] builds; [transform] and [activate] leave the agreement
    of the relation they are called on intact. *)
Theorem metadata_agrees_invariant
    (fresh : str) (r : OntologicalRelation.t) (h : Host)
    (context : option OntologicalRelation.PyObject) (new_type new_target : option str) :
  metadata_agrees (OntologicalRelation.__post_init__ fresh r)
  ∧ metadata_agrees (OntologicalRelation.transform h r new_type new_target).1
  ∧ (metadata_agrees r ->
     metadata_agrees (OntologicalRelation.transform h r new_type new_target).2
     ∧ ∀ res r', OntologicalRelation.activate h r context = Ok (res, r') ->
                 metadata_agrees r').
Proof.
  split_and!.
  - apply post_init_metadata_agrees.
  - change (OntologicalRelation.transform h r new_type new_target).1
      with (OntologicalRelation.transformed h r new_type new_target).
    apply post_init_metadata_agrees.
  - intros Hagree. split; [exact Hagree|].
    intros res r' E. destruct (OntologicalRelation.is_active r) eqn:Hact.
    + rewrite (activate_unfold h r context Hact) in E.
      injection E as _ <-. exact Hagree.
    + unfold OntologicalRelation.activate in E. rewrite Hact in E. cbn [negb] in E.
      injection E as _ <-. exact Hagree.
Qed.

Lemma metadata_agrees_invariant_witness :
  ∃ res r',
    OntologicalRelation.activate sample_host
      (sample_relation (u "Λ") 0.7%float 0.0%float true) None = Ok (res, r')
    ∧ metadata_agrees r'.
Proof.
  destruct (metadata_agrees_invariant (u "3c9d0e1f-2222-4333-8444-555566667777")
              (sample_relation (u "Λ") 0.7%float 0.0%float true) sample_host None None None)
    as (_ & _ & Hkeep).
  destruct (activate_active sample_host
              (sample_relation (u "Λ") 0.7%float 0.0%float true) None eq_refl)
    as (res & r' & E & _).
  exists res, r'. split; [exact E|].
  refine (proj2 (Hkeep _) res r' E).
  unfold metadata_agrees. split_and!; vm_compute; reflexivity.
Defined.

(** X9: what one call of [activate] on an active relation records.  The
    call succeeds; the activation counter grows by one, [last_activated] is
    the time of the call, and the history gets exactly one new entry, which
    holds that time, the returned dictionary and the context snapshot.  The
    returned dictionary has no [error] entry, names the relation and reports
    the certainty from before the update.  Identity, end points, type,
    meaning, tension, tags, blind spots, creation time and lifespan are
    unchanged and the relation stays active. *)
Theorem activate_bookkeeping
    (h : Host) (self : OntologicalRelation.t)
    (context : option OntologicalRelation.PyObject) :
  OntologicalRelation.is_active self = true ->
  ∃ res self',
    OntologicalRelation.activate h self context = Ok (res, self')
    ∧ OntologicalRelation.activation_count self'
      = (OntologicalRelation.activation_count self + 1)%Z
    ∧ OntologicalRelation.last_activated self' = Some (now h 0)
    ∧ OntologicalRelation.transformation_history self'
      = OntologicalRelation.transformation_history self
        ++ [ [ (u "timestamp", VDatetime (now h 0));
               (u "activation_result", VDict res);
               (u "context_snapshot", OntologicalRelation.context_snapshot context) ] ]
    ∧ dict_lookup res (u "relation_id") = Some (VStr (OntologicalRelation.id self))
    ∧ dict_lookup res (u "timestamp") = Some (VStr (isoformat (now h 0)))
    ∧ dict_lookup res (u "certainty") = Some (VFloat (OntologicalRelation.certainty self))
    ∧ dict_lookup res (u "error") = None
    ∧ OntologicalRelation.is_active self' = true
    ∧ OntologicalRelation.id self' = OntologicalRelation.id self
    ∧ OntologicalRelation.source self' = OntologicalRelation.source self
    ∧ OntologicalRelation.target self' = OntologicalRelation.target self
    ∧ OntologicalRelation.type self' = OntologicalRelation.type self
    ∧ OntologicalRelation.meaning self' = OntologicalRelation.meaning self
    ∧ OntologicalRelation.tension_level self' = OntologicalRelation.tension_level self
    ∧ OntologicalRelation.phi_meta self' = OntologicalRelation.phi_meta self
    ∧ OntologicalRelation.blind_spots self' = OntologicalRelation.blind_spots self
    ∧ OntologicalRelation.created self' = OntologicalRelation.created self
    ∧ OntologicalRelation.lifespan self' = OntologicalRelation.lifespan self.
Proof.
  intros Hact. eexists _, _. split; [apply (activate_unfold h self context Hact)|].
  cbv beta iota zeta delta
    [OntologicalRelation.activation_count OntologicalRelation.last_activated
     OntologicalRelation.transformation_history OntologicalRelation.is_active].
  split_and!; try reflexivity.
  - match goal with |- context [if ?b then _ else _] => destruct b end;
      vm_compute; reflexivity.
  - match goal with |- context [if ?b then _ else _] => destruct b end;
      vm_compute; reflexivity.
  - match goal with |- context [if ?b then _ else _] => destruct b end;
      vm_compute; reflexivity.
  - match goal with |- context [if ?b then _ else _] => destruct b end;
      vm_compute; reflexivity.
Qed.

Lemma activate_bookkeeping_witness :
  ∃ res self',
    OntologicalRelation.activate sample_host
      (sample_relation (u "Λ") 0.7%float 0.0%float true) None = Ok (res, self')
    ∧ OntologicalRelation.activation_count self' = 1%Z
    ∧ dict_lookup res (u "certainty") = Some (VFloat 0.7).
Proof.
  destruct (activate_bookkeeping sample_host
              (sample_relation (u "Λ") 0.7%float 0.0%float true) None eq_refl)
    as (res & self' & E & Hcount & _ & _ & _ & _ & Hc & _).
  exists res, self'. split; [exact E|]. split; [rewrite Hcount; reflexivity | exact Hc].
Defined.

(** X10: the Ω trigger of [activate].  On an active relation the returned
    dictionary has the ten entries of the display, and an eleventh,
    [omega_trigger], exactly when the certainty after the update is below
    0.3 and the tension level is above 0.7; the last history entry holds the
    returned dictionary, trigger included. *)
Theorem activate_omega_trigger
    (h : Host) (self : OntologicalRelation.t)
    (context : option OntologicalRelation.PyObject) :
  OntologicalRelation.is_active self = true ->
  ∃ res self',
    OntologicalRelation.activate h self context = Ok (res, self')
    ∧ OntologicalRelation.certainty self'
      = pymin 1 (0.8 * OntologicalRelation.certainty self + 0.2)%float
    ∧ (dict_lookup res (u "omega_trigger")
       = if ((OntologicalRelation.certainty self' <? 0.3)
             && (0.7 <? OntologicalRelation.tension_level self))%float
         then Some (VStr (u "активирован Ω-автомат: кризис связи"))
         else None)
    ∧ keys res
      = [ u "relation_id"; u "type"; u "source"; u "target"; u "meaning";
          u "timestamp"; u "certainty"; u "tension_level"; u "phi_context";
          u "blind_spots" ]
        ++ (if ((OntologicalRelation.certainty self' <? 0.3)
                && (0.7 <? OntologicalRelation.tension_level self))%float
            then [u "omega_trigger"] else [])
    ∧ last (OntologicalRelation.transformation_history self')
      = Some (OntologicalRelation.history_entry (now h 0) res context).
Proof.
  intros Hact. eexists _, _. split; [apply (activate_unfold h self context Hact)|].
  cbv beta iota zeta delta
    [OntologicalRelation.certainty OntologicalRelation.transformation_history].
  split_and!.
  - reflexivity.
  - match goal with |- context [if ?b then _ else _] => destruct b end;
      vm_compute; reflexivity.
  - match goal with |- context [if ?b then _ else _] => destruct b end; reflexivity.
  - apply last_snoc.
Qed.


Lemma activate_omega_trigger_witness :
  ∃ res self',
    OntologicalRelation.activate sample_host
      (sample_relation (u "Λ") 0.1%float 0.9%float true) None = Ok (res, self')
    ∧ dict_lookup res (u "omega_trigger")
      = Some (VStr (u "активирован Ω-автомат: кризис связи")).
Proof.
  destruct (activate_omega_trigger sample_host
              (sample_relation (u "Λ") 0.1%float 0.9%float true) None eq_refl)
    as (res & self' & E & Hc & Ho & _).
  exists res, self'. split; [exact E|]. rewrite Ho, Hc. reflexivity.
Defined.

(** ** Relations: runs of activations and of transformations *)

Lemma SFleb_trans (x y z : spec_float) :
  SFleb x y = true -> SFleb y z = true -> SFleb x z = true.
Proof.
  unfold SFleb.
  destruct x as [sx|sx| |sx mx ex], y as [sy|sy| |sy my ey], z as [sz|sz| |sz mz ez];
    try destruct sx; try destruct sy; try destruct sz; cbn;
    try discriminate; try reflexivity; intros H1 H2;
    compare_cases; cbn in *; try discriminate; try reflexivity; try lia.
Qed.

Lemma float_leb_trans (x y z : float) :
  (x <=? y)%float = true -> (y <=? z)%float = true -> (x <=? z)%float = true.
Proof. rewrite !leb_spec. apply SFleb_trans. Qed.

(** A number that is comparable with another one is not NaN, so it is not
    above itself. *)
Lemma float_leb_refl (x y : float) : (x <=? y)%float = true -> (y <=? y)%float = true.
Proof.
  rewrite !leb_spec. unfold SFleb.
  destruct (Prim2SF x) as [[]|[]| |[] mx ex], (Prim2SF y) as [[]|[]| |[] m e]; cbn;
    try discriminate; try reflexivity; intros _;
    rewrite Z.compare_refl;
    change (Pos.compare_cont Eq m m) with (Pos.compare m m);
    rewrite Pos.compare_refl; reflexivity.
Qed.

Section Runs.

Import OntologicalRelation.
#[local] Open Scope float_scope.

Lemma activate_step (h : Host) (self : t) (context : option PyObject) :
  is_active self = true ->
  (0 <=? certainty self) = true -> (certainty self <=? 1) = true ->
  ∃ res self',
    activate h self context = Ok (res, self')
    ∧ is_active self' = true
    ∧ (certainty self <=? certainty self') = true
    ∧ (certainty self' <=? 1) = true
    ∧ activation_count self' = (activation_count self + 1)%Z
    ∧ length (transformation_history self')
      = S (length (transformation_history self))
    ∧ id self' = id self.
Proof.
  intros Hact H0 H1. eexists _, _.
  split; [apply (activate_unfold h self context Hact)|].
  cbv beta iota zeta delta
    [certainty is_active activation_count transformation_history id].
  destruct (certainty_update_bounds _ H0 H1) as [Hlo Hhi].
  rewrite (float_mul_comm 0.8).
  split_and!; try reflexivity; try assumption.
  rewrite length_app, Nat.add_comm. reflexivity.
Qed.

End Runs.

(** X11: a run of activations.  Starting from an active relation whose
    certainty lies between 0 and 1, any number of successive calls of
    [activate] all succeed; afterwards the relation is still active, its
    counter and the length of its history have grown by the number of calls,
    and its certainty is not below where it started and not above 1. *)
Theorem activations_accumulate
    (steps : list (Host * option OntologicalRelation.PyObject))
    (self : OntologicalRelation.t) :
  OntologicalRelation.is_active self = true ->
  (0 <=? OntologicalRelation.certainty self)%float = true ->
  (OntologicalRelation.certainty self <=? 1)%float = true ->
  ∃ self',
    activations steps self = Ok self'
    ∧ OntologicalRelation.is_active self' = true
    ∧ OntologicalRelation.activation_count self'
      = (OntologicalRelation.activation_count self + Z.of_nat (length steps))%Z
    ∧ length (OntologicalRelation.transformation_history self')
      = (length (OntologicalRelation.transformation_history self) + length steps)%nat
    ∧ (OntologicalRelation.certainty self <=? OntologicalRelation.certainty self')%float
      = true
    ∧ (OntologicalRelation.certainty self' <=? 1)%float = true
    ∧ OntologicalRelation.id self' = OntologicalRelation.id self.
Proof.
  revert self. induction steps as [|[h context] steps IH]; intros self Hact H0 H1.
  - exists self. cbn [activations length]. split_and!; try reflexivity.
    + exact Hact.
    + lia.
    + lia.
    + apply (float_leb_refl _ _ H0).
    + exact H1.
  - destruct (activate_step h self context Hact H0 H1)
      as (res & self1 & E & Hact1 & Hle & Hhi & Hcount & Hlen & Hid).
    assert (H01 : (0 <=? OntologicalRelation.certainty self1)%float = true)
      by (apply (float_leb_trans _ _ _ H0 Hle)).
    destruct (IH self1 Hact1 H01 Hhi)
      as (self' & E' & Hact' & Hcount' & Hlen' & Hle' & Hhi' & Hid').
    exists self'. cbn [activations]. rewrite E. cbn [bind snd].
    split_and!.
    + exact E'.
    + exact Hact'.
    + rewrite Hcount', Hcount. cbn [length]. lia.
    + rewrite Hlen', Hlen. cbn [length]. lia.
    + exact (float_leb_trans _ _ _ Hle Hle').
    + exact Hhi'.
    + rewrite Hid'. exact Hid.
Qed.

Lemma activations_accumulate_witness :
  ∃ self',
    activations [(sample_host, None); (sample_host, None)]
      (sample_relation (u "Λ") 0.7%float 0.0%float true) = Ok self'
    ∧ OntologicalRelation.activation_count self' = 2%Z
    ∧ (0.7 <=? OntologicalRelation.certainty self')%float = true.
Proof.
  destruct (activations_accumulate [(sample_host, None); (sample_host, None)]
              (sample_relation (u "Λ") 0.7%float 0.0%float true)
              eq_refl eq_refl eq_refl)
    as (self' & E & _ & Hcount & _ & Hle & _).
  exists self'. split; [exact E|]. split; [rewrite Hcount; reflexivity | exact Hle].
Defined.

(** X12: [transform] followed by [activate].  Whatever the relation was
    before, after [transform] a call of [activate] on it returns the error
    dictionary with the relation's id and changes nothing; its history has
    one more entry, which records the time, the old type and the type of the
    successor.  The successor can be activated: the call reports no error,
    sets the counter to 1 and lifts the certainty to
    min(1.0, 0.8·(0.8·c) + 0.2). *)
Theorem transform_then_activate
    (h h' : Host) (self : OntologicalRelation.t) (new_type new_target : option str)
    (context : option OntologicalRelation.PyObject) :
  let successor := (OntologicalRelation.transform h self new_type new_target).1 in
  let self' := (OntologicalRelation.transform h self new_type new_target).2 in
  OntologicalRelation.activate h' self' context
  = Ok ([ (u "error", VStr (u "Связь неактивна"));
          (u "relation_id", VStr (OntologicalRelation.id self)) ], self')
  ∧ OntologicalRelation.transformation_history self'
    = OntologicalRelation.transformation_history self
      ++ [ [ (u "timestamp", VDatetime (now h 1));
             (u "transformation", VDict
                [ (u "from", VStr (OntologicalRelation.type self));
                  (u "to", VStr (OntologicalRelation.py_or new_type
                                   (OntologicalRelation.type self)));
                  (u "reason", VStr (u "онтологическая эволюция")) ]) ] ]
  ∧ ∃ res successor',
      OntologicalRelation.activate h' successor context = Ok (res, successor')
      ∧ dict_lookup res (u "error") = None
      ∧ OntologicalRelation.activation_count successor' = 1%Z
      ∧ OntologicalRelation.certainty successor'
        = pymin 1 (0.8 * (0.8 * OntologicalRelation.certainty self) + 0.2)%float.
Proof.
  intros successor self'.
  destruct (transform_successor h self new_type new_target)
    as (_ & _ & Hty & _ & _ & _ & Hc & _ & _ & _ & Hn & _ & _ & Hact & _).
  fold successor in Hty, Hc, Hn, Hact.
  split_and!.
  - reflexivity.
  - subst self'. unfold OntologicalRelation.transform.
    cbv beta iota zeta delta [snd].
    unfold OntologicalRelation.set_is_active, OntologicalRelation.set_transformation_history.
    cbv beta iota delta [OntologicalRelation.transformation_history].
    change (OntologicalRelation.transformed h self new_type new_target) with successor.
    rewrite Hty. reflexivity.
  - eexists _, _. split; [apply (activate_unfold h' successor context Hact)|].
    cbv beta iota zeta delta
      [OntologicalRelation.activation_count OntologicalRelation.certainty].
    split_and!.
    + match goal with |- context [if ?b then _ else _] => destruct b end;
        vm_compute; reflexivity.
    + change (OntologicalRelation.activation_count successor + 1 = 1)%Z.
      rewrite Hn. reflexivity.
    + change (pymin 1 (0.8 * OntologicalRelation.certainty successor + 0.2)%float
              = pymin 1 (0.8 * (0.8 * OntologicalRelation.certainty self) + 0.2)%float).
      rewrite Hc. reflexivity.
Qed.

Section Chain.

Import OntologicalRelation.
#[local] Open Scope float_scope.

Lemma transforms_snoc steps h nt ntg self :
  transforms (steps ++ [(h, nt, ntg)]) self
  = (transform h (transforms steps self) nt ntg).1.
Proof.
  revert self. induction steps as [|[[h' nt'] ntg'] steps IH]; intros self; cbn; [reflexivity|].
  apply IH.
Qed.

End Chain.

(** X13: a run of transformations, each applied to the successor of the
    one before.  Every step appends one more "loss of original context"
    marker and one more "трансформация" tag, without removing duplicates,
    and multiplies the certainty by 0.8; source and context id never change,
    and after at least one step the last successor is active, was never
    activated and has an empty history. *)
Theorem transforms_accumulate
    (steps : list (Host * option str * option str)) (self : OntologicalRelation.t) :
  let last := transforms steps self in
  OntologicalRelation.blind_spots last
  = OntologicalRelation.blind_spots self
    ++ replicate (length steps) OntologicalRelation.context_loss_marker
  ∧ OntologicalRelation.phi_meta last
    = OntologicalRelation.phi_meta self ++ replicate (length steps) (u "трансформация")
  ∧ OntologicalRelation.certainty last
    = Nat.iter (length steps) (fun c => 0.8 * c)%float (OntologicalRelation.certainty self)
  ∧ OntologicalRelation.source last = OntologicalRelation.source self
  ∧ OntologicalRelation.context_id last = OntologicalRelation.context_id self
  ∧ (steps ≠ [] ->
     OntologicalRelation.is_active last = true
     ∧ OntologicalRelation.activation_count last = 0%Z
     ∧ OntologicalRelation.transformation_history last = []).
Proof.
  induction steps as [|[[h nt] ntg] steps IH] using rev_ind.
  - cbn. rewrite !app_nil_r. split_and!; try reflexivity. intros H. destruct H. reflexivity.
  - rewrite transforms_snoc, length_app. cbn [length]. rewrite Nat.add_comm. cbn [Nat.add].
    destruct IH as (Hb & Hp & Hc & Hs & Hx & _).
    destruct (transform_successor h (transforms steps self) nt ntg)
      as (Hs' & _ & _ & Hx' & _ & _ & Hc' & _ & _ & _ & Hn' & Hp' & Hb' & Ha' & _ & Hh' & _).
    cbv zeta. split_and!.
    + rewrite Hb', Hb, <- app_assoc. f_equal.
      change [OntologicalRelation.context_loss_marker]
        with (replicate 1 OntologicalRelation.context_loss_marker).
      rewrite <- replicate_add, Nat.add_comm. reflexivity.
    + rewrite Hp', Hp, <- app_assoc. f_equal.
      change [u "трансформация"] with (replicate 1 (u "трансформация")).
      rewrite <- replicate_add, Nat.add_comm. reflexivity.
    + rewrite Hc', Hc. reflexivity.
    + rewrite Hs', Hs. reflexivity.
    + rewrite Hx', Hx. reflexivity.
    + intros _. split_and!; assumption.
Qed.

Lemma transforms_accumulate_witness :
  OntologicalRelation.is_active
    (transforms [(sample_host, None, None); (sample_host, Some (u "Σ"), None)]
       (sample_relation (u "Λ") 0.7%float 0.0%float false)) = true
  ∧ OntologicalRelation.blind_spots
      (transforms [(sample_host, None, None); (sample_host, Some (u "Σ"), None)]
         (sample_relation (u "Λ") 0.7%float 0.0%float false))
    = [u "chaos"; OntologicalRelation.context_loss_marker;
       OntologicalRelation.context_loss_marker].
Proof.
  destruct (transforms_accumulate
              [(sample_host, None, None); (sample_host, Some (u "Σ"), None)]
              (sample_relation (u "Λ") 0.7%float 0.0%float false))
    as (Hb & _ & _ & _ & _ & Hlast).
  cbv zeta in Hb, Hlast.
  split; [apply Hlast; discriminate|]. rewrite Hb. reflexivity.
Defined.

(** ** Relations: viability *)

Section Viability.

Import OntologicalRelation.
#[local] Open Scope float_scope.

(** The three ways [check_viability] can go, each from its condition. *)
Lemma check_viability_zero_lifespan
    (total_seconds : datetime -> datetime -> float) (h : Host) (self : t) (l : float) :
  lifespan self = Some l -> (l =? 0) = true ->
  check_viability total_seconds h self
  = Raise (ZeroDivisionError (u "float division by zero")).
Proof.
  intros Hl Hz. unfold check_viability, float_truediv. rewrite Hl, Hz. reflexivity.
Qed.

Lemma check_viability_overflow
    (total_seconds : datetime -> datetime -> float) (h : Host) (self : t) (x : exn) :
  (∀ l, lifespan self = Some l -> (l =? 0) = false) ->
  float_of_int (activation_count self) = Raise x ->
  check_viability total_seconds h self = Raise x.
Proof.
  intros Hl Hx. unfold check_viability, float_truediv.
  destruct (lifespan self) as [l|]; [rewrite (Hl l eq_refl)|]; cbn [bind];
    rewrite Hx; reflexivity.
Qed.

Lemma check_viability_report
    (total_seconds : datetime -> datetime -> float) (h : Host) (self : t) (count : float) :
  (∀ l, lifespan self = Some l -> (l =? 0) = false) ->
  float_of_int (activation_count self) = Ok count ->
  ∃ d,
    check_viability total_seconds h self = Ok d
    ∧ dict_lookup d (u "viability")
      = Some (VFloat
          (match lifespan self with
           | None => 1
           | Some l => pymax 0 (1 - total_seconds (now h 0) (created self) / l)
           end * 0.3
           + pymin 1 (count / 10) * 0.2
           + certainty self * 0.3
           + (1 - tension_level self) * 0.2)).
Proof.
  intros Hl Hn. unfold check_viability, float_truediv.
  destruct (lifespan self) as [l|]; [rewrite (Hl l eq_refl)|]; cbn [bind];
    rewrite Hn; cbn [bind]; eexists; (split; [reflexivity|]); lookup_entry.
Qed.

End Viability.

(** X14: how [check_viability] ends.  It raises [ZeroDivisionError] exactly
    for a relation whose lifespan is zero, and otherwise [OverflowError]
    when the activation counter does not convert to binary64; in every other
    case it returns a report with seven entries that names the relation,
    gives its age, and recommends "сохранить" when the viability is above
    0.5 and "деактивировать" when it is not.  Each outcome follows from its
    condition: a zero lifespan gives [ZeroDivisionError] whatever the
    counter is; with no lifespan or a lifespan other than zero, a counter
    that does not convert gives its [OverflowError], and a counter that
    converts gives the report, whose viability is
    age_factor·0.3 + min(1.0, activations/10)·0.2 + certainty·0.3
    + (1 − tension)·0.2 with age_factor 1.0 without lifespan and
    max(0.0, 1.0 − age/lifespan) with one. *)
Theorem check_viability_outcomes
    (total_seconds : datetime -> datetime -> float) (h : Host)
    (self : OntologicalRelation.t) :
  match OntologicalRelation.check_viability total_seconds h self with
  | Raise x =>
    (x = ZeroDivisionError (u "float division by zero")
     ∧ ∃ l, OntologicalRelation.lifespan self = Some l ∧ (l =? 0)%float = true)
    ∨ (x = OverflowError (u "int too large to convert to float")
       ∧ float_of_int (OntologicalRelation.activation_count self) = Raise x)
  | Ok d =>
    (∀ l, OntologicalRelation.lifespan self = Some l -> (l =? 0)%float = false)
    ∧ keys d = [ u "relation_id"; u "viability"; u "age_seconds"; u "activations";
                 u "certainty"; u "tension"; u "recommendation" ]
    ∧ dict_lookup d (u "relation_id") = Some (VStr (OntologicalRelation.id self))
    ∧ dict_lookup d (u "age_seconds")
      = Some (VFloat (total_seconds (now h 0) (OntologicalRelation.created self)))
    ∧ ∃ v, dict_lookup d (u "viability") = Some (VFloat v)
           ∧ dict_lookup d (u "recommendation")
             = Some (VStr (if (0.5 <? v)%float then u "сохранить" else u "деактивировать"))
  end
  ∧ (∀ l, OntologicalRelation.lifespan self = Some l -> (l =? 0)%float = true ->
          OntologicalRelation.check_viability total_seconds h self
          = Raise (ZeroDivisionError (u "float division by zero")))
  ∧ ((∀ l, OntologicalRelation.lifespan self = Some l -> (l =? 0)%float = false) ->
     (∀ x, float_of_int (OntologicalRelation.activation_count self) = Raise x ->
           x = OverflowError (u "int too large to convert to float")
           ∧ OntologicalRelation.check_viability total_seconds h self = Raise x)
     ∧ (∀ count, float_of_int (OntologicalRelation.activation_count self) = Ok count ->
          ∃ d,
            OntologicalRelation.check_viability total_seconds h self = Ok d
            ∧ dict_lookup d (u "viability")
              = Some (VFloat
                  (match OntologicalRelation.lifespan self with
                   | None => 1
                   | Some l =>
                     pymax 0 (1 - total_seconds (now h 0)
                                    (OntologicalRelation.created self) / l)
                   end * 0.3
                   + pymin 1 (count / 10) * 0.2
                   + OntologicalRelation.certainty self * 0.3
                   + (1 - OntologicalRelation.tension_level self) * 0.2)%float))).
Proof.
  split; [|split].
  - unfold OntologicalRelation.check_viability.
    destruct (OntologicalRelation.lifespan self) as [l|] eqn:El.
    + unfold float_truediv. destruct (l =? 0)%float eqn:Ez; cbn [bind].
      * left. split; [reflexivity|]. exists l. split; [reflexivity | exact Ez].
      * destruct (float_of_int (OntologicalRelation.activation_count self)) as [n|x] eqn:En;
          cbn [bind].
        -- split_and!.
           ++ intros l' [= <-]. exact Ez.
           ++ reflexivity.
           ++ vm_compute. reflexivity.
           ++ vm_compute. reflexivity.
           ++ eexists. split; vm_compute; reflexivity.
        -- right. split; [apply (float_of_int_raises _ _ En) | reflexivity].
    + cbn [bind].
      destruct (float_of_int (OntologicalRelation.activation_count self)) as [n|x] eqn:En;
        cbn [bind].
      * split_and!.
        -- intros l' [=].
        -- reflexivity.
        -- vm_compute. reflexivity.
        -- vm_compute. reflexivity.
        -- eexists. split; vm_compute; reflexivity.
      * right. split; [apply (float_of_int_raises _ _ En) | reflexivity].
  - intros l Hl Hz. exact (check_viability_zero_lifespan total_seconds h self l Hl Hz).
  - intros Hl. split.
    + intros x Hx. split; [apply (float_of_int_raises _ _ Hx)|].
      exact (check_viability_overflow total_seconds h self x Hl Hx).
    + intros count Hn. exact (check_viability_report total_seconds h self count Hl Hn).
Qed.

Lemma check_viability_outcomes_witness :
  OntologicalRelation.check_viability (fun _ _ => 60%float) sample_host
    (OntologicalRelation.set_activation_count (2 ^ 1024)
       (sample_relation_with_lifespan 0%float))
  = Raise (ZeroDivisionError (u "float division by zero"))
  ∧ OntologicalRelation.check_viability (fun _ _ => 60%float) sample_host
      (OntologicalRelation.set_activation_count (2 ^ 1024)
         (sample_relation (u "Λ") 0.7%float 0.0%float true))
    = Raise (OverflowError (u "int too large to convert to float")).
Proof.
  split.
  - destruct (check_viability_outcomes (fun _ _ => 60%float) sample_host
                (OntologicalRelation.set_activation_count (2 ^ 1024)
                   (sample_relation_with_lifespan 0%float)))
      as (_ & Hzero & _).
    apply (Hzero 0%float); reflexivity.
  - destruct (check_viability_outcomes (fun _ _ => 60%float) sample_host
                (OntologicalRelation.set_activation_count (2 ^ 1024)
                   (sample_relation (u "Λ") 0.7%float 0.0%float true)))
      as (_ & _ & Hrest).
    assert (Hl : ∀ l, OntologicalRelation.lifespan
                        (OntologicalRelation.set_activation_count (2 ^ 1024)
                           (sample_relation (u "Λ") 0.7%float 0.0%float true)) = Some l ->
                      (l =? 0)%float = false)
      by (intros l Hsome; discriminate Hsome).
    destruct (Hrest Hl) as [Hover _].
    apply Hover. vm_compute. reflexivity.
Defined.

(** X15: a relation without lifespan does not age.  Its viability is
    0.3 + min(1.0, activations/10)·0.2 + certainty·0.3 + (1 − tension)·0.2,
    whatever the clock shows; a relation that was never activated and has
    the default certainty 0.7 and no tension gets 0.71 and the
    recommendation "сохранить". *)
Theorem check_viability_without_lifespan
    (total_seconds : datetime -> datetime -> float) (h : Host)
    (self : OntologicalRelation.t) (count : float) :
  OntologicalRelation.lifespan self = None ->
  float_of_int (OntologicalRelation.activation_count self) = Ok count ->
  ∃ d,
    OntologicalRelation.check_viability total_seconds h self = Ok d
    ∧ dict_lookup d (u "viability")
      = Some (VFloat (0.3 + pymin 1 (count / 10) * 0.2
                      + OntologicalRelation.certainty self * 0.3
                      + (1 - OntologicalRelation.tension_level self) * 0.2)%float)
    ∧ (OntologicalRelation.activation_count self = 0%Z ->
       OntologicalRelation.certainty self = 0.7%float ->
       OntologicalRelation.tension_level self = 0%float ->
       dict_lookup d (u "viability") = Some (VFloat 0.71)
       ∧ dict_lookup d (u "recommendation") = Some (VStr (u "сохранить"))).
Proof.
  intros Hl Hn. unfold OntologicalRelation.check_viability.
  rewrite Hl, Hn. cbn [bind]. eexists. split; [reflexivity|].
  split.
  - generalize (OntologicalRelation.certainty self) (OntologicalRelation.tension_level self)
      (OntologicalRelation.id self) (OntologicalRelation.activation_count self)
      (total_seconds (now h 0) (OntologicalRelation.created self)).
    intros c t i n a. vm_compute. reflexivity.
  - intros Hz Hc Ht. rewrite Hz in Hn. injection Hn as <-.
    rewrite Hc, Ht, Hz.
    generalize (OntologicalRelation.id self)
      (total_seconds (now h 0) (OntologicalRelation.created self)).
    intros i a. split; vm_compute; reflexivity.
Qed.

Lemma check_viability_without_lifespan_witness :
  ∃ d,
    OntologicalRelation.check_viability (fun _ _ => 60%float) sample_host
      (sample_relation (u "Λ") 0.7%float 0.0%float true) = Ok d
    ∧ dict_lookup d (u "viability") = Some (VFloat 0.71)
    ∧ dict_lookup d (u "recommendation") = Some (VStr (u "сохранить")).
Proof.
  destruct (check_viability_without_lifespan (fun _ _ => 60%float) sample_host
              (sample_relation (u "Λ") 0.7%float 0.0%float true) 0%float
              eq_refl eq_refl)
    as (d & E & _ & Hfresh).
  exists d. split; [exact E|]. apply Hfresh; reflexivity.
Defined.

(** ** The FAIR encoder *)

Section Identifier.

Import EnhancedActiveContext FAIREncoder.

Lemma split_at_first_colon (w w' r r' : str) :
  no_colon w -> no_colon w' -> w ++ 58%N :: r = w' ++ 58%N :: r' -> w = w' ∧ r = r'.
Proof.
  unfold no_colon. intros Hw. revert w'.
  induction Hw as [|a w Ha Hw IH]; intros w' Hw' E.
  - destruct Hw' as [|b w' Hb Hw']; cbn in E.
    + injection E as ->. split; reflexivity.
    + injection E as <- _. destruct Hb. reflexivity.
  - destruct Hw' as [|b w' Hb Hw']; cbn in E.
    + injection E as -> _. destruct Ha. reflexivity.
    + injection E as -> E. destruct (IH w' Hw' E) as [-> ->]. split; reflexivity.
Qed.

Lemma split_at_last_colon (w w' r r' : str) :
  no_colon w -> no_colon w' -> r ++ 58%N :: w = r' ++ 58%N :: w' -> r = r' ∧ w = w'.
Proof.
  intros Hw Hw' E. apply (f_equal (@rev N)) in E.
  rewrite !rev_app_distr in E. cbn [rev] in E. rewrite <- !app_assoc in E. cbn [app] in E.
  apply split_at_first_colon in E as [E1 E2].
  - split; [apply rev_inj, E2 | apply rev_inj, E1].
  - unfold no_colon. apply Forall_forall. intros x Hx.
    apply list_elem_of_In, in_rev, list_elem_of_In in Hx.
    revert x Hx. apply Forall_forall. exact Hw.
  - unfold no_colon. apply Forall_forall. intros x Hx.
    apply list_elem_of_In, in_rev, list_elem_of_In in Hx.
    revert x Hx. apply Forall_forall. exact Hw'.
Qed.

Lemma uint_cps_no_colon (d : Decimal.uint) : no_colon (uint_cps d).
Proof.
  unfold no_colon. induction d; cbn [uint_cps]; constructor; (discriminate || assumption).
Qed.

Lemma zfill_no_colon (w : nat) (n : N) : no_colon (zfill w (dec n)).
Proof.
  unfold zfill, no_colon. apply Forall_app. split.
  - apply Forall_forall. intros x Hx.
    apply elem_of_replicate in Hx as [-> _]. discriminate.
  - apply uint_cps_no_colon.
Qed.

Lemma strftime_compact_no_colon (d : datetime) : no_colon (strftime_compact d).
Proof.
  assert (Hlit : ∀ c, c ≠ 58%N -> no_colon [c])
    by (intros c Hc; constructor; [exact Hc | constructor]).
  unfold strftime_compact.
  do 3 (apply Forall_app; split; [apply zfill_no_colon|]).
  change (u "T") with [84%N]. change (u "Z") with [90%N].
  apply Forall_app; split; [apply Hlit; discriminate|].
  do 3 (apply Forall_app; split; [apply zfill_no_colon|]).
  apply Hlit. discriminate.
Qed.

End Identifier.

(** X16: the identifier tells operators and cycles apart.  When the two
    operator ids hold no colon, equal identifiers come from the same
    operator id, the same context name and the same rendered time; with a
    colon in an operator id two different operators can get one and the
    same identifier. *)
Theorem generate_identifier_injective
    (h h' : Host) (context context' : EnhancedActiveContext.t)
    (operator_id operator_id' : str) :
  (no_colon operator_id -> no_colon operator_id' ->
   FAIREncoder._generate_identifier h context operator_id
   = FAIREncoder._generate_identifier h' context' operator_id' ->
   operator_id = operator_id'
   ∧ EnhancedActiveContext.name context = EnhancedActiveContext.name context'
   ∧ FAIREncoder.strftime_compact (utcnow h 0) = FAIREncoder.strftime_compact (utcnow h' 0))
  ∧ ∃ c1 c2 o1 o2,
      o1 ≠ o2
      ∧ FAIREncoder._generate_identifier h c1 o1 = FAIREncoder._generate_identifier h c2 o2.
Proof.
  split.
  - intros Ho Ho' E. unfold FAIREncoder._generate_identifier in E.
    apply app_inv_head in E.
    change (u ":") with [58%N] in E. cbn [app] in E.
    apply split_at_first_colon in E as [-> E]; [|assumption..].
    apply split_at_last_colon in E as [-> ->]; [|apply strftime_compact_no_colon..].
    split_and!; reflexivity.
  - exists (EnhancedActiveContext.mk (u "цикл") (EnhancedActiveContext.mk_graph [] [])
              [] [] [] [] [] None),
           (EnhancedActiveContext.mk (u "лаборатория:цикл")
              (EnhancedActiveContext.mk_graph [] []) [] [] [] [] [] None),
           (u "анна:лаборатория"), (u "анна").
    split; [vm_compute; discriminate|].
    unfold FAIREncoder._generate_identifier.
    cbv beta iota zeta delta [EnhancedActiveContext.name].
    generalize (FAIREncoder.strftime_compact (utcnow h 0)). intros ts.
    vm_compute. reflexivity.
Qed.

Lemma generate_identifier_injective_witness :
  EnhancedActiveContext.name small_context = EnhancedActiveContext.name small_context
  ∧ no_colon (u "тестировщик_онтологии").
Proof.
  assert (Hn : no_colon (u "тестировщик_онтологии")).
  { unfold no_colon. apply Forall_forall. intros c Hc Ec. subst c.
    vm_compute in Hc. repeat (apply elem_of_cons in Hc as [Hc|Hc]; [discriminate Hc|]).
    apply elem_of_nil in Hc. exact Hc. }
  split; [|exact Hn].
  exact (proj1 (proj2 (proj1 (generate_identifier_injective sample_host sample_host
                                small_context small_context
                                (u "тестировщик_онтологии") (u "тестировщик_онтологии"))
                         Hn Hn eq_refl))).
Defined.

Section KeywordSources.

Import EnhancedActiveContext FAIREncoder.

Lemma foldl_union_elem {A} (f : A -> option str) (l : list A) (init : gset str) (k : str) :
  k ∈ foldl (fun kws a => match f a with Some w => {[ w ]} ∪ kws | None => kws end) init l
  ↔ k ∈ init ∨ ∃ a, a ∈ l ∧ f a = Some k.
Proof.
  revert init. induction l as [|a l IH]; intros init; cbn [foldl].
  - split; [intros H; left; exact H|].
    intros [H|(a & Ha & _)]; [exact H | apply elem_of_nil in Ha; destruct Ha].
  - rewrite IH. split.
    + intros [H|(b & Hb & Hk)].
      * destruct (f a) as [w|] eqn:E; [|left; exact H].
        apply elem_of_union in H as [H|H]; [|left; exact H].
        apply elem_of_singleton in H as ->.
        right. exists a. split; [apply list_elem_of_here | exact E].
      * right. exists b. split; [apply list_elem_of_further, Hb | exact Hk].
    + intros [H|(b & Hb & Hk)].
      * left. destruct (f a); [apply elem_of_union; right|]; exact H.
      * apply elem_of_cons in Hb as [->|Hb].
        -- left. rewrite Hk. apply elem_of_union; left. apply elem_of_singleton. reflexivity.
        -- right. exists b. split; assumption.
Qed.

Lemma foldl_step_ext {A B} (g g' : B -> A -> B) (l : list A) (init : B) :
  (∀ b a, g b a = g' b a) -> foldl g init l = foldl g' init l.
Proof.
  intros Hg. revert init. induction l as [|a l IH]; intros init; cbn [foldl]; [reflexivity|].
  rewrite Hg. apply IH.
Qed.

Lemma keyword_set_elem (lower : str -> str) (context : t) (k : str) :
  k ∈ keyword_set lower context
  ↔ k ∈ baseline_keywords
    ∨ (∃ node, node ∈ nodes (graph context)
               ∧ k = replace_space_hyphen (lower node.1))
    ∨ (∃ source target rel, (source, target, Some rel) ∈ edges (graph context)
               ∧ k = u "связь-" ++ lower (OntologicalRelation.type rel))
    ∨ (∃ spot, spot ∈ blind_spots context ∧ k = u "слепое-пятно-" ++ spot.1).
Proof.
  unfold keyword_set.
  rewrite (foldl_union_elem (fun spot => Some (u "слепое-пятно-" ++ spot.1))).
  rewrite (foldl_step_ext
             (fun (kws : gset str) (edge : str * str * option OntologicalRelation.t) =>
                match edge.2 with
                | Some rel => {[ u "связь-" ++ lower (OntologicalRelation.type rel) ]} ∪ kws
                | None => kws
                end)
             (fun kws edge =>
                match (match edge.2 with
                       | Some rel => Some (u "связь-" ++ lower (OntologicalRelation.type rel))
                       | None => None
                       end) with
                | Some w => {[ w ]} ∪ kws
                | None => kws
                end))
    by (intros kws [[? ?] [rel|]]; reflexivity).
  rewrite (foldl_union_elem
             (fun edge : str * str * option OntologicalRelation.t =>
                match edge.2 with
                | Some rel => Some (u "связь-" ++ lower (OntologicalRelation.type rel))
                | None => None
                end)).
  rewrite (foldl_union_elem (fun node => Some (replace_space_hyphen (lower node.1)))).
  rewrite elem_of_list_to_set.
  split.
  - intros [[[H|(node & Hn & Hk)]|([[s t0] [rel|]] & He & Hk)]|(spot & Hs & Hk)].
    + left. exact H.
    + right; left. exists node. split; [exact Hn | injection Hk as <-; reflexivity].
    + right; right; left. exists s, t0, rel. split; [exact He | injection Hk as <-; reflexivity].
    + discriminate Hk.
    + right; right; right. exists spot. split; [exact Hs | injection Hk as <-; reflexivity].
  - intros [H|[(node & Hn & ->)|[(s & t0 & rel & He & ->)|(spot & Hs & ->)]]].
    + left; left; left. exact H.
    + left; left; right. exists node. split; [exact Hn | reflexivity].
    + left; right. exists (s, t0, Some rel). split; [exact He | reflexivity].
    + right. exists spot. split; [exact Hs | reflexivity].
Qed.

Lemma sorted_NoDup (K : gset str) : NoDup (sorted K).
Proof. unfold sorted. rewrite merge_sort_Permutation. apply NoDup_elements. Qed.

End KeywordSources.

(** X17: where the keywords come from.  The result of [_extract_keywords]
    has no duplicates, and each of its entries is a baseline keyword, or the
    lower-cased name of an entity with spaces turned into hyphens, or
    "связь-" followed by the lower-cased type of a relation on an edge, or
    "слепое-пятно-" followed by a blind-spot key. *)
Theorem extract_keywords_sources
    (lower : str -> str) (context : EnhancedActiveContext.t) :
  NoDup (FAIREncoder._extract_keywords lower context)
  ∧ ∀ k, k ∈ FAIREncoder._extract_keywords lower context ->
      k ∈ FAIREncoder.baseline_keywords
      ∨ (∃ node, node ∈ EnhancedActiveContext.nodes (EnhancedActiveContext.graph context)
                 ∧ k = replace_space_hyphen (lower node.1))
      ∨ (∃ source target rel,
            (source, target, Some rel)
            ∈ EnhancedActiveContext.edges (EnhancedActiveContext.graph context)
            ∧ k = u "связь-" ++ lower (OntologicalRelation.type rel))
      ∨ (∃ spot, spot ∈ EnhancedActiveContext.blind_spots context
                 ∧ k = u "слепое-пятно-" ++ spot.1).
Proof.
  split.
  - unfold FAIREncoder._extract_keywords.
    pose proof (sorted_NoDup (FAIREncoder.keyword_set lower context)) as H.
    rewrite <- (take_drop 20 (sorted _)) in H.
    apply NoDup_app in H as (H & _). exact H.
  - intros k Hk. apply keyword_set_elem, sorted_elem_of.
    unfold FAIREncoder._extract_keywords in Hk.
    rewrite <- (take_drop 20 (sorted _)). apply elem_of_app. left. exact Hk.
Qed.

Lemma extract_keywords_sources_witness :
  u "связь-σ" ∈ FAIREncoder.baseline_keywords
  ∨ (∃ node, node ∈ EnhancedActiveContext.nodes (EnhancedActiveContext.graph small_context)
             ∧ u "связь-σ" = replace_space_hyphen (simple_lower node.1))
  ∨ (∃ source target rel,
        (source, target, Some rel)
        ∈ EnhancedActiveContext.edges (EnhancedActiveContext.graph small_context)
        ∧ u "связь-σ" = u "связь-" ++ simple_lower (OntologicalRelation.type rel))
  ∨ (∃ spot, spot ∈ EnhancedActiveContext.blind_spots small_context
             ∧ u "связь-σ" = u "слепое-пятно-" ++ spot.1).
Proof.
  apply (proj2 (extract_keywords_sources simple_lower small_context)).
  replace (FAIREncoder._extract_keywords simple_lower small_context)
    with (map u [ "LOGOS-κ"; "lambda-universe"; "semanticdb"; "онтологический-цикл";
                  "связь-σ"; "слепое-пятно-chaos"; "умная-машина"; "человек" ]%string)
    by (vm_compute; reflexivity).
  cbn [map]. do 4 apply list_elem_of_further. apply list_elem_of_here.
Defined.

Section Manifest.

Import EnhancedActiveContext FAIREncoder.

Lemma comprehension_distinct (registry : list (str * pydict)) (acc : pydict) :
  NoDup (keys acc ++ keys registry) ->
  foldl (fun d item => dict_set d item.1 (habeas_weight_entry item.2)) acc registry
  = acc ++ map (fun item => (item.1, habeas_weight_entry item.2)) registry.
Proof.
  revert acc. induction registry as [|[k data] registry IH]; intros acc Hnd.
  - cbn. rewrite app_nil_r. reflexivity.
  - cbn [foldl map fst snd]. unfold keys in Hnd. cbn [map fst] in Hnd.
    rewrite dict_set_absent.
    + rewrite IH.
      * rewrite <- app_assoc. reflexivity.
      * unfold keys. rewrite map_app, <- app_assoc. exact Hnd.
    + apply NoDup_app in Hnd as (_ & Hd & _). intros Hin. apply (Hd k Hin).
      apply list_elem_of_here.
Qed.

Lemma lookup_weights (registry : list (str * pydict)) (k : str) (data : pydict) :
  NoDup (keys registry) -> (k, data) ∈ registry ->
  dict_lookup (map (fun item => (item.1, habeas_weight_entry item.2)) registry) k
  = Some (habeas_weight_entry data).
Proof.
  unfold keys. induction registry as [|[k' data'] registry IH]; intros Hnd Hin.
  - apply elem_of_nil in Hin. destruct Hin.
  - cbn [map fst snd dict_lookup]. cbn [map fst] in Hnd. apply NoDup_cons in Hnd as [Hk Hnd].
    apply elem_of_cons in Hin as [[= -> ->]|Hin].
    + rewrite decide_True by reflexivity. reflexivity.
    + destruct (decide (k' = k)) as [->|Hne]; [|apply IH; assumption].
      destruct Hk. apply list_elem_of_fmap. exists (k, data). split; [reflexivity | exact Hin].
Qed.

End Manifest.

(** X18: the rights manifest.  For a registry (a dictionary, so its ids
    are distinct) the manifest lists one entry per registered right, under
    the same ids and in the same order, and [entities_count] is the number
    of these entries; each entry has exactly the fields subject, right_type,
    granted_by and granted_at, with [None] for a field the registry does not
    record. *)
Theorem encode_habeas_weights_manifest (context : EnhancedActiveContext.t) :
  NoDup (keys (EnhancedActiveContext._habeas_weights context)) ->
  ∃ weights,
    dict_lookup (FAIREncoder._encode_habeas_weights context) (u "weights")
    = Some (VDict weights)
    ∧ dict_lookup (FAIREncoder._encode_habeas_weights context) (u "entities_count")
      = Some (VInt (Z.of_nat (length weights)))
    ∧ keys weights = keys (EnhancedActiveContext._habeas_weights context)
    ∧ ∀ weight_id data,
        (weight_id, data) ∈ EnhancedActiveContext._habeas_weights context ->
        dict_lookup weights weight_id
        = Some (VDict [ (u "subject", dict_get data (u "subject") VNone);
                        (u "right_type", dict_get data (u "right_type") VNone);
                        (u "granted_by", dict_get data (u "granted_by") VNone);
                        (u "granted_at", dict_get data (u "granted_at") VNone) ]).
Proof.
  intros Hnd. unfold FAIREncoder._encode_habeas_weights.
  rewrite (comprehension_distinct _ []) by exact Hnd. cbn [app].
  exists (map (fun item => (item.1, FAIREncoder.habeas_weight_entry item.2))
            (EnhancedActiveContext._habeas_weights context)).
  split_and!.
  - generalize (map (fun item : str * pydict => (item.1, FAIREncoder.habeas_weight_entry item.2))
                  (EnhancedActiveContext._habeas_weights context)).
    intros w. vm_compute. reflexivity.
  - rewrite length_map.
    generalize (length (EnhancedActiveContext._habeas_weights context)).
    intros n. vm_compute. reflexivity.
  - unfold keys. rewrite map_map. reflexivity.
  - intros weight_id data Hin. apply lookup_weights; assumption.
Qed.

Lemma encode_habeas_weights_manifest_witness :
  ∃ weights,
    dict_lookup (FAIREncoder._encode_habeas_weights registry_context) (u "weights")
    = Some (VDict weights)
    ∧ keys weights = [u "hw-1"; u "hw-2"]
    ∧ dict_lookup (FAIREncoder._encode_habeas_weights registry_context) (u "entities_count")
      = Some (VInt 2).
Proof.
  assert (Hnd : NoDup (keys (EnhancedActiveContext._habeas_weights registry_context))).
  { unfold keys, registry_context. cbn [EnhancedActiveContext._habeas_weights map fst].
    apply NoDup_cons. split; [literal_mismatch|].
    apply NoDup_cons. split; [literal_mismatch | apply NoDup_nil_2]. }
  destruct (encode_habeas_weights_manifest registry_context Hnd)
    as (weights & Hw & Hcount & Hkeys & _).
  exists weights. split; [exact Hw|]. split; [exact Hkeys|].
  rewrite Hcount. apply (f_equal (@length str)) in Hkeys.
  unfold keys in Hkeys. rewrite length_map in Hkeys. rewrite Hkeys. reflexivity.
Defined.

(** X19: the shape of [encode].  For every context and operator the block
    has the same nineteen keys; the identifier and the publication date come
    from two successive readings of the UTC clock; the operator is the first
    creator and the provenance operator; the keyword list is sorted and has
    at most 20 entries; the provenance counts are the lengths of the
    Φ-dialogue log and of the event history. *)
Theorem encode_shape
    (lower : str -> str) (h : Host) (context : EnhancedActiveContext.t) (operator_id : str) :
  let meta := FAIREncoder.encode lower h context operator_id in
  keys meta
  = map u [ "identifier"; "creators"; "titles"; "keywords"; "publication_date";
            "resource_type"; "access_protocol"; "access_rights"; "access_url";
            "habeas_weights_manifest"; "format_standard"; "vocabulary";
            "protocol_compliance"; "language"; "license"; "provenance";
            "usage_restrictions"; "citation_guideline"; "community_standards" ]%string
  ∧ dict_lookup meta (u "identifier")
    = Some (VStr (u "urn:logos-k:" ++ operator_id ++ u ":"
                  ++ EnhancedActiveContext.name context ++ u ":"
                  ++ FAIREncoder.strftime_compact (utcnow h 0)))
  ∧ dict_lookup meta (u "publication_date") = Some (VStr (isoformat (utcnow h 1) ++ u "Z"))
  ∧ dict_lookup meta (u "creators") = Some (VStrs [operator_id; u "LOGOS-κ System"])
  ∧ (∃ kws, dict_lookup meta (u "keywords") = Some (VStrs kws)
            ∧ length kws ≤ 20 ∧ StronglySorted str_le kws)
  ∧ (∃ provenance,
        dict_lookup meta (u "provenance") = Some (VDict provenance)
        ∧ dict_lookup provenance (u "operator") = Some (VStr operator_id)
        ∧ dict_lookup provenance (u "phi_dialogues_count")
          = Some (VInt (Z.of_nat (length (EnhancedActiveContext.phi_dialogues context))))
        ∧ dict_lookup provenance (u "events_count")
          = Some (VInt (Z.of_nat (length (EnhancedActiveContext.event_history context)))))
  ∧ dict_lookup meta (u "habeas_weights_manifest")
    = Some (VDict (FAIREncoder._encode_habeas_weights context)).
Proof.
  intros meta. subst meta. unfold FAIREncoder.encode. split_and!.
  - reflexivity.
  - lookup_entry.
  - lookup_entry.
  - lookup_entry.
  - exists (FAIREncoder._extract_keywords lower context). split_and!.
    + lookup_entry.
    + rewrite extract_keywords_length. lia.
    + apply extract_keywords_sorted.
  - eexists. split; [lookup_entry|]. unfold FAIREncoder._encode_provenance.
    split_and!; lookup_entry.
  - lookup_entry.
Qed.

(** ** The serializer *)

Lemma map_result_ok {A B} (f : A -> result B) (l : list A) (bs : list B) :
  SemanticDBSerializer.map_result f l = Ok bs -> Forall2 (fun a b => f a = Ok b) l bs.
Proof.
  revert bs. induction l as [|a l IH]; intros bs; cbn [SemanticDBSerializer.map_result].
  - intros [= <-]. constructor.
  - destruct (f a) as [b|x] eqn:E; cbn [bind]; [|discriminate].
    destruct (SemanticDBSerializer.map_result f l) as [bs'|x]; cbn [bind]; [|discriminate].
    intros [= <-]. constructor; [exact E | apply IH; reflexivity].
Qed.

Lemma map_result_raises {A B} (f : A -> result B) (l : list A) (x : exn) :
  SemanticDBSerializer.map_result f l = Raise x -> ∃ a, a ∈ l ∧ f a = Raise x.
Proof.
  induction l as [|a l IH]; cbn [SemanticDBSerializer.map_result]; [discriminate|].
  destruct (f a) as [b|x'] eqn:E; cbn [bind].
  - destruct (SemanticDBSerializer.map_result f l) as [bs'|x']; cbn [bind]; [discriminate|].
    intros [= <-]. destruct (IH eq_refl) as (a' & Hin & Ha').
    exists a'. split; [apply list_elem_of_further, Hin | exact Ha'].
  - intros [= <-]. exists a. split; [apply list_elem_of_here | exact E].
Qed.

(** X20: how [to_json_ld] ends.  It raises [KeyError] for the first of
    cycle_id, timestamp and final_coherence that the cycle summary lacks,
    and [OverflowError] when the score of an event of the history cannot be
    computed; in every other case it returns a document that repeats these
    three entries, lists the blind-spot keys in order and holds one record
    per event of the history, in order.  No other entry of the summary is
    read. *)
Theorem to_json_ld_outcomes
    (py_str : PyVal -> str) (context : EnhancedActiveContext.t) (cycle_data : pydict) :
  match SemanticDBSerializer.to_json_ld py_str context cycle_data with
  | Ok doc =>
    dict_lookup doc (u "logos:cycleId") = dict_lookup cycle_data (u "cycle_id")
    ∧ dict_lookup doc (u "schema:dateCreated") = dict_lookup cycle_data (u "timestamp")
    ∧ dict_lookup doc (u "logos:finalCoherence")
      = dict_lookup cycle_data (u "final_coherence")
    ∧ dict_lookup cycle_data (u "cycle_id") ≠ None
    ∧ dict_lookup cycle_data (u "timestamp") ≠ None
    ∧ dict_lookup cycle_data (u "final_coherence") ≠ None
    ∧ dict_lookup doc (u "logos:blindSpots")
      = Some (VStrs (keys (EnhancedActiveContext.blind_spots context)))
    ∧ ∃ events,
        dict_lookup doc (u "logos:events") = Some (VList (map VDict events))
        ∧ Forall2 (fun e record => OntologicalEvent.to_semantic_db_record py_str e = Ok record)
            (EnhancedActiveContext.event_history context) events
  | Raise x =>
    (x = KeyError (u "cycle_id") ∧ dict_lookup cycle_data (u "cycle_id") = None)
    ∨ (x = KeyError (u "timestamp") ∧ dict_lookup cycle_data (u "cycle_id") ≠ None
       ∧ dict_lookup cycle_data (u "timestamp") = None)
    ∨ (x = KeyError (u "final_coherence") ∧ dict_lookup cycle_data (u "cycle_id") ≠ None
       ∧ dict_lookup cycle_data (u "timestamp") ≠ None
       ∧ dict_lookup cycle_data (u "final_coherence") = None)
    ∨ (x = OverflowError (u "int too large to convert to float")
       ∧ ∃ e, e ∈ EnhancedActiveContext.event_history context
              ∧ OntologicalEvent.significance_score e = Raise x)
  end.
Proof.
  unfold SemanticDBSerializer.to_json_ld, getitem.
  destruct (dict_lookup cycle_data (u "cycle_id")) as [v1|] eqn:E1; cbn [bind];
    [|left; split; reflexivity].
  destruct (dict_lookup cycle_data (u "timestamp")) as [v2|] eqn:E2; cbn [bind];
    [|right; left; split_and!; [reflexivity | discriminate | reflexivity]].
  destruct (dict_lookup cycle_data (u "final_coherence")) as [v3|] eqn:E3; cbn [bind];
    [|right; right; left; split_and!; [reflexivity | discriminate | discriminate | reflexivity]].
  destruct (SemanticDBSerializer.map_result _ _) as [events|x] eqn:Em; cbn [bind].
  - apply map_result_ok in Em.
    generalize dependent events. intros events Em.
    split_and!; try discriminate.
    + vm_compute. reflexivity.
    + vm_compute. reflexivity.
    + vm_compute. reflexivity.
    + generalize (EnhancedActiveContext.blind_spots context). intros bs.
      unfold keys. generalize (VStrs (map fst bs)). intros ks. vm_compute. reflexivity.
    + exists events. split; [|exact Em].
      generalize (VList (map VDict events)). intros ev. vm_compute. reflexivity.
  - apply map_result_raises in Em as (e & Hin & He). apply record_raises in He.
    right; right; right. split; [apply (significance_score_raises _ _ He)|].
    exists e. split; assumption.
Qed.

(** X21: how [to_turtle] ends.  It raises [KeyError] for the first of
    cycle_id, timestamp and final_coherence that the cycle summary lacks and
    otherwise returns ten lines joined by line feeds; the ninth line lists
    the blind-spot keys in double quotes, separated by " , ", and for a
    context without blind spots it is "  logos:hasBlindSpot  ;", a statement
    without an object. *)
Theorem to_turtle_outcomes
    (py_str : PyVal -> str) (context : EnhancedActiveContext.t) (cycle_data : pydict) :
  match SemanticDBSerializer.to_turtle py_str context cycle_data with
  | Ok text =>
    ∃ lines,
      text = join newline lines ∧ length lines = 10%nat
      ∧ dict_lookup cycle_data (u "cycle_id") ≠ None
      ∧ dict_lookup cycle_data (u "timestamp") ≠ None
      ∧ dict_lookup cycle_data (u "final_coherence") ≠ None
      ∧ lines !! 8%nat
        = Some (u "  logos:hasBlindSpot "
                ++ join (u " , ")
                     (map (fun spot => dquote ++ spot ++ dquote)
                        (keys (EnhancedActiveContext.blind_spots context)))
                ++ u " ;")
      ∧ (EnhancedActiveContext.blind_spots context = [] ->
         lines !! 8%nat = Some (u "  logos:hasBlindSpot  ;"))
  | Raise x =>
    (x = KeyError (u "cycle_id") ∧ dict_lookup cycle_data (u "cycle_id") = None)
    ∨ (x = KeyError (u "timestamp") ∧ dict_lookup cycle_data (u "cycle_id") ≠ None
       ∧ dict_lookup cycle_data (u "timestamp") = None)
    ∨ (x = KeyError (u "final_coherence") ∧ dict_lookup cycle_data (u "cycle_id") ≠ None
       ∧ dict_lookup cycle_data (u "timestamp") ≠ None
       ∧ dict_lookup cycle_data (u "final_coherence") = None)
  end.
Proof.
  unfold SemanticDBSerializer.to_turtle, SemanticDBSerializer.to_turtle_lines, getitem.
  destruct (dict_lookup cycle_data (u "cycle_id")) as [v1|] eqn:E1; cbn [bind];
    [|left; split; reflexivity].
  destruct (dict_lookup cycle_data (u "timestamp")) as [v2|] eqn:E2; cbn [bind];
    [|right; left; split_and!; [reflexivity | discriminate | reflexivity]].
  destruct (dict_lookup cycle_data (u "final_coherence")) as [v3|] eqn:E3; cbn [bind];
    [|right; right; split_and!; [reflexivity | discriminate | discriminate | reflexivity]].
  eexists. split; [reflexivity|].
  split_and!; try discriminate; try reflexivity.
  intros ->. vm_compute. reflexivity.
Qed.

Lemma to_turtle_outcomes_witness :
  ∃ lines,
    SemanticDBSerializer.to_turtle (fun _ => u "0.82") registry_context sample_cycle
    = Ok (join newline lines)
    ∧ lines !! 8%nat = Some (u "  logos:hasBlindSpot  ;").
Proof.
  pose proof (to_turtle_outcomes (fun _ => u "0.82") registry_context sample_cycle) as H.
  destruct (SemanticDBSerializer.to_turtle (fun _ => u "0.82") registry_context sample_cycle)
    as [text|x].
  - destruct H as (lines & -> & _ & _ & _ & _ & _ & Hempty).
    exists lines. split; [reflexivity | apply Hempty; reflexivity].
  - exfalso. destruct H as [[_ H]|[(_ & _ & H)|(_ & _ & _ & H)]];
      vm_compute in H; discriminate H.
Defined.

Section GraphML.

Import EnhancedActiveContext SemanticDBSerializer.

Lemma count_concat_map {A} (f : A -> list str) (target : str) (k : nat) (l : list A) :
  (∀ a, length (filter (fun line => line = target) (f a)) = k) ->
  length (filter (fun line => line = target) (concat (map f l))) = (k * length l)%nat.
Proof.
  intros Hf. induction l as [|a l IH]; cbn [map concat length].
  - rewrite Nat.mul_0_r. reflexivity.
  - rewrite filter_app, length_app, Hf, IH. lia.
Qed.

Lemma length_concat_map {A} (f : A -> list str) (k : nat) (l : list A) :
  (∀ a, length (f a) = k) -> length (concat (map f l)) = (k * length l)%nat.
Proof.
  intros Hf. induction l as [|a l IH]; cbn [map concat length].
  - rewrite Nat.mul_0_r. reflexivity.
  - rewrite length_app, Hf, IH. lia.
Qed.

Lemma node_lines_close (py_str : PyVal -> str) (node : str * pydict) :
  length (filter (fun line => line = u "    </node>") (graphml_node_lines py_str node)) = 1%nat.
Proof. unfold graphml_node_lines. count_line. Qed.

Lemma node_lines_no_edge (py_str : PyVal -> str) (node : str * pydict) :
  length (filter (fun line => line = u "    </edge>") (graphml_node_lines py_str node)) = 0%nat.
Proof. unfold graphml_node_lines. count_line. Qed.

Lemma edge_lines_close (py_str : PyVal -> str) (edge : str * str * option OntologicalRelation.t) :
  length (filter (fun line => line = u "    </edge>") (graphml_edge_lines py_str edge)) = 1%nat.
Proof. destruct edge as [[s t0] r]. unfold graphml_edge_lines. count_line. Qed.

Lemma edge_lines_no_node (py_str : PyVal -> str) (edge : str * str * option OntologicalRelation.t) :
  length (filter (fun line => line = u "    </node>") (graphml_edge_lines py_str edge)) = 0%nat.
Proof. destruct edge as [[s t0] r]. unfold graphml_edge_lines. count_line. Qed.

End GraphML.

(** X22: the structure of the GraphML text.  [to_graphml] never fails and
    does not read the cycle summary.  Its text is the line-feed join of
    8 + 4·(entities) + 3·(edges) lines, with exactly one closing node line
    per entity and one closing edge line per edge of the graph; an edge
    that carries no relation is written as well, with certainty 1.0. *)
Theorem to_graphml_structure
    (py_str : PyVal -> str) (context : EnhancedActiveContext.t) (cycle_data : pydict) :
  let lines := SemanticDBSerializer.to_graphml_lines py_str context cycle_data in
  let entities := EnhancedActiveContext.nodes (EnhancedActiveContext.graph context) in
  let links := EnhancedActiveContext.edges (EnhancedActiveContext.graph context) in
  SemanticDBSerializer.to_graphml py_str context cycle_data = join newline lines
  ∧ length lines = (8 + 4 * length entities + 3 * length links)%nat
  ∧ length (filter (fun line => line = u "    </node>") lines) = length entities
  ∧ length (filter (fun line => line = u "    </edge>") lines) = length links
  ∧ ∀ source target,
      (source, target, None) ∈ links ->
      uq "      <data key='certainty'>" ++ py_str (VFloat 1.0) ++ u "</data>" ∈ lines.
Proof.
  intros lines entities links. subst lines.
  unfold SemanticDBSerializer.to_graphml, SemanticDBSerializer.to_graphml_lines.
  fold entities. fold links.
  split_and!.
  - reflexivity.
  - rewrite !length_app.
    rewrite (length_concat_map _ 4) by reflexivity.
    rewrite (length_concat_map _ 3) by (intros [[s t0] r]; reflexivity).
    cbn [length]. lia.
  - rewrite !filter_app, !length_app.
    rewrite (count_concat_map _ _ 1) by (apply node_lines_close).
    rewrite (count_concat_map _ _ 0) by (apply edge_lines_no_node).
    replace (length (filter _ [_; _; _; _; _; _])) with 0%nat by (symmetry; count_line).
    replace (length (filter _ [_; _])) with 0%nat by (symmetry; count_line).
    lia.
  - rewrite !filter_app, !length_app.
    rewrite (count_concat_map _ _ 0) by (apply node_lines_no_edge).
    rewrite (count_concat_map _ _ 1) by (apply edge_lines_close).
    replace (length (filter _ [_; _; _; _; _; _])) with 0%nat by (symmetry; count_line).
    replace (length (filter _ [_; _])) with 0%nat by (symmetry; count_line).
    lia.
  - intros source target Hin.
    apply elem_of_app; right. apply elem_of_app; right. apply elem_of_app; left.
    apply list_elem_of_In, in_concat.
    exists (SemanticDBSerializer.graphml_edge_lines py_str (source, target, None)).
    split; [apply in_map, list_elem_of_In, Hin|].
    right. left. reflexivity.
Qed.

Lemma to_graphml_structure_witness :
  uq "      <data key='certainty'>" ++ u "1.0" ++ u "</data>"
  ∈ SemanticDBSerializer.to_graphml_lines (fun _ => u "1.0") registry_context sample_cycle.
Proof.
  apply (proj2 (proj2 (proj2 (proj2
           (to_graphml_structure (fun _ => u "1.0") registry_context sample_cycle))))
           (u "Человек") (u "Эфос")).
  apply list_elem_of_here.
Defined.

Lemma to_yaml_raises
    (yaml_dump py_str : PyVal -> str) (imported : datetime) (h : Host)
    (context : EnhancedActiveContext.t) (cycle_data : pydict) :
  ∃ x, SemanticDBSerializer.to_yaml yaml_dump py_str imported h context cycle_data = Raise x.
Proof.
  unfold SemanticDBSerializer.to_yaml, getitem.
  destruct (dict_lookup cycle_data (u "cycle_id")); cbn [bind]; [|eexists; reflexivity].
  destruct (dict_lookup cycle_data (u "timestamp")); cbn [bind]; [|eexists; reflexivity].
  destruct (dict_lookup cycle_data (u "expressions_evaluated")); cbn [bind];
    [|eexists; reflexivity].
  rewrite load_name_cycle_of_data. eexists. reflexivity.
Qed.

Lemma export_cycle_directories
    (pl : SemanticDBSerializer.Pathlib) (json_dumps : pydict -> result str)
    (yaml_dump py_str : PyVal -> str) (imported : datetime) (h : Host)
    (context : EnhancedActiveContext.t) (fs : SemanticDBSerializer.FileSystem)
    (cycle_data : pydict) (output_path : str) :
  SemanticDBSerializer.directories
    (SemanticDBSerializer.export_cycle pl json_dumps yaml_dump py_str imported h
       context fs cycle_data output_path).1
  = {[ SemanticDBSerializer.parent pl output_path ]}
    ∪ list_to_set (SemanticDBSerializer.parents pl (SemanticDBSerializer.parent pl output_path))
    ∪ SemanticDBSerializer.directories fs.
Proof.
  unfold SemanticDBSerializer.export_cycle.
  repeat (destruct (decide _)); try reflexivity;
    match goal with |- context [match ?r with Ok _ => _ | Raise _ => _ end] =>
      destruct r end; reflexivity.
Qed.

(** X23: what [export_cycle] leaves behind.  The parent directory of the
    output path exists after the call in every case, and no directory is
    removed.  When the call fails no file is
    written; when it succeeds exactly the output path is written.  For every
    suffix other than .json, .jsonld, .ttl and .graphml, the YAML suffixes
    included, the call fails; for .graphml it always succeeds and writes the
    GraphML text. *)
Theorem export_cycle_outcomes
    (pl : SemanticDBSerializer.Pathlib) (json_dumps : pydict -> result str)
    (yaml_dump py_str : PyVal -> str) (imported : datetime) (h : Host)
    (context : EnhancedActiveContext.t) (fs : SemanticDBSerializer.FileSystem)
    (cycle_data : pydict) (output_path : str) :
  let out :=
    SemanticDBSerializer.export_cycle pl json_dumps yaml_dump py_str imported h
      context fs cycle_data output_path in
  let sfx := SemanticDBSerializer.suffix pl output_path in
  SemanticDBSerializer.parent pl output_path ∈ SemanticDBSerializer.directories out.1
  ∧ SemanticDBSerializer.directories fs ⊆ SemanticDBSerializer.directories out.1
  ∧ match out.2 with
    | Ok _ =>
      ∃ content, SemanticDBSerializer.files out.1
                 = <[ output_path := content ]> (SemanticDBSerializer.files fs)
    | Raise _ => SemanticDBSerializer.files out.1 = SemanticDBSerializer.files fs
    end
  ∧ (sfx ∉ [u ".json"; u ".jsonld"; u ".ttl"; u ".graphml"] -> ∃ x, out.2 = Raise x)
  ∧ (sfx = u ".graphml" ->
     out.2 = Ok tt
     ∧ SemanticDBSerializer.files out.1
       = <[ output_path := SemanticDBSerializer.to_graphml py_str context cycle_data ]>
           (SemanticDBSerializer.files fs)).
Proof.
  intros out sfx. subst out.
  rewrite export_cycle_directories.
  split; [apply elem_of_union; left; apply elem_of_union; left;
          apply elem_of_singleton; reflexivity|].
  split; [intros d Hd; apply elem_of_union; right; exact Hd|].
  unfold SemanticDBSerializer.export_cycle. fold sfx.
  destruct (to_yaml_raises yaml_dump py_str imported h context cycle_data) as [x Hx].
  rewrite Hx.
  destruct (decide (sfx ∈ [u ".yaml"; u ".yml"])) as [Hy|Hy].
  { cbn [fst snd]. split_and!.
    - reflexivity.
    - intros _. eexists. reflexivity.
    - intros E. rewrite E in Hy. exfalso. revert Hy. literal_mismatch. }
  destruct (decide (sfx ∈ [u ".json"; u ".jsonld"])) as [Hj|Hj].
  { assert (Hin : sfx ∈ [u ".json"; u ".jsonld"; u ".ttl"; u ".graphml"]).
    { apply elem_of_cons in Hj as [Hj|Hj]; [rewrite Hj; apply list_elem_of_here|].
      apply list_elem_of_singleton in Hj. rewrite Hj.
      apply list_elem_of_further, list_elem_of_here. }
    destruct (bind _ _) as [text|x']; cbn [fst snd]; split_and!.
    - eexists. reflexivity.
    - intros Hn. destruct (Hn Hin).
    - intros E. rewrite E in Hj. exfalso. revert Hj. literal_mismatch.
    - reflexivity.
    - intros Hn. destruct (Hn Hin).
    - intros E. rewrite E in Hj. exfalso. revert Hj. literal_mismatch. }
  destruct (decide (sfx = u ".ttl")) as [Ht|Ht].
  { assert (Hin : sfx ∈ [u ".json"; u ".jsonld"; u ".ttl"; u ".graphml"]).
    { rewrite Ht. do 2 apply list_elem_of_further. apply list_elem_of_here. }
    destruct (SemanticDBSerializer.to_turtle py_str context cycle_data) as [text|x'];
      cbn [fst snd]; split_and!.
    - eexists. reflexivity.
    - intros Hn. destruct (Hn Hin).
    - intros E. rewrite E in Ht. exfalso. vm_compute in Ht. discriminate Ht.
    - reflexivity.
    - intros Hn. destruct (Hn Hin).
    - intros E. rewrite E in Ht. exfalso. vm_compute in Ht. discriminate Ht. }
  destruct (decide (sfx = u ".graphml")) as [Hg|Hg].
  { cbn [fst snd]. split_and!.
    - eexists. reflexivity.
    - intros Hn. destruct Hn. rewrite Hg.
      do 3 apply list_elem_of_further. apply list_elem_of_here.
    - intros _. split; reflexivity. }
  cbn [fst snd]. split_and!.
  - reflexivity.
  - intros _. eexists. reflexivity.
  - intros E. destruct Hg. exact E.
Qed.

Lemma export_cycle_outcomes_witness :
  SemanticDBSerializer.suffix posix_pathlib (u "semantic_db/cycle.yaml") = u ".yaml"
  ∧ ∃ x,
      (SemanticDBSerializer.export_cycle posix_pathlib (fun _ => Ok []) (fun _ => [])
         (fun _ => []) (mk_datetime 2025 3 14 8 0 0 0) sample_host small_context
         empty_fs sample_cycle (u "semantic_db/cycle.yaml")).2
      = Raise x.
Proof.
  assert (Hs : SemanticDBSerializer.suffix posix_pathlib (u "semantic_db/cycle.yaml")
               = u ".yaml") by (vm_compute; reflexivity).
  split; [exact Hs|].
  destruct (export_cycle_outcomes posix_pathlib (fun _ => Ok []) (fun _ => [])
              (fun _ => []) (mk_datetime 2025 3 14 8 0 0 0) sample_host small_context
              empty_fs sample_cycle (u "semantic_db/cycle.yaml"))
    as (_ & _ & _ & Hraise & _).
  apply Hraise. rewrite Hs. literal_mismatch.
Defined.

(** ** Certainty along the life of a relation *)

(** Rounding to nearest even moves a value up by at most half a unit. *)
Section RoundingUp.
#[local] Open Scope Z_scope.

Lemma round_nearest_even_upper (n M : Z) (r : shr_record) :
  0 <= n -> shr_inv n M r ->
  2 ^ (n + 1) * round_nearest_even (shr_m r) (loc_of_shr_record r) <= 2 * M + 2 ^ n.
Proof.
  intros Hn (Hm & t & E & Ht & Hs). destruct r as [m rb sb]. cbn [shr_m shr_r shr_s] in *.
  rewrite Z.pow_add_r, Z.pow_1_r by lia.
  assert (Hp : 0 < 2 ^ n) by (apply Z.pow_pos_nonneg; lia).
  destruct rb, sb; cbn [loc_of_shr_record round_nearest_even b2z] in *.
  - nia.
  - assert (t = 0).
    { destruct (Z.eq_dec t 0) as [E0|E0]; [exact E0|].
      assert (Ht0 : 0 < t) by lia. apply Hs in Ht0. discriminate Ht0. }
    subst t. destruct (Z.even m); nia.
  - nia.
  - nia.
Qed.

Lemma binary_round_aux_upper (M : positive) (e : Z) :
  let e1 := fexp prec emax (Z.pos (digits2_pos M) + e) in
  e <= e1 ->
  match binary_round_aux prec emax false (Z.pos M) e loc_Exact with
  | S754_zero s => s = false
  | S754_infinity s =>
    s = false
    ∧ (emax - prec < e1
       ∨ (e1 = emax - prec ∧ 2 * (2 ^ 53 * 2 ^ (e1 - e)) <= 2 * Z.pos M + 2 ^ (e1 - e)))
  | S754_nan => False
  | S754_finite s m3 e3 =>
    s = false ∧ e1 <= e3
    ∧ 2 * (Z.pos m3 * 2 ^ (e3 - e)) <= 2 * Z.pos M + 2 ^ (e1 - e)
  end.
Proof.
  intros e1 He. unfold binary_round_aux, shr_fexp. cbn [Zdigits2]. fold e1.
  assert (HM : 0 <= Z.pos M) by lia.
  assert (Hn0 : 0 <= e1 - e) by lia.
  destruct (shr_exact_inv (Z.pos M) e (e1 - e) HM Hn0) as [Hinv He'].
  destruct (shr _ e (e1 - e)) as [r1 e'] eqn:Eshr. cbn [fst snd] in *.
  replace e' with e1 in * by lia. clear He' Eshr e'.
  pose proof (round_nearest_even_lower _ _ _ Hn0 Hinv) as [Hm' _].
  pose proof (round_nearest_even_upper _ _ _ Hn0 Hinv) as Hup.
  set (m' := round_nearest_even _ _) in *.
  set (n := e1 - e) in *.
  assert (Hn : 0 <= n) by lia.
  assert (Hpn : 0 < 2 ^ n) by (apply Z.pow_pos_nonneg; lia).
  assert (Hemin : -1074 <= e1) by apply fexp64_ge_emin.
  assert (Hsmall : shr_m r1 < 2 ^ 53).
  { destruct Hinv as (Hm0 & t & E & Ht & _).
    pose proof (digits2_bounds M) as [_ Hhi].
    assert (Hd : Z.pos (digits2_pos M) <= n + 53).
    { subst n e1. rewrite fexp64. lia. }
    assert (2 ^ Z.pos (digits2_pos M) <= 2 ^ (n + 53)) by (apply Z.pow_le_mono_r; lia).
    rewrite Z.pow_add_r in * by lia.
    destruct (shr_r r1); cbn [b2z] in E; nia. }
  rewrite Z.pow_add_r, Z.pow_1_r in Hup by lia.
  destruct m' as [|q|q] eqn:Em'.
  - rewrite shr_nonpos by (cbn [Zdigits2]; rewrite fexp64; lia).
    cbn. reflexivity.
  - destruct (Z.lt_ge_cases (Z.pos q) (2 ^ 53)) as [Hq|Hq].
    + rewrite shr_nonpos
        by (cbn [Zdigits2]; rewrite fexp64; pose proof (digits2_le_53 q Hq); lia).
      cbn [shr_m shr_record_of_loc].
      destruct (Z.leb_spec e1 (emax - prec)) as [Hle|Hgt].
      * split; [reflexivity|]. split; [lia|]. fold n. lia.
      * split; [reflexivity|]. left. exact Hgt.
    + assert (Eq : q = 9007199254740992%positive) by lia. subst q.
      change (Zdigits2 9007199254740992) with 54.
      replace (fexp prec emax (54 + e1) - e1) with 1 by (rewrite fexp64; lia).
      cbn [shr SpecFloat.iter_pos shr_1 shr_record_of_loc shr_m].
      destruct (Z.leb_spec (e1 + 1) (emax - prec)) as [Hle|Hgt].
      * split; [reflexivity|]. split; [lia|].
        replace (e1 + 1 - e) with (n + 1) by lia.
        rewrite Z.pow_add_r, Z.pow_1_r by lia. fold n. lia.
      * split; [reflexivity|].
        destruct (Z.eq_dec e1 (emax - prec)) as [E1|E1]; [right | left; lia].
        split; [exact E1|]. fold n. change (2 ^ 53) with 9007199254740992. lia.
  - destruct Hinv as [Hm0 _]. lia.
Qed.

End RoundingUp.

(** The product with 0.8 is rounded at an exponent between that of the
    exact product and that of the factor, so the rounded product, a multiple
    of the same unit as the factor, cannot pass it. *)
Section Product.
#[local] Open Scope Z_scope.

Lemma digits2_le (p : positive) (k : Z) : Z.pos p < 2 ^ k -> Z.pos (digits2_pos p) <= k.
Proof.
  intros Hp. pose proof (digits2_bounds p) as [Hlo _].
  destruct (Z.le_gt_cases (Z.pos (digits2_pos p)) k) as [H|H]; [exact H|].
  destruct (Z.le_gt_cases 0 k) as [Hk|Hk].
  - assert (2 ^ k <= 2 ^ (Z.pos (digits2_pos p) - 1)) by (apply Z.pow_le_mono_r; lia). lia.
  - rewrite Z.pow_neg_r in Hp by lia. lia.
Qed.

Lemma digits2_ge (p : positive) (k : Z) : 2 ^ k <= Z.pos p -> k < Z.pos (digits2_pos p).
Proof.
  intros Hp. pose proof (digits2_bounds p) as [_ Hhi].
  destruct (Z.lt_ge_cases k (Z.pos (digits2_pos p))) as [H|H]; [exact H|].
  assert (2 ^ Z.pos (digits2_pos p) <= 2 ^ k) by (apply Z.pow_le_mono_r; lia). lia.
Qed.

Lemma mul_08_exponent (m : positive) (e : Z) :
  bounded prec emax m e = true ->
  let e1 := fexp prec emax (Z.pos (digits2_pos (m * 7205759403792794)) + (e + -53)) in
  e + -53 <= e1 <= e.
Proof.
  intros Hb e1.
  assert (Hcan : fexp prec emax (Z.pos (digits2_pos m) + e) = e).
  { unfold bounded, canonical_mantissa in Hb. apply andb_prop in Hb as [Hb _].
    apply Z.eqb_eq in Hb. exact Hb. }
  pose proof (digits2_bounds m) as [Hlo Hhi].
  assert (Hd1 : Z.pos (digits2_pos (m * 7205759403792794)) <= Z.pos (digits2_pos m) + 53).
  { apply digits2_le. rewrite Pos2Z.inj_mul, Z.pow_add_r by lia.
    change (2 ^ 53) with 9007199254740992. nia. }
  assert (Hd2 : 52 < Z.pos (digits2_pos (m * 7205759403792794))).
  { apply digits2_ge. rewrite Pos2Z.inj_mul. change (2 ^ 52) with 4503599627370496. nia. }
  subst e1. rewrite fexp64 in *. lia.
Qed.

Lemma SFmul_sf_08_le (m : positive) (e : Z) :
  bounded prec emax m e = true ->
  valid_binary (SFmul prec emax (S754_finite false m e) sf_08) = true ->
  SFleb (SFmul prec emax (S754_finite false m e) sf_08) (S754_finite false m e) = true
  ∧ SFleb (S754_zero false) (SFmul prec emax (S754_finite false m e) sf_08) = true.
Proof.
  intros Hb Hv. rewrite SFmul_sf_08 in *.
  pose proof (mul_08_exponent m e Hb) as He1. cbv zeta in He1.
  pose proof (binary_round_aux_upper (m * 7205759403792794) (e + -53)) as H.
  cbv zeta in H. specialize (H ltac:(lia)).
  set (e1 := fexp prec emax (Z.pos (digits2_pos (m * 7205759403792794)) + (e + -53))) in *.
  pose proof (bounded_canonical m e Hb) as (Hemin & Hhi & _).
  assert (Hemax : e <= emax - prec).
  { unfold bounded in Hb. apply andb_prop in Hb as [_ Hb]. apply Z.leb_le in Hb. exact Hb. }
  set (U := 2 ^ (e1 - (e + -53))) in *.
  assert (HU : 0 < U) by (apply Z.pow_pos_nonneg; lia).
  set (K := Z.pos m * 2 ^ (e - e1)).
  assert (HK : Z.pos m * 2 ^ 53 = K * U).
  { subst K U. rewrite <- Z.mul_assoc, <- Z.pow_add_r by lia. do 2 f_equal. lia. }
  assert (HP : Z.pos (m * 7205759403792794) < K * U).
  { rewrite <- HK, Pos2Z.inj_mul. change (2 ^ 53) with 9007199254740992. lia. }
  destruct (binary_round_aux _ _ _ _ _ _) as [s|s| |s m3 e3].
  - subst s. split; reflexivity.
  - exfalso. destruct H as [_ [Hgt|[E1 Hc]]]; [lia|].
    assert (HKm : K = Z.pos m).
    { subst K. replace (e - e1) with 0 by lia. lia. }
    change (2 ^ 53) with 9007199254740992 in *. nia.
  - destruct H.
  - destruct H as (-> & He3 & Hup). split; [|reflexivity].
    cbn [valid_binary] in Hv.
    apply SFleb_of_value; [exact Hv | exact Hb|].
    unfold sval.
    set (J := Z.pos m3 * 2 ^ (e3 - e1)).
    assert (HJ : Z.pos m3 * 2 ^ (e3 - (e + -53)) = J * U).
    { subst J U. rewrite <- Z.mul_assoc, <- Z.pow_add_r by lia. do 2 f_equal. lia. }
    rewrite HJ in Hup.
    assert (HJK : J <= K) by nia.
    assert (HB : 0 < 2 ^ (e + -53 + 1200)) by (apply Z.pow_pos_nonneg; lia).
    replace (2 ^ (e3 + 1200)) with (2 ^ (e3 - (e + -53)) * 2 ^ (e + -53 + 1200))
      by (rewrite <- Z.pow_add_r by lia; f_equal; lia).
    replace (2 ^ (e + 1200)) with (2 ^ 53 * 2 ^ (e + -53 + 1200))
      by (rewrite <- Z.pow_add_r by lia; f_equal; lia).
    rewrite !Z.mul_assoc, HJ, HK.
    apply Z.mul_le_mono_nonneg_r; [lia|].
    apply Z.mul_le_mono_nonneg_r; [lia | exact HJK].
Qed.

End Product.

Lemma float_mul_08_bounds (c : float) :
  (0 <=? c)%float = true ->
  (0 <=? c * 0.8)%float = true ∧ (c * 0.8 <=? c)%float = true.
Proof.
  rewrite !leb_spec, mul_spec.
  pose proof (Prim2SF_valid c) as Hc.
  pose proof (Prim2SF_valid (c * 0.8)%float) as HP. rewrite mul_spec in HP.
  change (Prim2SF 0.8) with sf_08 in *.
  change (Prim2SF 0) with (S754_zero false).
  unfold SF64mul in *.
  destruct (Prim2SF c) as [s|s| |s m e]; intros H0.
  - destruct s; split; reflexivity.
  - destruct s; [discriminate|]. split; reflexivity.
  - discriminate.
  - destruct s; [discriminate|]. cbn [valid_binary] in Hc.
    destruct (SFmul_sf_08_le m e Hc HP) as [H1 H2]. split; assumption.
Qed.

Lemma transformed_certainty_bounds
    (h : Host) (self : OntologicalRelation.t) (new_type new_target : option str) :
  (0 <=? OntologicalRelation.certainty self)%float = true ->
  (0 <=? OntologicalRelation.certainty
           (OntologicalRelation.transform h self new_type new_target).1)%float = true
  ∧ (OntologicalRelation.certainty
       (OntologicalRelation.transform h self new_type new_target).1
     <=? OntologicalRelation.certainty self)%float = true.
Proof.
  intros H0.
  destruct (transform_successor h self new_type new_target)
    as (_ & _ & _ & _ & _ & _ & Hc & _).
  cbv zeta in Hc. rewrite Hc, (float_mul_comm 0.8).
  apply float_mul_08_bounds, H0.
Qed.

(** X24: [transform] never raises the certainty.  For a relation whose
    certainty is not negative (and not NaN), the certainty of the successor,
    the binary64 product with 0.8, lies between 0 and the certainty of the
    original; so a certainty of at most 1 stays at most 1. *)
Theorem transform_certainty_bounds
    (h : Host) (self : OntologicalRelation.t) (new_type new_target : option str) :
  (0 <=? OntologicalRelation.certainty self)%float = true ->
  (0 <=? OntologicalRelation.certainty
           (OntologicalRelation.transform h self new_type new_target).1)%float = true
  ∧ (OntologicalRelation.certainty
       (OntologicalRelation.transform h self new_type new_target).1
     <=? OntologicalRelation.certainty self)%float = true
  ∧ ((OntologicalRelation.certainty self <=? 1)%float = true ->
     (OntologicalRelation.certainty
        (OntologicalRelation.transform h self new_type new_target).1 <=? 1)%float = true).
Proof.
  intros H0.
  destruct (transformed_certainty_bounds h self new_type new_target H0) as [Hlo Hhi].
  split_and!; [exact Hlo | exact Hhi|].
  intros H1. exact (float_leb_trans _ _ _ Hhi H1).
Qed.

Lemma transform_certainty_bounds_witness :
  (OntologicalRelation.certainty
     (OntologicalRelation.transform sample_host
        (sample_relation (u "Λ") 0.7%float 0.0%float true) None None).1
   <=? 0.7)%float = true.
Proof.
  destruct (transform_certainty_bounds sample_host
              (sample_relation (u "Λ") 0.7%float 0.0%float true) None None eq_refl)
    as (_ & Hle & _).
  exact Hle.
Defined.

(** X25: the certainty never leaves the range from 0 to 1.  Starting from
    an active relation whose certainty lies in that range, every run of
    [activate] and [transform] calls, each transformation handing over to
    its successor, succeeds and ends in an active relation whose certainty
    lies in the range again. *)
Theorem lineage_keeps_certainty_in_range
    (calls : list lineage_call) (self : OntologicalRelation.t) :
  OntologicalRelation.is_active self = true ->
  (0 <=? OntologicalRelation.certainty self)%float = true ->
  (OntologicalRelation.certainty self <=? 1)%float = true ->
  ∃ self',
    lineage calls self = Ok self'
    ∧ OntologicalRelation.is_active self' = true
    ∧ (0 <=? OntologicalRelation.certainty self')%float = true
    ∧ (OntologicalRelation.certainty self' <=? 1)%float = true.
Proof.
  revert self. induction calls as [|[h context|h nt ntg] calls IH]; intros self Hact H0 H1.
  - exists self. cbn [lineage]. split_and!; [reflexivity | assumption..].
  - destruct (activate_step h self context Hact H0 H1)
      as (res & self1 & E & Hact1 & Hle & Hhi & _).
    destruct (IH self1 Hact1 (float_leb_trans _ _ _ H0 Hle) Hhi) as (self' & E' & H').
    exists self'. cbn [lineage]. rewrite E. cbn [bind snd]. split; [exact E' | exact H'].
  - destruct (transformed_certainty_bounds h self nt ntg H0) as (Hlo & Hhi).
    destruct (transform_successor h self nt ntg)
      as (_ & _ & _ & _ & _ & _ & _ & _ & _ & _ & _ & _ & _ & Hact1 & _).
    destruct (IH _ Hact1 Hlo (float_leb_trans _ _ _ Hhi H1)) as (self' & E' & H').
    exists self'. cbn [lineage]. split; [exact E' | exact H'].
Qed.

Lemma lineage_keeps_certainty_in_range_witness :
  ∃ self',
    lineage [ CallActivate sample_host None; CallTransform sample_host (Some (u "Σ")) None;
              CallActivate sample_host None ]
      (sample_relation (u "Λ") 0.7%float 0.0%float true) = Ok self'
    ∧ (OntologicalRelation.certainty self' <=? 1)%float = true.
Proof.
  destruct (lineage_keeps_certainty_in_range
              [ CallActivate sample_host None; CallTransform sample_host (Some (u "Σ")) None;
                CallActivate sample_host None ]
              (sample_relation (u "Λ") 0.7%float 0.0%float true)
              eq_refl eq_refl eq_refl)
    as (self' & E & _ & _ & Hhi).
  exists self'. split; [exact E | exact Hhi].
Defined.
